(** * A shallow embedding of the 6502 simulator and assembler (6502sim.js)

    The development follows the layout of the JavaScript source:
    - [JS]: the fragment of JavaScript's value semantics the program relies
      on (numbers, [NaN], [undefined], the 32-bit bitwise operators,
      [parseInt], [Number.prototype.toString]);
    - the global objects [memory], [P], [MPU], [stack] and the other global
      variables, gathered in the record [world];
    - a state-and-exception monad [M] in which the functions of the source
      are transcribed statement by statement;
    - the assembler's value helpers ([convertValue], [addValue],
      [getHighLowByte]) and the branch fixup loop of [assembleProgram];
    - [executeInstruction] with its 156 opcode cases, [brkInterrupt], the
      input handlers and the reset block of [execute];
    - the theorems.

    Numbers are modelled by exact integers.  Every number the program
    computes is an integer, and the model agrees with IEEE doubles as long
    as magnitudes stay below 2^53. *)

From Stdlib Require Import ZArith Lia Bool List Ascii String.
From stdpp Require Import base countable gmap strings.

Local Open Scope Z_scope.

(** ** JavaScript values *)

Module JS.

(** The values stored in registers, flags and memory cells: a number, [NaN]
    (the result of arithmetic on [undefined]) or [undefined] (an array hole
    or a missing property). *)
Inductive value : Type :=
  | Num (n : Z)
  | NaN
  | Undefined.

#[global] Instance value_eq_dec : EqDecision value.
Proof. solve_decision. Defined.

Definition value_to_sum (v : value) : Z + bool :=
  match v with
  | Num n => inl n
  | NaN => inr true
  | Undefined => inr false
  end.

Definition value_of_sum (s : Z + bool) : value :=
  match s with
  | inl n => Num n
  | inr true => NaN
  | inr false => Undefined
  end.

#[global] Instance value_countable : Countable value.
Proof.
  refine (inj_countable' value_to_sum value_of_sum _).
  intros v. destruct v; reflexivity.
Defined.

(** [ToInt32] and [ToUint32] of ECMAScript: [NaN] and [undefined] become 0,
    numbers are reduced modulo 2^32 ([Z.land] with 2^32 - 1 is that
    reduction, see [wrap32_mod_spec]) and, for [ToInt32], taken in
    [-2^31, 2^31). *)
Definition wrap32 (n : Z) : Z :=
  let m := Z.land n 0xFFFFFFFF in
  if m <? 0x80000000 then m else m - 0x100000000.

Definition ToInt32 (v : value) : Z :=
  match v with
  | Num n => wrap32 n
  | NaN | Undefined => 0
  end.

Definition ToUint32 (v : value) : Z :=
  match v with
  | Num n => Z.land n 0xFFFFFFFF
  | NaN | Undefined => 0
  end.

(** Arithmetic: [undefined] converts to [NaN], which is absorbing. *)
Definition add (a b : value) : value :=
  match a, b with
  | Num x, Num y => Num (x + y)
  | _, _ => NaN
  end.

Definition sub (a b : value) : value :=
  match a, b with
  | Num x, Num y => Num (x - y)
  | _, _ => NaN
  end.

Definition mul (a b : value) : value :=
  match a, b with
  | Num x, Num y => Num (x * y)
  | _, _ => NaN
  end.

Definition neg (a : value) : value :=
  match a with
  | Num x => Num (- x)
  | _ => NaN
  end.

(** The bitwise operators [&], [|], [^], [~], [<<], [>>] and [>>>]. *)
Definition band (a b : value) : value := Num (Z.land (ToInt32 a) (ToInt32 b)).
Definition bor (a b : value) : value := Num (Z.lor (ToInt32 a) (ToInt32 b)).
Definition bxor (a b : value) : value := Num (Z.lxor (ToInt32 a) (ToInt32 b)).
Definition bnot (a : value) : value := Num (Z.lnot (ToInt32 a)).
Definition shl (a b : value) : value :=
  Num (wrap32 (Z.shiftl (ToInt32 a) (Z.land (ToUint32 b) 31))).
Definition sar (a b : value) : value :=
  Num (Z.shiftr (ToInt32 a) (Z.land (ToUint32 b) 31)).
Definition shr (a b : value) : value :=
  Num (Z.shiftr (ToUint32 a) (Z.land (ToUint32 b) 31)).

(** Relational operators: any comparison with [NaN] or [undefined] is
    false. *)
Definition lt (a b : value) : bool :=
  match a, b with
  | Num x, Num y => x <? y
  | _, _ => false
  end.

Definition gt (a b : value) : bool := lt b a.

Definition le (a b : value) : bool :=
  match a, b with
  | Num x, Num y => x <=? y
  | _, _ => false
  end.

Definition ge (a b : value) : bool := le b a.

(** [a == b] on the values at hand, and [a != b]. *)
Definition eq (a b : value) : bool :=
  match a, b with
  | Num x, Num y => x =? y
  | Undefined, Undefined => true
  | _, _ => false
  end.

Definition ne (a b : value) : bool := negb (eq a b).

(** Truthiness in a condition: 0, [NaN] and [undefined] are falsy. *)
Definition truthy (v : value) : bool :=
  match v with
  | Num n => negb (n =? 0)
  | NaN | Undefined => false
  end.

(** The global function [isNaN]. *)
Definition isNaN (v : value) : bool :=
  match v with
  | Num _ => false
  | NaN | Undefined => true
  end.

(** [Math.pow(2,v)] for the integer exponents the program uses. *)
Definition pow2 (v : value) : value :=
  match v with
  | Num n => Num (2 ^ n)
  | _ => NaN
  end.

End JS.

Export JS.

Coercion Num : Z >-> value.

Declare Scope js_scope.
Delimit Scope js_scope with js.
Infix "+'" := add (at level 50, left associativity) : js_scope.
Infix "-'" := sub (at level 50, left associativity) : js_scope.
Infix "&'" := band (at level 40, left associativity) : js_scope.
Infix "|'" := bor (at level 40, left associativity) : js_scope.
Infix "^'" := bxor (at level 40, left associativity) : js_scope.
Infix "<<'" := shl (at level 40, left associativity) : js_scope.
Infix ">>'" := sar (at level 40, left associativity) : js_scope.
Infix ">>>'" := shr (at level 40, left associativity) : js_scope.
Infix "<'" := lt (at level 70, no associativity) : js_scope.
Infix ">'" := gt (at level 70, no associativity) : js_scope.
Infix ">='" := ge (at level 70, no associativity) : js_scope.
Infix "=='" := eq (at level 70, no associativity) : js_scope.
Infix "!='" := ne (at level 70, no associativity) : js_scope.
Local Open Scope js_scope.

(** ** Global state

    The source keeps its state in global variables.  Each global object
    becomes a record with the properties the program reads and writes. *)

(** [memoryObj]: the array [mem] (a map from property key to value, with the
    [length] an array carries) and the property [PC].  A hole of [mem], a
    cell assigned [undefined] and an index past the end all read as
    [undefined]. *)
Record memoryObj : Type := {
  mem : gmap value value;
  mem_length : Z;
  PC : value
}.

(** The global variable [memory] is bound to a [memoryObj] when the script is
    loaded; case 0x00 of [executeInstruction] assigns a number to it. *)
Inductive memory_binding : Type :=
  | MemoryObject (m : memoryObj)
  | MemoryPrimitive (v : value).

(** [PObj]: the property [flags] ([undefined] until [reset] first assigns
    it: the [var flags] of the constructor is not a property). *)
Record PObj : Type := { flags : value }.

Record MPUObj : Type := { A : value; X : value; Y : value }.

Record stackObj : Type := { SP : value }.

(** Calls to the collaborators (screen, beeper, status window, output area,
    console), recorded in the order they happen, newest first. *)
Inductive message : Type :=
  | msg_halted
  | msg_invalid_instruction (pc byte : value)
  | msg_maskable_key
  | msg_maskable_mouse
  | msg_stopped
  | msg_starting (pc : value).

Inductive event : Type :=
  | screen_drawPixel (x y color : value)
  | screen_clear
  | beep
  | statusWindow_write (msg : message)
  | statusWindow_writeError (msg : message)
  | output_reset
  | output_br
  | output_text (code : value)
  | console_log (byte : value)
  | debug_updateDebug.

(** [instructionTimer]: [null], [false] (assigned by WAI) or the handle of
    [setInterval(doInstruction,interval)]. *)
Inductive timer : Type :=
  | timer_null
  | timer_false
  | timer_interval (interval : value).

(** The callback [brkInterrupt] hands to [setTimeout]. *)
Inductive callback : Type :=
  | brk_callback.

(** The remaining globals of the simulator, the pending [setTimeout]
    callbacks and the form fields the code reads ([executionInterval] after
    [parseInt], the two maskable-interrupt check boxes). *)
Record hostState : Type := {
  debugOn : bool;
  instructionTimer : timer;
  programExecuting : bool;
  input : list Z;
  events : list event;
  timeouts : list callback;
  executionInterval : value;
  keymaskableinterrupt : bool;
  mousemaskableinterrupt : bool
}.

(** The assembler's tables.  [constants] maps a name to its textual value,
    [labels] a name to the value of [memory.PC] when the label was seen;
    [branchTracker] is the flat array of the source read two cells at a time
    (operand address, label text).  Only the properties the assembler itself
    defines are modelled: names inherited from [Object.prototype] are not
    table entries. *)
Record asmState : Type := {
  constants : gmap string string;
  labels : gmap string value;
  branchTracker : list (value * string)
}.

Record world : Type := {
  memory : memory_binding;
  P : PObj;
  MPU : MPUObj;
  stack : stackObj;
  host : hostState;
  asm : asmState
}.

(** Exceptions: the assembler's own (with their number [num]) and the
    [TypeError] JavaScript raises when a non-function is called. *)
Inductive exn : Type :=
  | TypeError
  | labelNotFound (label : string) (branch : bool)
  | branchOutOfRange (label : string) (range : value)
  | constantNotDefined (cons : string)
  | getHighLowByteArgs
  | convertValueError (v : string)
  | addValueError (i v : string).

Definition num (e : exn) : option Z :=
  match e with
  | TypeError => None
  | labelNotFound _ branch => Some (if branch then 2 else 1)
  | branchOutOfRange _ _ => Some 3
  | constantNotDefined _ => Some 7
  | getHighLowByteArgs => Some 8
  | convertValueError _ => Some 17
  | addValueError _ _ => Some 18
  end.

(** ** The monad of the transcription

    A computation runs in a world and either returns a value and the new
    world or throws, leaving the world as it was at the [throw]. *)
Inductive result (T : Type) : Type :=
  | Done (a : T) (w : world)
  | Raise (e : exn) (w : world).

Arguments Done {T} a w.
Arguments Raise {T} e w.

Definition M (T : Type) : Type := world -> result T.

Definition ret {T : Type} (a : T) : M T := fun w => Done a w.

Definition bind {T U : Type} (c : M T) (k : T -> M U) : M U :=
  fun w =>
    match c w with
    | Done a w' => k a w'
    | Raise e w' => Raise e w'
    end.

Definition throw {T : Type} (e : exn) : M T := fun w => Raise e w.

Definition get : M world := fun w => Done w w.

Definition modify (f : world -> world) : M unit := fun w => Done tt (f w).

Notation "'let*' x ':=' c 'in' k" := (bind c (fun x => k))
  (at level 10, x name, c at level 100, k at level 200).
Notation "c ';;' k" := (bind c (fun _ => k))
  (at level 100, k at level 200, right associativity).

Definition when (b : bool) (c : M unit) : M unit :=
  if b then c else ret tt.

(** ** Field updates *)

Definition with_memory (b : memory_binding) (w : world) : world :=
  {| memory := b; P := P w; MPU := MPU w; stack := stack w; host := host w;
     asm := asm w |}.

Definition with_flags (v : value) (w : world) : world :=
  {| memory := memory w; P := {| flags := v |}; MPU := MPU w;
     stack := stack w; host := host w; asm := asm w |}.

Definition with_MPU (r : MPUObj) (w : world) : world :=
  {| memory := memory w; P := P w; MPU := r; stack := stack w;
     host := host w; asm := asm w |}.

Definition with_SP (v : value) (w : world) : world :=
  {| memory := memory w; P := P w; MPU := MPU w; stack := {| SP := v |};
     host := host w; asm := asm w |}.

Definition with_host (h : hostState) (w : world) : world :=
  {| memory := memory w; P := P w; MPU := MPU w; stack := stack w;
     host := h; asm := asm w |}.

Definition with_asm (a : asmState) (w : world) : world :=
  {| memory := memory w; P := P w; MPU := MPU w; stack := stack w;
     host := host w; asm := a |}.

Definition set_A (v : value) : M unit :=
  modify (fun w => with_MPU {| A := v; X := X (MPU w); Y := Y (MPU w) |} w).

Definition set_X (v : value) : M unit :=
  modify (fun w => with_MPU {| A := A (MPU w); X := v; Y := Y (MPU w) |} w).

Definition set_Y (v : value) : M unit :=
  modify (fun w => with_MPU {| A := A (MPU w); X := X (MPU w); Y := v |} w).

Definition get_A : M value := fun w => Done (A (MPU w)) w.
Definition get_X : M value := fun w => Done (X (MPU w)) w.
Definition get_Y : M value := fun w => Done (Y (MPU w)) w.

Definition get_SP : M value := fun w => Done (SP (stack w)) w.
Definition set_SP (v : value) : M unit := modify (with_SP v).

Definition get_flags : M value := fun w => Done (flags (P w)) w.
Definition set_flags (v : value) : M unit := modify (with_flags v).

Definition emit (e : event) : M unit :=
  modify (fun w =>
    with_host
      {| debugOn := debugOn (host w);
         instructionTimer := instructionTimer (host w);
         programExecuting := programExecuting (host w);
         input := input (host w);
         events := e :: events (host w);
         timeouts := timeouts (host w);
         executionInterval := executionInterval (host w);
         keymaskableinterrupt := keymaskableinterrupt (host w);
         mousemaskableinterrupt := mousemaskableinterrupt (host w) |} w).

Definition set_instructionTimer (t : timer) : M unit :=
  modify (fun w =>
    with_host
      {| debugOn := debugOn (host w);
         instructionTimer := t;
         programExecuting := programExecuting (host w);
         input := input (host w);
         events := events (host w);
         timeouts := timeouts (host w);
         executionInterval := executionInterval (host w);
         keymaskableinterrupt := keymaskableinterrupt (host w);
         mousemaskableinterrupt := mousemaskableinterrupt (host w) |} w).

Definition set_programExecuting (b : bool) : M unit :=
  modify (fun w =>
    with_host
      {| debugOn := debugOn (host w);
         instructionTimer := instructionTimer (host w);
         programExecuting := b;
         input := input (host w);
         events := events (host w);
         timeouts := timeouts (host w);
         executionInterval := executionInterval (host w);
         keymaskableinterrupt := keymaskableinterrupt (host w);
         mousemaskableinterrupt := mousemaskableinterrupt (host w) |} w).

Definition set_input (s : list Z) : M unit :=
  modify (fun w =>
    with_host
      {| debugOn := debugOn (host w);
         instructionTimer := instructionTimer (host w);
         programExecuting := programExecuting (host w);
         input := s;
         events := events (host w);
         timeouts := timeouts (host w);
         executionInterval := executionInterval (host w);
         keymaskableinterrupt := keymaskableinterrupt (host w);
         mousemaskableinterrupt := mousemaskableinterrupt (host w) |} w).

Definition setTimeout (c : callback) : M unit :=
  modify (fun w =>
    with_host
      {| debugOn := debugOn (host w);
         instructionTimer := instructionTimer (host w);
         programExecuting := programExecuting (host w);
         input := input (host w);
         events := events (host w);
         timeouts := timeouts (host w) ++ [c];
         executionInterval := executionInterval (host w);
         keymaskableinterrupt := keymaskableinterrupt (host w);
         mousemaskableinterrupt := mousemaskableinterrupt (host w) |} w).

(** [clearInterval(instructionTimer); instructionTimer = null;] *)
Definition clearInterval_null : M unit := set_instructionTimer timer_null.

(** ** [memoryObj] *)

(** [mem[a] = v] on a JavaScript array: the property is set, and [length]
    grows when [a] is an array index at or past the end. *)
Definition array_set (a v : value) (m : memoryObj) : memoryObj :=
  {| mem := <[a := v]> (mem m);
     mem_length :=
       match a with
       | Num n =>
           if (0 <=? n) && (n <? 2 ^ 32 - 1) && (mem_length m <=? n)
           then n + 1 else mem_length m
       | NaN | Undefined => mem_length m
       end;
     PC := PC m |}.

(** [mem[a]] *)
Definition array_get (a : value) (m : memoryObj) : value :=
  default Undefined (mem m !! a).

(** The expressions [memory.PC] and [memory.size]: property reads, which
    give [undefined] when [memory] is a number. *)
Definition memory_PC : M value :=
  fun w =>
    match memory w with
    | MemoryObject m => Done (PC m) w
    | MemoryPrimitive _ => Done Undefined w
    end.

Definition memory_size : M value :=
  fun w =>
    match memory w with
    | MemoryObject m => Done (Num (mem_length m)) w
    | MemoryPrimitive _ => Done Undefined w
    end.

(** [memory.PC = v].  The script is not in strict mode: assigning a property
    of a primitive does nothing. *)
Definition set_memory_PC (v : value) : M unit :=
  modify (fun w =>
    match memory w with
    | MemoryObject m =>
        with_memory
          (MemoryObject {| mem := mem m; mem_length := mem_length m; PC := v |})
          w
    | MemoryPrimitive _ => w
    end).

(** A method call [memory.f(...)]: the method runs on the object [memory]
    is bound to, and calling a property of a number is a [TypeError]. *)
Definition memory_method {T : Type} (f : memoryObj -> M T) : M T :=
  fun w =>
    match memory w with
    | MemoryObject m => f m w
    | MemoryPrimitive _ => Raise TypeError w
    end.

Definition update_memoryObj (f : memoryObj -> memoryObj) : M unit :=
  modify (fun w =>
    match memory w with
    | MemoryObject m => with_memory (MemoryObject (f m)) w
    | MemoryPrimitive _ => w
    end).

(** [function read(addr) { return mem[addr]; }] *)
Definition memory_read (addr : value) : M value :=
  memory_method (fun m => ret (array_get addr m)).

(** [function readWord(addr) { return (mem[addr] | (mem[addr+1] << 8)); }] *)
Definition memory_readWord (addr : value) : M value :=
  memory_method (fun m =>
    ret (array_get addr m |' (array_get (addr +' 1) m <<' 8))).

(** The body of [writeByte(v,addr)]; [recur] stands for the two calls
    [memory.writeByte(0,addr)] the body makes.  An [addr] that is
    [undefined] (omitted, or passed as such) selects [this.PC].  The value
    the function returns ([true], or [v]) is used by none of the callers
    modelled here and is left out. *)
Definition writeByte_body (recur : value -> value -> M unit)
    (v addr : value) : M unit :=
  memory_method (fun _ =>
    let* addr :=
      (if addr ==' Undefined
       then let* pc := memory_PC in
            set_memory_PC (pc +' 1) ;;
            ret pc
       else ret addr) in
    if isNaN v then
      update_memoryObj (array_set addr v)
    else
      update_memoryObj (array_set addr (v &' 0xff)) ;;
      (if (addr >' 0x1ff) && (addr <' 0x6b0)
       then
         let* color := memory_read addr in
         emit (screen_drawPixel
                 (match addr -' 512 with
                  | Num n => Num (Z.rem n 40)
                  | _ => NaN
                  end)
                 (match addr -' 512 with
                  | Num n => Num (n / 40)
                  | _ => NaN
                  end)
                 color)
       else ret tt) ;;
      (if (addr ==' 0x6b0) && (v >' 0)
       then emit screen_clear ;; recur 0 addr
       else ret tt) ;;
      (if (addr ==' 0x6b1) && (v >' 0)
       then emit beep ;; recur 0 addr
       else ret tt)).

(** [memory.writeByte(v,addr)].  The inner calls write 0, for which the body
    calls itself no further, so two levels of the body are the function. *)
Definition memory_writeByte (v addr : value) : M unit :=
  writeByte_body (writeByte_body (fun _ _ => ret tt)) v addr.

(** [memory.writeWord(v,addr)] *)
Definition memory_writeWord (v addr : value) : M value :=
  memory_method (fun _ =>
    if addr ==' Undefined then
      update_memoryObj (fun m => array_set (PC m) (v &' 0xff) m) ;;
      (let* pc := memory_PC in set_memory_PC (pc +' 1)) ;;
      update_memoryObj (fun m => array_set (PC m) ((v >>' 8) &' 0xff) m) ;;
      (let* pc := memory_PC in set_memory_PC (pc +' 1)) ;;
      memory_PC
    else
      update_memoryObj (array_set addr (v &' 0xff)) ;;
      update_memoryObj (array_set (addr +' 1) ((v >>' 8) &' 0xff)) ;;
      ret (Num 0)).

(** [memory.reset()] *)
Definition memory_reset : M unit :=
  memory_method (fun _ =>
    update_memoryObj (fun _ =>
      {| mem := empty; mem_length := 65536; PC := 0x0800 |})).

(** ** [PObj]

    The methods of [P] read and write the one property [flags]: each is a
    function from the old value of [flags] to the new one, which the
    wrappers [P_...] apply to the global object. *)

(** [reset()] *)
Definition reset (f : value) : value := 36.

(** [setBit(v)] *)
Definition setBit (v : value) (f : value) : value :=
  if (v <' 0) || (v >' 7) then f else f |' pow2 v.

(** [clearBit(v)] *)
Definition clearBit (v : value) (f : value) : value :=
  if (v <' 0) || (v >' 7) then f else f &' bnot (pow2 v).

(** [setFlagsTo(v)] *)
Definition setFlagsTo (v : value) (f : value) : value := v.

(** [setZN(v)]: the left operand of the outer [&] (the N part) runs first,
    then the right one (the Z part). *)
Definition setZN (v : value) (f : value) : value :=
  let f := if (v &' 0x80) >' 0 then f |' 0xa0 else f &' 0x7f in
  if v ==' 0 then f |' 0x02 else f &' 0xfd.

(** The getters [C], [Z], [I], [D], [B], [V], [N]. *)
Definition get_C (f : value) : bool := (f &' 1) >' 0.
Definition get_Z (f : value) : bool := (f &' 2) >' 0.
Definition get_I (f : value) : bool := (f &' 4) >' 0.
Definition get_D (f : value) : bool := (f &' 8) >' 0.
Definition get_B (f : value) : bool := (f &' 16) >' 0.
Definition get_V (f : value) : bool := (f &' 64) >' 0.
Definition get_N (f : value) : bool := (f &' 128) >' 0.

(** The setters [C = v], ..., [N = v], which share one shape:
    [if (v) flags |= bit; else flags = (flags & (~bit) | 32)]. *)
Definition set_flag (bit : Z) (v : bool) (f : value) : value :=
  if v then f |' bit else (f &' bnot bit) |' 32.

Definition set_C : bool -> value -> value := set_flag 1.
Definition set_Z : bool -> value -> value := set_flag 2.
Definition set_I : bool -> value -> value := set_flag 4.
Definition set_D : bool -> value -> value := set_flag 8.
Definition set_B : bool -> value -> value := set_flag 16.
Definition set_V : bool -> value -> value := set_flag 64.
Definition set_N : bool -> value -> value := set_flag 128.

(** The calls on the global object [P]. *)
Definition P_method (f : value -> value) : M unit :=
  modify (fun w => with_flags (f (flags (P w))) w).

Definition P_reset : M unit := P_method reset.
Definition P_setBit (v : value) : M unit := P_method (setBit v).
Definition P_clearBit (v : value) : M unit := P_method (clearBit v).
Definition P_setFlagsTo (v : value) : M unit := P_method (setFlagsTo v).
Definition P_setZN (v : value) : M unit := P_method (setZN v).
Definition P_getFlags : M value := get_flags.
Definition P_C : M bool := fun w => Done (get_C (flags (P w))) w.
Definition P_Z : M bool := fun w => Done (get_Z (flags (P w))) w.
Definition P_I : M bool := fun w => Done (get_I (flags (P w))) w.
Definition P_D : M bool := fun w => Done (get_D (flags (P w))) w.
Definition P_V : M bool := fun w => Done (get_V (flags (P w))) w.
Definition P_N : M bool := fun w => Done (get_N (flags (P w))) w.

(** ** [stackObj] and [MPUObj] *)

(** [stack.push(val)]; the value of [writeByte] it returns is used by no
    caller. *)
Definition stack_push (val : value) : M unit :=
  let* sp := get_SP in
  memory_writeByte val (0x100 +' sp) ;;
  let* sp := get_SP in
  set_SP (sp -' 1) ;;
  let* sp := get_SP in
  when (sp <' 0) (set_SP 0xff).

(** [stack.pull()] *)
Definition stack_pull : M value :=
  let* sp := get_SP in
  set_SP (sp +' 1) ;;
  let* sp := get_SP in
  when (sp >' 0xff) (set_SP 0) ;;
  let* sp := get_SP in
  memory_read (0x100 +' sp).

(** [stack.reset()] *)
Definition stack_reset : M unit := set_SP 0xff.

(** [MPU.reset()] *)
Definition MPU_reset : M unit := set_A 0 ;; set_X 0 ;; set_Y 0.

(** ** Conversion helpers of the source *)

(** [getTwosComplement(v)] *)
Definition getTwosComplement (v : value) : value :=
  if truthy (v &' 128) then neg ((bnot v &' 0xff) +' 1) else v.

(** [bcd(b)] *)
Definition bcd (b : value) : value :=
  (b &' 15) +' mul ((b >>>' 4) &' 15) 10.

(** ** JavaScript strings

    Tokens of the assembler are modelled as [string]s of 8-bit characters:
    assembly source is taken to be ASCII. *)

Definition char_code (c : ascii) : Z := Z.of_N (N_of_ascii c).

Definition is_digit (c : ascii) : bool :=
  (48 <=? char_code c) && (char_code c <=? 57).

Definition is_bin_digit (c : ascii) : bool :=
  (48 <=? char_code c) && (char_code c <=? 49).

(** [[A-F0-9]] under the [i] flag. *)
Definition is_hex_digit (c : ascii) : bool :=
  is_digit c
  || ((65 <=? char_code c) && (char_code c <=? 70))
  || ((97 <=? char_code c) && (char_code c <=? 102)).

(** [\w] *)
Definition is_word_char (c : ascii) : bool :=
  is_digit c
  || ((65 <=? char_code c) && (char_code c <=? 90))
  || ((97 <=? char_code c) && (char_code c <=? 122))
  || (char_code c =? 95).

(** The value of a character as a digit of [parseInt], if it is one. *)
Definition digit_value (c : ascii) : option Z :=
  if is_digit c then Some (char_code c - 48)
  else if (65 <=? char_code c) && (char_code c <=? 90)
  then Some (char_code c - 55)
  else if (97 <=? char_code c) && (char_code c <=? 122)
  then Some (char_code c - 87)
  else None.

Definition is_radix_digit (radix : Z) (c : ascii) : bool :=
  match digit_value c with
  | Some d => d <? radix
  | None => false
  end.

Fixpoint all_chars (p : ascii -> bool) (s : string) : bool :=
  match s with
  | EmptyString => true
  | String c r => p c && all_chars p r
  end.

(** [x+] anchored at both ends: a non-empty run. *)
Definition one_or_more (p : ascii -> bool) (s : string) : bool :=
  match s with
  | EmptyString => false
  | String _ _ => all_chars p s
  end.

(** The longest prefix of [s] whose characters satisfy [p], and the rest. *)
Fixpoint span (p : ascii -> bool) (s : string) : string * string :=
  match s with
  | EmptyString => (EmptyString, EmptyString)
  | String c r =>
      if p c then let (a, b) := span p r in (String c a, b)
      else (EmptyString, s)
  end.

(** [s.substring(0,1)] and [s.substring(1)] *)
Definition first_char (s : string) : string :=
  match s with
  | EmptyString => EmptyString
  | String c _ => String c EmptyString
  end.

Definition rest_chars (s : string) : string :=
  match s with
  | EmptyString => EmptyString
  | String _ r => r
  end.

(** [s.indexOf(c)] for a one-character [c]: [None] stands for -1. *)
Fixpoint indexOf (c : ascii) (s : string) : option nat :=
  match s with
  | EmptyString => None
  | String d r =>
      if Ascii.eqb c d then Some O
      else match indexOf c r with
           | Some n => Some (S n)
           | None => None
           end
  end.

(** [s.substring(0,n)] and [s.substring(n)] for [n] within the string. *)
Fixpoint take_chars (n : nat) (s : string) : string :=
  match n, s with
  | O, _ => EmptyString
  | S n', String c r => String c (take_chars n' r)
  | S _, EmptyString => EmptyString
  end.

Fixpoint drop_chars (n : nat) (s : string) : string :=
  match n, s with
  | O, _ => s
  | S n', String _ r => drop_chars n' r
  | S _, EmptyString => EmptyString
  end.

(** The test [/^([0-9]+|\$[A-F0-9]+|%[01]+)$/i], which the source repeats
    wherever it asks whether a text is a numeric literal. *)
Definition is_literal (s : string) : bool :=
  match s with
  | String "$" r => one_or_more is_hex_digit r
  | String "%" r => one_or_more is_bin_digit r
  | _ => one_or_more is_digit s
  end.

(** *** [parseInt] and [Number.prototype.toString] *)

Fixpoint parse_digits (radix : Z) (s : string) (acc : Z) : Z :=
  match s with
  | EmptyString => acc
  | String c r =>
      parse_digits radix r (acc * radix + default 0 (digit_value c))
  end.

Definition is_white_space (c : ascii) : bool :=
  (char_code c =? 32) || ((9 <=? char_code c) && (char_code c <=? 13)).

(** [parseInt(s,radix)] for a radix of 2, 10 or 16: leading white space is
    skipped, a sign is read, [0x] is skipped for radix 16, and the longest
    run of digits of the radix is the number; no digit gives [NaN].  The
    number is the exact integer the digits denote: it is the number
    JavaScript returns as long as it lies below 2^53, from where on
    JavaScript rounds to the nearest double.  The theorems that read a
    numeral keep its value, and the sums formed from it, below 2^53. *)
Definition parseInt (s : string) (radix : Z) : value :=
  let s := snd (span is_white_space s) in
  let (sign, s) :=
    match s with
    | String "-" r => (-1, r)
    | String "+" r => (1, r)
    | _ => (1, s)
    end in
  let s :=
    if radix =? 16 then
      match s with
      | String "0" (String "x" r) => r
      | String "0" (String "X" r) => r
      | _ => s
      end
    else s in
  match fst (span (is_radix_digit radix) s) with
  | EmptyString => NaN
  | ds => Num (sign * parse_digits radix ds 0)
  end.

Definition digit_char (d : Z) : ascii :=
  ascii_of_N (Z.to_N (if d <? 10 then 48 + d else 87 + d)).

(** The digits of [n] in the given radix, most significant first, in front
    of [acc]. *)
Fixpoint to_digits (fuel : nat) (radix n : Z) (acc : string) : string :=
  match fuel with
  | O => acc
  | S fuel' =>
      let acc' := String (digit_char (n mod radix)) acc in
      if n / radix =? 0 then acc' else to_digits fuel' radix (n / radix) acc'
  end.

(** [n.toString(radix)] for an integer [n]: lower-case digits, a minus sign
    for a negative number. *)
Definition Z_toString (n radix : Z) : string :=
  let digits :=
    to_digits (S (Z.to_nat (Z.log2 (Z.abs n)))) radix (Z.abs n) EmptyString in
  if n <? 0 then String "-" digits else digits.

(** [v.toString(radix)] as a method call on a number value; on
    [undefined] the property access is a [TypeError]. *)
Definition value_toString (v : value) (radix : Z) : M string :=
  match v with
  | Num n => ret (Z_toString n radix)
  | NaN => ret "NaN"%string
  | Undefined => throw TypeError
  end.

(** [parseInt(v)] applied to a number: the number is converted to its
    decimal text, which is then read back. *)
Definition parseInt_of_number (v : value) : value :=
  match v with
  | Num n => parseInt (Z_toString n 10) 10
  | NaN | Undefined => NaN
  end.

(** ** The assembler's value helpers *)

Definition lookup_constant (name : string) : M (option string) :=
  fun w => Done (constants (asm w) !! name) w.

Definition lookup_label (name : string) : M (option value) :=
  fun w => Done (labels (asm w) !! name) w.

(** The prefix by which [getHighLowByte] and [addValue] render a base. *)
Definition base_prefix (base : Z) : string :=
  if base =? 16 then "$" else if base =? 2 then "%" else "".

(** [getHighLowByte(i,v)]; an [undefined] selector is [None]. *)
Definition getHighLowByte (i : string) (v : option string) : M string :=
  match v with
  | None => ret i
  | Some sel =>
      if negb (String.eqb sel "<") && negb (String.eqb sel ">")
      then throw getHighLowByteArgs
      else
        let (i, base) :=
          match i with
          | String "$" r => (r, 16)
          | String "%" r => (r, 2)
          | _ => (i, 10)
          end in
        let t := parseInt i base in
        let t := if String.eqb sel ">" then t >>' 8 else t in
        let* digits := value_toString (t &' 255) base in
        ret (base_prefix base ++ digits)%string
  end.

(** The match of [/^[#\(]?([0-9]+|\$[A-F0-9]+|%[0-1]+)[,\)]?.*/i] in
    [convertValue]: group 1, or [None] when the text does not match.  The
    tail [[,\)]?.*] accepts any rest, so the group is the longest literal
    after an optional [#] or [(]. *)
Definition convertValue_match (v : string) : option string :=
  let v :=
    match v with
    | String "#" r => r
    | String "(" r => r
    | _ => v
    end in
  match v with
  | String "$" r =>
      match fst (span is_hex_digit r) with
      | EmptyString => None
      | ds => Some (String "$" ds)
      end
  | String "%" r =>
      match fst (span is_bin_digit r) with
      | EmptyString => None
      | ds => Some (String "%" ds)
      end
  | _ =>
      match fst (span is_digit v) with
      | EmptyString => None
      | ds => Some ds
      end
  end.

(** [convertValue(v)].  The assignment to [hlb] there creates a global of
    that name, which no other function reads ([assembleProgram],
    [writeInstruction] and [addConstant] declare their own [hlb]). *)
Definition convertValue (v : string) : M value :=
  let* l := lookup_label v in
  match l with
  | Some a => ret a
  | None =>
      let hlb := first_char v in
      let (v, hlb) :=
        if String.eqb hlb "<" || String.eqb hlb ">"
        then (rest_chars v, Some hlb)
        else (v, None) in
      let* c := lookup_constant v in
      let v := default v c in
      let* v := getHighLowByte v hlb in
      match convertValue_match v with
      | None => throw (convertValueError v)
      | Some (String "$" ds) => ret (parseInt ds 16)
      | Some (String "%" ds) => ret (parseInt ds 2)
      | Some ds => ret (parseInt ds 10)
      end
  end.

(** The match of [/^[+-](([0-9]+|\$[A-F0-9]+|%[01]+)|([\w]+))$/i] in
    [addValue]: group 2 ([inl]) or group 3 ([inr]). *)
Definition addValue_match (v : string) : option (string + string) :=
  match v with
  | String c r =>
      if Ascii.eqb c "+" || Ascii.eqb c "-" then
        if is_literal r then Some (inl r)
        else if one_or_more is_word_char r then Some (inr r)
        else None
      else None
  | EmptyString => None
  end.

(** [addValue(i,v)]; an [undefined] second argument is [None]. *)
Definition addValue (i : string) (v : option string) : M string :=
  let* c := lookup_constant i in
  let i := default i c in
  if negb (is_literal i) then ret (i ++ default "" v)%string
  else
    match v with
    | None => ret i
    | Some v =>
        match addValue_match v with
        | None => throw (addValueError i v)
        | Some m =>
            let* s :=
              match m with
              | inl lit => ret lit
              | inr name =>
                  let* c := lookup_constant name in
                  match c with
                  | Some s => ret s
                  | None => throw (constantNotDefined (rest_chars v))
                  end
              end in
            let* n := convertValue s in
            let v :=
              mul n (if String.eqb (first_char v) "-" then Num (-1) else Num 1) in
            match i with
            | String "$" r =>
                let w := if 3 <? Z.of_nat (String.length i)
                         then 65535 else 255 in
                let* digits :=
                  value_toString
                    ((parseInt r 16 +' parseInt_of_number v) &' w) 16 in
                ret ("$" ++ digits)%string
            | String "%" r =>
                let w := if 9 <? Z.of_nat (String.length i)
                         then 65535 else 255 in
                let* digits :=
                  value_toString
                    ((parseInt r 2 +' parseInt_of_number v) &' w) 2 in
                ret ("%" ++ digits)%string
            | _ =>
                let w := if parseInt i 10 >' 255 then 65535 else 255 in
                value_toString
                  ((parseInt i 10 +' parseInt_of_number v) &' w) 10
            end
        end
    end.

(** ** Pass 2 of [assembleProgram]: the [branchTracker] loop *)

(** The split of the tracked text at its first [+], or else its first [-]:
    the label and the offset ([None] for [undefined]). *)
Definition split_offset (lab : string) : string * option string :=
  match indexOf "+" lab with
  | Some n => (take_chars n lab, Some (drop_chars n lab))
  | None =>
      match indexOf "-" lab with
      | Some n => (take_chars n lab, Some (drop_chars n lab))
      | None => (lab, None)
      end
  end.

(** [convertValue(addValue(labels[lab].toString(),plus))] *)
Definition branch_target (a : value) (plus : option string) : M value :=
  let* str := value_toString a 10 in
  let* sum := addValue str plus in
  convertValue sum.

(** One iteration of the loop, for the entry [(addr, text)]. *)
Definition resolve_branch (entry : value * string) : M unit :=
  let (addr, text) := entry in
  let (lab, plus) := split_offset text in
  let* l := lookup_label lab in
  match l with
  | Some a =>
      let* v := branch_target a plus in
      let distance := v -' addr -' 1 in
      if (distance >' 127) || (distance <' Num (-128))
      then throw (branchOutOfRange text distance)
      else
        let distance :=
          if distance <' 0
          then ((bnot (neg distance) +' 1) &' 0xff) |' 128
          else distance in
        memory_writeByte distance addr
  | None => throw (labelNotFound text true)
  end.

Fixpoint resolve_branches (entries : list (value * string)) : M unit :=
  match entries with
  | [] => ret tt
  | e :: rest => resolve_branch e ;; resolve_branches rest
  end.

(** [for (j=0;j<branchTracker.length;j+=2) ...] *)
Definition resolve_branchTracker : M unit :=
  let* w := get in resolve_branches (branchTracker (asm w)).

(** ** The interpreter *)

(** What one call of [executeInstruction] takes from outside: the value of
    [Math.floor(Math.random() * 255)] and the answer [prompt] would give
    ([None] for [null], otherwise the character codes of the line). *)
Record env : Type := {
  random : Z;
  prompt : option (list Z)
}.

(** [memory.PC += k] *)
Definition advance (k : Z) : M unit :=
  let* pc := memory_PC in set_memory_PC (pc +' k).

(** The operand fetches the cases of the switch open with.  The text of each
    is the same wherever a case uses that addressing mode. *)

(** [memory.read(memory.PC + 1)] *)
Definition fetch_byte : M value :=
  let* pc := memory_PC in memory_read (pc +' 1).

(** [memory.readWord(memory.PC + 1)] *)
Definition fetch_word : M value :=
  let* pc := memory_PC in memory_readWord (pc +' 1).

(** [(memory.read(memory.PC + 1) + MPU.X) & 255] *)
Definition addr_zpx : M value :=
  let* t := fetch_byte in let* x := get_X in ret ((t +' x) &' 255).

(** [(memory.read(memory.PC + 1) + MPU.Y) & 255] *)
Definition addr_zpy : M value :=
  let* t := fetch_byte in let* y := get_Y in ret ((t +' y) &' 255).

(** [(memory.readWord(memory.PC + 1) + MPU.X) & 65535] *)
Definition addr_abx : M value :=
  let* t := fetch_word in let* x := get_X in ret ((t +' x) &' 65535).

(** [(memory.readWord(memory.PC + 1) + MPU.Y) & 65535] *)
Definition addr_aby : M value :=
  let* t := fetch_word in let* y := get_Y in ret ((t +' y) &' 65535).

(** [var addr = ...; var b = memory.read(addr);] *)
Definition read_at (addr : M value) : M (value * value) :=
  let* a := addr in let* b := memory_read a in ret (a, b).

(** Indirect X:
    [var addr = (memory.read(memory.PC + 1) + MPU.X) & 255;
     var b = memory.read(memory.readWord(addr));] *)
Definition operand_inx : M value :=
  let* addr := addr_zpx in
  let* p := memory_readWord addr in
  memory_read p.

(** Indirect Y:
    [var addr = memory.read(memory.PC + 1);
     var b = memory.read((memory.readWord(addr) + MPU.Y) & 65535);] *)
Definition operand_iny : M value :=
  let* addr := fetch_byte in
  let* p := memory_readWord addr in
  let* y := get_Y in
  memory_read ((p +' y) &' 65535).

Definition bit_of (c : bool) : value := if c then Num 1 else Num 0.

(** The body the eight ADC cases share, after [b] is fetched and before
    [memory.PC+=2].  It reads and writes [MPU.A] and [P.flags] only, which
    are passed along as [a] and [f]. *)
Definition ADC_body (b : value) (a f : value) : value * value :=
  let binary_sum := a +' b +' bit_of (get_C f) in
  let f := setZN (binary_sum &' 255) f in
  if get_D f then
    let al := (a &' 0x0f) +' (b &' 0x0f) +' bit_of (get_C f) in
    let al := if al >=' 0x0a then ((al +' 0x06) &' 0x0f) +' 0x10 else al in
    let a := (a &' 0xf0) +' (b &' 0xf0) +' al in
    let zna :=
      getTwosComplement a +' getTwosComplement b +' getTwosComplement al in
    let f := if truthy (a &' 128) then setBit 7 f else clearBit 7 f in
    let f := if (zna <' Num (-128)) || (zna >' 127)
             then setBit 6 f else clearBit 6 f in
    let a := if a >=' 0xa0 then a +' 0x60 else a in
    let f := if a >=' 0x100 then setBit 0 f else clearBit 0 f in
    let a := a &' 255 in
    (a, f)
  else
    let f :=
      if negb (truthy ((a ^' b) &' 128)) && truthy ((b ^' binary_sum) &' 128)
      then setBit 6 f else clearBit 6 f in
    let f := if binary_sum >' 255 then setBit 0 f else clearBit 0 f in
    let a := binary_sum &' 255 in
    (a, f).

(** The body the eight SBC cases share. *)
Definition SBC_body (b : value) (a f : value) : value * value :=
  let binary_diff := a -' b -' (if get_C f then Num 0 else Num 1) in
  let f := setZN binary_diff f in
  let twos :=
    getTwosComplement a -' getTwosComplement b -'
    (if get_C f then Num 0 else Num 1) in
  let f := if (twos <' Num (-128)) || (twos >' 127)
           then setBit 6 f else clearBit 6 f in
  let a :=
    if get_D f then
      let al :=
        (a &' 0x0f) -' (b &' 0x0f) -' (if get_C f then Num 0 else Num 1) in
      let al := if al <' 0 then ((al -' 0x06) &' 0x0f) -' 0x10 else al in
      let a := (a &' 0xf0) -' (b &' 0xf0) +' al in
      let a := if a <' 0 then a -' 0x60 else a in
      a &' 255
    else
      binary_diff &' 255 in
  let f := if binary_diff >=' 0 then setBit 0 f else clearBit 0 f in
  (a, f).

(** A body of this kind applied to the global objects [MPU] and [P]. *)
Definition on_A_flags (body : value -> value -> value * value) : M unit :=
  modify (fun w =>
    let (a, f) := body (A (MPU w)) (flags (P w)) in
    with_flags f (with_MPU {| A := a; X := X (MPU w); Y := Y (MPU w) |} w)).

Definition ADC (b : value) : M unit := on_A_flags (ADC_body b).

Definition SBC (b : value) : M unit := on_A_flags (SBC_body b).

(** [MPU.A = (MPU.A & b) & 255; P.setZN(MPU.A);] and its OR and EOR
    twins. *)
Definition AND (b : value) : M unit :=
  let* a := get_A in set_A ((a &' b) &' 255) ;;
  let* a := get_A in P_setZN a.

Definition ORA (b : value) : M unit :=
  let* a := get_A in set_A ((a |' b) &' 255) ;;
  let* a := get_A in P_setZN a.

Definition EOR (b : value) : M unit :=
  let* a := get_A in set_A ((a ^' b) &' 255) ;;
  let* a := get_A in P_setZN a.

(** [var t = MPU.A - b; (t >= 0) ? P.setBit(0) : P.clearBit(0);
     P.setZN(t);] *)
Definition CMP (b : value) : M unit :=
  let* a := get_A in
  let t := a -' b in
  (if t >=' 0 then P_setBit 0 else P_clearBit 0) ;;
  P_setZN t.

(** CPX and CPY, where [t] is the register minus the operand:
    [P.setZN(t); (t >= 0) ? P.setBit(0) : P.clearBit(0);] *)
Definition CPXY (t : value) : M unit :=
  P_setZN t ;;
  (if t >=' 0 then P_setBit 0 else P_clearBit 0).

(** [MPU.A = b; P.setZN(MPU.A);] *)
Definition LDA (b : value) : M unit :=
  set_A b ;; let* a := get_A in P_setZN a.

Definition LDX (b : value) : M unit :=
  set_X b ;; let* x := get_X in P_setZN x.

Definition LDY (b : value) : M unit :=
  set_Y b ;; let* y := get_Y in P_setZN y.

(** ASL on memory. *)
Definition ASL (ab : value * value) : M unit :=
  let (addr, b) := ab in
  (if truthy (b &' 128) then P_setBit 0 else P_clearBit 0) ;;
  let v := (b <<' 1) &' 254 in
  memory_writeByte v addr ;;
  P_setZN v.

(** LSR on memory. *)
Definition LSR (ab : value * value) : M unit :=
  let (addr, b) := ab in
  P_clearBit 7 ;;
  (if truthy (b &' 1) then P_setBit 0 else P_clearBit 0) ;;
  memory_writeByte ((b >>>' 1) &' 127) addr ;;
  (if b ==' 0 then P_setBit 1 else P_clearBit 1).

(** ROL on memory. *)
Definition ROL (ab : value * value) : M unit :=
  let (addr, b) := ab in
  let old_bit := b &' 128 in
  let* c := P_C in
  let v := ((b <<' 1) &' 254) |' bit_of c in
  memory_writeByte v addr ;;
  (if truthy old_bit then P_setBit 0 else P_clearBit 0) ;;
  P_setZN v.

(** ROR on memory. *)
Definition ROR (ab : value * value) : M unit :=
  let (addr, b) := ab in
  let old_bit := b &' 1 in
  let* c := P_C in
  let v := ((b >>>' 1) &' 127) |' (if c then Num 128 else Num 0) in
  memory_writeByte v addr ;;
  (if truthy old_bit then P_setBit 0 else P_clearBit 0) ;;
  P_setZN v.

(** [var v = (memory.read(addr) - 1) & 255; memory.writeByte(v,addr);
     P.setZN(v);] and its INC twin. *)
Definition DEC (addr : value) : M unit :=
  let* b := memory_read addr in
  let v := (b -' 1) &' 255 in
  memory_writeByte v addr ;;
  P_setZN v.

Definition INC (addr : value) : M unit :=
  let* b := memory_read addr in
  let v := (b +' 1) &' 255 in
  memory_writeByte v addr ;;
  P_setZN v.

(** [var t = MPU.A & m; (t & 64) ? P.setBit(6) : P.clearBit(6);
     P.setZN(t);] *)
Definition BIT (m : value) : M unit :=
  let* a := get_A in
  let t := a &' m in
  (if truthy (t &' 64) then P_setBit 6 else P_clearBit 6) ;;
  P_setZN t.

(** The branches:
    [memory.PC = memory.PC + 2 + (cond ? getTwosComplement(...) : 0)],
    where the offset is read only when the branch is taken. *)
Definition branch (taken : bool) : M unit :=
  let* pc := memory_PC in
  let* off :=
    (if taken
     then let* b := fetch_byte in ret (getTwosComplement b)
     else ret (Num 0)) in
  set_memory_PC (pc +' 2 +' off).

(** The pushes and the vector load that [brkInterrupt] performs, at once
    when debugging and from its [setTimeout] callback otherwise. *)
Definition interrupt_sequence : M unit :=
  (let* pc := memory_PC in stack_push ((pc >>>' 8) &' 255)) ;;
  (let* pc := memory_PC in stack_push (pc &' 255)) ;;
  (let* f := P_getFlags in stack_push (f |' 16)) ;;
  let* lo := memory_read 65534 in
  let* hi := memory_read 65535 in
  set_memory_PC (lo |' (hi <<' 8)).

(** The [setTimeout] callback of [brkInterrupt]. *)
Definition run_callback (c : callback) : M unit :=
  match c with
  | brk_callback =>
      interrupt_sequence ;;
      let* w := get in
      let interval := executionInterval (host w) in
      let interval := if isNaN interval then Num 0 else interval in
      set_instructionTimer (timer_interval interval)
  end.

(** The two statements of [executeInstruction] between the bounds check and
    the switch: the debugging log and the refresh of the random-number
    register at 0xfe. *)
Definition before_switch (e : env) : M unit :=
  (let* w := get in
   when (debugOn (host w))
     (let* pc := memory_PC in
      let* byte := memory_read pc in
      emit (console_log byte))) ;;
  memory_writeByte (random e) 0xfe.

Section Interpreter.

(** The call [doInstruction(1)] of [brkInterrupt], defined after
    [executeInstruction] on which it depends. *)
Variable doInstruction_1 : M unit.

(** [brkInterrupt()] *)
Definition brkInterrupt_open : M unit :=
  clearInterval_null ;;
  let* w := get in
  if debugOn (host w) then
    interrupt_sequence ;;
    doInstruction_1
  else
    setTimeout brk_callback.

(** The switch of [executeInstruction]: the value is the one the function
    returns ([true] to go on, [false] to stop). *)
Definition dispatch (e : env) (opcode : value) : M bool :=
  let next (c : M unit) (k : Z) : M bool := c ;; advance k ;; ret true in
  match opcode with
  | Num 0x69 => let* b := fetch_byte in next (ADC b) 2
  | Num 0x65 => let* ab := read_at fetch_byte in next (ADC (snd ab)) 2
  | Num 0x75 => let* ab := read_at addr_zpx in next (ADC (snd ab)) 2
  | Num 0x6d => let* ab := read_at fetch_word in next (ADC (snd ab)) 2
  | Num 0x7d => let* ab := read_at addr_abx in next (ADC (snd ab)) 2
  | Num 0x79 => let* ab := read_at addr_aby in next (ADC (snd ab)) 2
  | Num 0x61 => let* b := operand_inx in next (ADC b) 2
  | Num 0x71 => let* b := operand_iny in next (ADC b) 2
  | Num 0x29 => let* b := fetch_byte in next (AND b) 2
  | Num 0x25 => let* ab := read_at fetch_byte in next (AND (snd ab)) 2
  | Num 0x35 => let* ab := read_at addr_zpx in next (AND (snd ab)) 2
  | Num 0x2d => let* ab := read_at fetch_word in next (AND (snd ab)) 3
  | Num 0x3d => let* ab := read_at addr_abx in next (AND (snd ab)) 3
  | Num 0x39 => let* ab := read_at addr_aby in next (AND (snd ab)) 3
  | Num 0x21 => let* b := operand_inx in next (AND b) 2
  | Num 0x31 => let* b := operand_iny in next (AND b) 2
  | Num 0x0a =>
      next
        (let* a := get_A in
         (if truthy (a &' 128) then P_setBit 0 else P_clearBit 0) ;;
         set_A ((a <<' 1) &' 254) ;;
         let* a := get_A in P_setZN a) 1
  | Num 0x06 => let* ab := read_at fetch_byte in next (ASL ab) 2
  | Num 0x16 => let* ab := read_at addr_zpx in next (ASL ab) 2
  | Num 0x0e => let* ab := read_at fetch_word in next (ASL ab) 3
  | Num 0x1e => let* ab := read_at addr_abx in next (ASL ab) 3
  | Num 0x90 => let* c := P_C in branch (negb c) ;; ret true
  | Num 0xb0 => let* c := P_C in branch c ;; ret true
  | Num 0xf0 => let* z := P_Z in branch z ;; ret true
  | Num 0x24 =>
      let* addr := fetch_byte in let* m := memory_read addr in next (BIT m) 2
  | Num 0x2c =>
      let* addr := fetch_word in let* m := memory_read addr in next (BIT m) 3
  | Num 0x30 => let* n := P_N in branch n ;; ret true
  | Num 0xd0 => let* z := P_Z in branch (negb z) ;; ret true
  | Num 0x10 => let* n := P_N in branch (negb n) ;; ret true
  | Num 0x00 =>
      (let* pc := memory_PC in
       modify (with_memory (MemoryPrimitive (pc +' 2)))) ;;
      brkInterrupt_open ;;
      ret false
  | Num 0x50 => let* v := P_V in branch (negb v) ;; ret true
  | Num 0x70 => let* v := P_V in branch v ;; ret true
  | Num 0x18 => next (P_clearBit 0) 1
  | Num 0xd8 => next (P_clearBit 3) 1
  | Num 0x58 => next (P_clearBit 2) 1
  | Num 0xb8 => next (P_clearBit 6) 1
  | Num 0xc9 => let* b := fetch_byte in next (CMP b) 2
  | Num 0xc5 => let* ab := read_at fetch_byte in next (CMP (snd ab)) 2
  | Num 0xd5 => let* ab := read_at addr_zpx in next (CMP (snd ab)) 2
  | Num 0xcd => let* ab := read_at fetch_word in next (CMP (snd ab)) 3
  | Num 0xdd => let* ab := read_at addr_abx in next (CMP (snd ab)) 3
  | Num 0xd9 => let* ab := read_at addr_aby in next (CMP (snd ab)) 3
  | Num 0xc1 => let* b := operand_inx in next (CMP b) 2
  | Num 0xd1 => let* b := operand_iny in next (CMP b) 2
  | Num 0xe0 =>
      let* x := get_X in let* b := fetch_byte in next (CPXY (x -' b)) 2
  | Num 0xe4 =>
      let* x := get_X in
      let* addr := fetch_byte in let* b := memory_read addr in
      next (CPXY (x -' b)) 2
  | Num 0xec =>
      let* x := get_X in
      let* addr := fetch_word in let* b := memory_read addr in
      next (CPXY (x -' b)) 3
  | Num 0xc0 =>
      let* y := get_Y in let* b := fetch_byte in next (CPXY (y -' b)) 2
  | Num 0xc4 =>
      let* y := get_Y in
      let* addr := fetch_byte in let* b := memory_read addr in
      next (CPXY (y -' b)) 2
  | Num 0xcc =>
      let* y := get_Y in
      let* addr := fetch_word in let* b := memory_read addr in
      next (CPXY (y -' b)) 3
  | Num 0xc6 => let* addr := fetch_byte in next (DEC addr) 2
  | Num 0xd6 => let* addr := addr_zpx in next (DEC addr) 2
  | Num 0xce => let* addr := fetch_word in next (DEC addr) 3
  | Num 0xde => let* addr := addr_abx in next (DEC addr) 3
  | Num 0xca =>
      next (let* x := get_X in set_X ((x -' 1) &' 255) ;;
            let* x := get_X in P_setZN x) 1
  | Num 0x88 =>
      next (let* y := get_Y in set_Y ((y -' 1) &' 255) ;;
            let* y := get_Y in P_setZN y) 1
  | Num 0x49 => let* b := fetch_byte in next (EOR b) 2
  | Num 0x45 => let* ab := read_at fetch_byte in next (EOR (snd ab)) 2
  | Num 0x55 => let* ab := read_at addr_zpx in next (EOR (snd ab)) 2
  | Num 0x4d => let* ab := read_at fetch_word in next (EOR (snd ab)) 3
  | Num 0x5d => let* ab := read_at addr_abx in next (EOR (snd ab)) 3
  | Num 0x59 => let* ab := read_at addr_aby in next (EOR (snd ab)) 3
  | Num 0x41 => let* b := operand_inx in next (EOR b) 2
  | Num 0x51 => let* b := operand_iny in next (EOR b) 2
  | Num 0xe6 => let* addr := fetch_byte in next (INC addr) 2
  | Num 0xf6 => let* addr := addr_zpx in next (INC addr) 2
  | Num 0xee => let* addr := fetch_word in next (INC addr) 3
  | Num 0xfe => let* addr := addr_abx in next (INC addr) 3
  | Num 0xe8 =>
      next (let* x := get_X in set_X ((x +' 1) &' 255) ;;
            let* x := get_X in P_setZN x) 1
  | Num 0xc8 =>
      next (let* y := get_Y in set_Y ((y +' 1) &' 255) ;;
            let* y := get_Y in P_setZN y) 1
  | Num 0x4c =>
      let* t := fetch_word in set_memory_PC t ;; ret true
  | Num 0x6c =>
      let* p := fetch_word in
      let* t := memory_readWord p in
      set_memory_PC t ;; ret true
  | Num 0x20 =>
      (let* pc := memory_PC in stack_push (((pc +' 2) >>' 8) &' 0xff)) ;;
      (let* pc := memory_PC in stack_push ((pc +' 2) &' 0xff)) ;;
      let* t := fetch_word in
      set_memory_PC t ;; ret true
  | Num 0xa9 => let* b := fetch_byte in next (LDA b) 2
  | Num 0xa5 => let* ab := read_at fetch_byte in next (LDA (snd ab)) 2
  | Num 0xb5 => let* ab := read_at addr_zpx in next (LDA (snd ab)) 2
  | Num 0xad => let* ab := read_at fetch_word in next (LDA (snd ab)) 3
  | Num 0xbd => let* ab := read_at addr_abx in next (LDA (snd ab)) 3
  | Num 0xb9 => let* ab := read_at addr_aby in next (LDA (snd ab)) 3
  | Num 0xa1 => let* b := operand_inx in next (LDA b) 2
  | Num 0xb1 => let* b := operand_iny in next (LDA b) 2
  | Num 0xa2 => let* b := fetch_byte in next (LDX b) 2
  | Num 0xa6 => let* ab := read_at fetch_byte in next (LDX (snd ab)) 2
  | Num 0xb6 => let* ab := read_at addr_zpy in next (LDX (snd ab)) 2
  | Num 0xae => let* ab := read_at fetch_word in next (LDX (snd ab)) 3
  | Num 0xbe => let* ab := read_at addr_aby in next (LDX (snd ab)) 3
  | Num 0xa0 => let* b := fetch_byte in next (LDY b) 2
  | Num 0xa4 => let* ab := read_at fetch_byte in next (LDY (snd ab)) 2
  | Num 0xb4 => let* ab := read_at addr_zpx in next (LDY (snd ab)) 2
  | Num 0xac => let* ab := read_at fetch_word in next (LDY (snd ab)) 3
  | Num 0xbc => let* ab := read_at addr_abx in next (LDY (snd ab)) 3
  | Num 0xea => next (ret tt) 1
  | Num 0x09 => let* b := fetch_byte in next (ORA b) 2
  | Num 0x05 => let* ab := read_at fetch_byte in next (ORA (snd ab)) 2
  | Num 0x15 => let* ab := read_at addr_zpx in next (ORA (snd ab)) 2
  | Num 0x0d => let* ab := read_at fetch_word in next (ORA (snd ab)) 3
  | Num 0x1d => let* ab := read_at addr_abx in next (ORA (snd ab)) 3
  | Num 0x19 => let* ab := read_at addr_aby in next (ORA (snd ab)) 3
  | Num 0x01 => let* b := operand_inx in next (ORA b) 2
  | Num 0x11 => let* b := operand_iny in next (ORA b) 2
  | Num 0x48 => next (let* a := get_A in stack_push a) 1
  | Num 0x08 => next (let* f := P_getFlags in stack_push f) 1
  | Num 0x68 =>
      next (let* v := stack_pull in set_A v ;;
            let* a := get_A in P_setZN a) 1
  | Num 0x28 => next (let* v := stack_pull in P_setFlagsTo v) 1
  | Num 0x4a =>
      next
        (P_clearBit 7 ;;
         let* a := get_A in
         (if truthy (a &' 1) then P_setBit 0 else P_clearBit 0) ;;
         set_A ((a >>>' 1) &' 127) ;;
         let* a := get_A in
         (if a ==' 0 then P_setBit 1 else P_clearBit 1)) 1
  | Num 0x46 => let* ab := read_at fetch_byte in next (LSR ab) 2
  | Num 0x56 => let* ab := read_at addr_zpx in next (LSR ab) 2
  | Num 0x4e => let* ab := read_at fetch_word in next (LSR ab) 3
  | Num 0x5e => let* ab := read_at addr_abx in next (LSR ab) 3
  | Num 0x2a =>
      next
        (let* a := get_A in
         let old_bit := a &' 128 in
         let* c := P_C in
         set_A (((a <<' 1) &' 254) |' bit_of c) ;;
         (if truthy old_bit then P_setBit 0 else P_clearBit 0) ;;
         let* a := get_A in P_setZN a) 1
  | Num 0x26 => let* ab := read_at fetch_byte in next (ROL ab) 2
  | Num 0x36 => let* ab := read_at addr_zpx in next (ROL ab) 2
  | Num 0x2e => let* ab := read_at fetch_word in next (ROL ab) 3
  | Num 0x3e => let* ab := read_at addr_abx in next (ROL ab) 3
  | Num 0x6a =>
      next
        (let* a := get_A in
         let old_bit := a &' 1 in
         let* c := P_C in
         set_A (((a >>>' 1) &' 127) |' (if c then Num 128 else Num 0)) ;;
         (if truthy old_bit then P_setBit 0 else P_clearBit 0) ;;
         let* a := get_A in P_setZN a) 1
  | Num 0x66 => let* ab := read_at fetch_byte in next (ROR ab) 2
  | Num 0x76 => let* ab := read_at addr_zpx in next (ROR ab) 2
  | Num 0x6e => let* ab := read_at fetch_word in next (ROR ab) 3
  | Num 0x7e => let* ab := read_at addr_abx in next (ROR ab) 3
  | Num 0x40 =>
      (let* v := stack_pull in P_setFlagsTo v) ;;
      let* lo := stack_pull in
      let* hi := stack_pull in
      set_memory_PC (lo |' (hi <<' 8)) ;; ret true
  | Num 0x60 =>
      let* lo := stack_pull in
      let* hi := stack_pull in
      set_memory_PC ((lo |' (hi <<' 8)) +' 1) ;; ret true
  | Num 0xe9 => let* b := fetch_byte in next (SBC b) 2
  | Num 0xe5 => let* ab := read_at fetch_byte in next (SBC (snd ab)) 2
  | Num 0xf5 => let* ab := read_at addr_zpx in next (SBC (snd ab)) 2
  | Num 0xed => let* ab := read_at fetch_word in next (SBC (snd ab)) 2
  | Num 0xfd => let* ab := read_at addr_abx in next (SBC (snd ab)) 2
  | Num 0xf9 => let* ab := read_at addr_aby in next (SBC (snd ab)) 2
  | Num 0xe1 => let* b := operand_inx in next (SBC b) 2
  | Num 0xf1 => let* b := operand_iny in next (SBC b) 2
  | Num 0x38 => next (P_setBit 0) 1
  | Num 0xf8 => next (P_setBit 3) 1
  | Num 0x78 => next (P_setBit 2) 1
  | Num 0x85 =>
      let* addr := fetch_byte in
      next (let* a := get_A in memory_writeByte a addr) 2
  | Num 0x95 =>
      let* addr := addr_zpx in
      next (let* a := get_A in memory_writeByte a addr) 2
  | Num 0x8d =>
      let* addr := fetch_word in
      next (let* a := get_A in memory_writeByte a addr) 3
  | Num 0x9d =>
      let* addr := addr_abx in
      next (let* a := get_A in memory_writeByte a addr) 3
  | Num 0x99 =>
      let* addr := addr_aby in
      next (let* a := get_A in memory_writeByte a addr) 3
  | Num 0x81 =>
      let* addr := addr_zpx in
      next (let* a := get_A in
            let* p := memory_readWord addr in
            memory_writeByte a p) 2
  | Num 0x91 =>
      let* z := fetch_byte in
      let* p := memory_readWord z in
      let* y := get_Y in
      let addr := (p +' y) &' 65535 in
      next (let* a := get_A in memory_writeByte a addr) 2
  | Num 0x86 =>
      let* addr := fetch_byte in
      next (let* x := get_X in memory_writeByte x addr) 2
  | Num 0x96 =>
      let* addr := addr_zpy in
      next (let* x := get_X in memory_writeByte x addr) 2
  | Num 0x8e =>
      let* addr := fetch_word in
      next (let* x := get_X in memory_writeByte x addr) 3
  | Num 0x84 =>
      let* addr := fetch_byte in
      next (let* y := get_Y in memory_writeByte y addr) 2
  | Num 0x94 =>
      let* addr := addr_zpx in
      next (let* y := get_Y in memory_writeByte y addr) 2
  | Num 0x8c =>
      let* addr := fetch_word in
      next (let* y := get_Y in memory_writeByte y addr) 3
  | Num 0xaa => next (let* a := get_A in set_X a ;;
                      let* x := get_X in P_setZN x) 1
  | Num 0xa8 => next (let* a := get_A in set_Y a ;;
                      let* y := get_Y in P_setZN y) 1
  | Num 0xba => next (let* sp := get_SP in set_X sp ;;
                      let* x := get_X in P_setZN x) 1
  | Num 0x8a => next (let* x := get_X in set_A x ;;
                      let* a := get_A in P_setZN a) 1
  | Num 0x9a => next (let* x := get_X in set_SP x) 1
  | Num 0x98 => next (let* y := get_Y in set_A y ;;
                      let* a := get_A in P_setZN a) 1
  | Num 0x02 =>
      clearInterval_null ;;
      set_programExecuting false ;;
      emit (statusWindow_write msg_halted) ;;
      ret false
  | Num 0xf2 =>
      next (let* a := get_A in
            if a ==' 13 then emit output_br else emit (output_text a)) 1
  | Num 0xfa =>
      next (let* a := get_A in
            let* y := get_Y in
            if ((a <<' 8) |' y) ==' 13 then emit output_br
            else emit (output_text ((a <<' 8) |' y))) 1
  | Num 0xf3 =>
      next
        ((let* w := get in
          match input (host w) with
          | [] => set_input (default [] (prompt e) ++ [0])
          | _ :: _ => ret tt
          end) ;;
         (let* w := get in
          match input (host w) with
          | c :: rest => set_A c ;; set_input rest
          | [] => set_A NaN
          end) ;;
         let* a := get_A in P_setZN a) 1
  | Num 0xf7 =>
      set_instructionTimer timer_false ;;
      ret false
  | _ =>
      let* pc := memory_PC in
      let* byte := memory_read pc in
      if byte !=' Undefined then
        clearInterval_null ;;
        set_programExecuting false ;;
        (let* pc := memory_PC in
         let* byte := memory_read pc in
         emit (statusWindow_writeError (msg_invalid_instruction pc byte))) ;;
        ret false
      else ret true
  end.

(** [executeInstruction()] *)
Definition executeInstruction_open (e : env) : M bool :=
  let* pc := memory_PC in
  let* size := memory_size in
  if pc >=' size then ret false
  else
    before_switch e ;;
    let* pc := memory_PC in
    let* opcode := memory_read pc in
    dispatch e opcode.

End Interpreter.

(** In case 0x00 [memory] has just been bound to a number when
    [brkInterrupt] runs, so its first [stack.push] throws and the call of
    [doInstruction(1)] is never reached ([dispatch_continuation] below):
    [executeInstruction] is the open function at any continuation. *)
Definition executeInstruction (e : env) : M bool :=
  executeInstruction_open (ret tt) e.

(** The loop of [doInstruction]: one environment per iteration, so the
    length of the list is the bound [t] of the source. *)
Fixpoint doInstruction_loop (es : list env) : M unit :=
  match es with
  | [] => ret tt
  | e :: rest =>
      let* go := executeInstruction e in
      if go then doInstruction_loop rest else ret tt
  end.

(** [doInstruction(n)] *)
Definition doInstruction (es : list env) : M unit :=
  doInstruction_loop es ;; emit debug_updateDebug.

(** [brkInterrupt()] *)
Definition brkInterrupt (e : env) : M unit :=
  brkInterrupt_open (doInstruction [e]).

(** ** The input handlers *)

(** [window.onmousedown]; [buttons] is [event.buttons]. *)
Definition onmousedown (e : env) (buttons : value) : M unit :=
  let* w := get in
  if negb (programExecuting (host w)) then ret tt
  else if mousemaskableinterrupt (host w) then
    let* i := P_I in
    if negb i then
      emit (statusWindow_write msg_maskable_mouse) ;;
      memory_writeByte buttons 0x6f0 ;;
      brkInterrupt e
    else ret tt
  else
    when (truthy (buttons &' 1)) (memory_writeByte 1 1776) ;;
    when (truthy (buttons &' 2)) (memory_writeByte 1 1777) ;;
    when (truthy (buttons &' 4)) (memory_writeByte 1 1778).

(** The key tables of [window.onkeydown]: key code and the byte written to
    1764, first with the shift key, then without. *)
Definition shifted_keys : list (Z * Z) :=
  [(48, 41); (49, 33); (50, 64); (51, 35); (52, 36); (53, 37); (54, 94);
   (55, 38); (56, 42); (57, 40); (186, 58); (219, 123); (220, 124);
   (221, 125); (222, 34); (189, 95); (187, 43); (188, 60); (190, 62);
   (191, 63); (192, 126)].

Definition plain_keys : list (Z * Z) :=
  [(186, 59); (219, 91); (220, 92); (221, 93); (222, 39); (189, 45);
   (187, 61); (188, 44); (190, 46); (191, 47); (192, 96)].

Fixpoint key_lookup (keyCode : value) (table : list (Z * Z)) : option Z :=
  match table with
  | [] => None
  | (k, b) :: rest => if keyCode ==' k then Some b else key_lookup keyCode rest
  end.

(** [window.onkeydown]; the handler's return value is left out. *)
Definition onkeydown (e : env) (keyCode : value) (shiftKey : bool) : M unit :=
  let* w := get in
  if keyCode ==' 27 then
    if programExecuting (host w) then
      emit (statusWindow_write msg_stopped) ;;
      clearInterval_null ;;
      set_programExecuting false
    else ret tt
  else if negb (programExecuting (host w)) then ret tt
  else if keymaskableinterrupt (host w) then
    let* i := P_I in
    if negb i then
      emit (statusWindow_write msg_maskable_key) ;;
      memory_writeByte keyCode 0x6e0 ;;
      brkInterrupt e
    else ret tt
  else if keyCode ==' 37 then memory_writeByte 1 1760
  else if keyCode ==' 38 then memory_writeByte 1 1761
  else if keyCode ==' 39 then memory_writeByte 1 1762
  else if keyCode ==' 40 then memory_writeByte 1 1763
  else
    match (if shiftKey then key_lookup keyCode shifted_keys else None) with
    | Some b => memory_writeByte b 1764
    | None =>
        match key_lookup keyCode plain_keys with
        | Some b => memory_writeByte b 1764
        | None =>
            if (keyCode >=' 65) && (90 >=' keyCode) && negb shiftKey
            then memory_writeByte (keyCode +' 32) 1764
            else if ((keyCode >=' 65) && (90 >=' keyCode))
                    || (keyCode ==' 32) || (keyCode ==' 9)
                    || ((keyCode >=' 48) && (57 >=' keyCode))
            then memory_writeByte keyCode 1764
            else if keyCode ==' 13 then memory_writeByte 1 1765
            else ret tt
        end
    end.

(** ** The start of execution

    The block of [execute] that runs when [programExecuting == false], once
    the program is assembled: devices and registers are reset and
    [memory.PC] is taken from the reset vector. *)
Definition execute_reset : M unit :=
  clearInterval_null ;;
  emit screen_clear ;;
  emit output_reset ;;
  set_input [] ;;
  memory_writeByte 0 0x6e0 ;;
  memory_writeByte 0 0x6e1 ;;
  memory_writeByte 0 0x6e2 ;;
  memory_writeByte 0 0x6e3 ;;
  memory_writeByte 0 0x6e4 ;;
  memory_writeByte 0 0x6e5 ;;
  memory_writeByte 0 0x6f0 ;;
  memory_writeByte 0 0x6f1 ;;
  memory_writeByte 0 0x6f2 ;;
  stack_reset ;;
  P_reset ;;
  MPU_reset ;;
  let* resetHandler := memory_readWord 0xfffc in
  (if resetHandler >' 0
   then set_memory_PC resetHandler
   else set_memory_PC 0x0800) ;;
  let* pc := memory_PC in
  emit (statusWindow_write (msg_starting pc)).

(** The [try] block of [execute]: the reset block when no program is
    executing, then the first step (when debugging) or the interval timer,
    and [programExecuting = true]. *)
Definition execute_try (e : env) : M unit :=
  (let* w := get in
   when (negb (programExecuting (host w))) execute_reset) ;;
  let* w := get in
  let interval := executionInterval (host w) in
  let interval := if isNaN interval then Num 0 else interval in
  (if debugOn (host w)
   then doInstruction [e]
   else set_instructionTimer (timer_interval interval)) ;;
  set_programExecuting true.

(** ** Worlds to run programs in *)

(** The globals as the script leaves them when it is loaded. *)
Definition initial_world : world :=
  {| memory := MemoryObject {| mem := empty; mem_length := 65536; PC := 0x0800 |};
     P := {| flags := Undefined |};
     MPU := {| A := 0; X := 0; Y := 0 |};
     stack := {| SP := 0xff |};
     host := {| debugOn := false; instructionTimer := timer_null;
                programExecuting := false; input := [];
                events := [screen_clear]; timeouts := [];
                executionInterval := NaN;
                keymaskableinterrupt := false;
                mousemaskableinterrupt := false |};
     asm := {| constants := empty; labels := empty; branchTracker := [] |} |}.

(** The bytes [bs] stored from address [a] on, as [memory.writeByte] called
    without an address leaves them at a fresh origin outside the device
    registers. *)
Fixpoint load_bytes (a : Z) (bs : list Z) (m : gmap value value)
    : gmap value value :=
  match bs with
  | [] => m
  | b :: rest => load_bytes (a + 1) rest (<[Num a := Num b]> m)
  end.

Definition world_with_program (origin : Z) (bs : list Z) : world :=
  with_memory
    (MemoryObject {| mem := load_bytes origin bs empty; mem_length := 65536;
                     PC := 0x0800 |})
    initial_world.

(** The world in which a result was reached, and the flags there. *)
Definition world_of {T : Type} (r : result T) : world :=
  match r with
  | Done _ w => w
  | Raise _ w => w
  end.

Definition cell (w : world) (addr : value) : value :=
  match memory w with
  | MemoryObject m => array_get addr m
  | MemoryPrimitive _ => Undefined
  end.

Definition pc_of (w : world) : value :=
  match memory w with
  | MemoryObject m => PC m
  | MemoryPrimitive _ => Undefined
  end.


(** ** Vocabulary of the statements *)

(** The world in which the switch of [executeInstruction] runs, and the
    opcode it reads there: the cell at [memory.PC] once the random-number
    register is refreshed. *)
Definition refreshed (e : env) (w : world) : world :=
  world_of (before_switch e w).

Definition fetched (e : env) (w : world) : value :=
  cell (refreshed e w) (pc_of w).

(** The decimal number a byte stands for in packed BCD (the function [bcd]
    of the source on integers), and the bytes that are packed BCD: both
    nibbles at most 9. *)
Definition decimal (n : Z) : Z := Z.land n 15 + 10 * Z.land (Z.shiftr n 4) 15.

Definition is_bcd (n : Z) : bool :=
  (0 <=? n) && (n <=? 255) && (Z.land n 15 <=? 9) && (Z.shiftr n 4 <=? 9).

Definition bytes : list Z := map Z.of_nat (seq 0 256).

(** The bit [k] of a value of [P.flags], as the bitwise operators see it. *)
Definition fbit (k : Z) (f : value) : bool := Z.testbit (ToInt32 f) k.

(** An environment for the examples. *)
Definition env0 : env := {| random := 7; prompt := None |}.

(** The world in which a program loaded at 0x0800 starts: [execute] has
    run its [try] block. *)
Definition started (bs : list Z) : world :=
  world_of (execute_try env0 (world_with_program 0x0800 bs)).

(** Several instructions in a row, one environment each. *)
Definition run (es : list env) (w : world) : world :=
  world_of (doInstruction_loop es w).

(** The instructions that leave their result in a register, by opcode, with
    the register. *)
Definition ADC_opcodes : list Z :=
  [0x69; 0x65; 0x75; 0x6d; 0x7d; 0x79; 0x61; 0x71].

Definition A_result_opcodes : list Z :=
  [0xa9; 0xa5; 0xb5; 0xad; 0xbd; 0xb9; 0xa1; 0xb1;
   0x29; 0x25; 0x35; 0x2d; 0x3d; 0x39; 0x21; 0x31;
   0x09; 0x05; 0x15; 0x0d; 0x1d; 0x19; 0x01; 0x11;
   0x49; 0x45; 0x55; 0x4d; 0x5d; 0x59; 0x41; 0x51;
   0x0a; 0x4a; 0x2a; 0x6a; 0x8a; 0x98; 0x68; 0xf3]
  ++ ADC_opcodes.

Definition X_result_opcodes : list Z :=
  [0xa2; 0xa6; 0xb6; 0xae; 0xbe; 0xe8; 0xca; 0xaa; 0xba].

Definition Y_result_opcodes : list Z :=
  [0xa0; 0xa4; 0xb4; 0xac; 0xbc; 0xc8; 0x88; 0xa8].

Definition result_register (op : Z) : option (MPUObj -> value) :=
  if existsb (Z.eqb op) A_result_opcodes then Some A
  else if existsb (Z.eqb op) X_result_opcodes then Some X
  else if existsb (Z.eqb op) Y_result_opcodes then Some Y
  else None.

(** ** Vocabulary of the examples and of the proofs *)

(** The decimal-mode sum of [a] and [b] with carry [c], checked on
    [ADC_body]: the flags 8 are D alone, the flags 9 are D and C. *)
Definition adc_decimal_ok (c : bool) (a b : Z) : bool :=
  let r := ADC_body (Num b) (Num a) (Num (if c then 9 else 8)) in
  let s := decimal a + decimal b + (if c then 1 else 0) in
  match fst r with
  | Num n => is_bcd n && (decimal n =? s mod 100)
  | _ => false
  end && Bool.eqb (get_C (snd r)) (100 <=? s).

(** The byte [memory.writeByte(v,addr)] stores. *)
Definition stored (v : value) : value := if isNaN v then v else v &' 0xff.

(** The 16-bit numbers. *)
Definition words : list Z :=
  flat_map (fun h => map (fun l => 256 * h + l) bytes) bytes.

(** The two check boxes of the page that turn key presses and mouse clicks
    into maskable interrupts. *)
Definition check_interrupts (key mouse : bool) (w : world) : world :=
  with_host
    {| debugOn := debugOn (host w);
       instructionTimer := instructionTimer (host w);
       programExecuting := programExecuting (host w);
       input := input (host w);
       events := events (host w);
       timeouts := timeouts (host w);
       executionInterval := executionInterval (host w);
       keymaskableinterrupt := key;
       mousemaskableinterrupt := mouse |}
    w.

(** A world stopped after CLI, in front of a PHP, with both boxes ticked. *)
Definition before_PHP : world :=
  run [env0] (check_interrupts true true (started [0x58; 0x08])).

(** A world in which the debugger is switched on. *)
Definition debugging (w : world) : world :=
  with_host
    {| debugOn := true;
       instructionTimer := instructionTimer (host w);
       programExecuting := programExecuting (host w);
       input := input (host w);
       events := events (host w);
       timeouts := timeouts (host w);
       executionInterval := executionInterval (host w);
       keymaskableinterrupt := keymaskableinterrupt (host w);
       mousemaskableinterrupt := mousemaskableinterrupt (host w) |}
    w.

(** What a handler does with the interrupt it takes in world [w], where
    the stack pointer is [s]: while debugging it runs the interrupt
    sequence at once, in a world [w1] that has the flags and the stack of
    [w], and hands the world [w2] so reached to [doInstruction(1)];
    otherwise it returns with the callback queued, and the callback runs
    the sequence.  Either way the third byte pushed is [P | 16], whose bit
    4 is 1. *)
Definition interrupt_taken (handler : M unit) (e : env) (w : world) (s : Z)
    : Prop :=
  if debugOn (host w) then
    exists w1 w2,
      P w1 = P w /\ stack w1 = stack w
      /\ interrupt_sequence w1 = Done tt w2
      /\ handler w = doInstruction [e] w2
      /\ cell w2 (Num (0x100 + (s - 2) mod 256)) = stored (flags (P w) |' 16)
      /\ get_B (cell w2 (Num (0x100 + (s - 2) mod 256))) = true
  else
    exists w1 w2,
      handler w = Done tt w1
      /\ timeouts (host w1) = timeouts (host w) ++ [brk_callback]
      /\ run_callback brk_callback w1 = Done tt w2
      /\ cell w2 (Num (0x100 + (s - 2) mod 256)) = stored (flags (P w) |' 16)
      /\ get_B (cell w2 (Num (0x100 + (s - 2) mod 256))) = true.

(** The carry into an addition. *)
Definition carry_in (w : world) : Z :=
  if get_C (flags (P w)) then 1 else 0.

(** The world a program loaded at 0x0800 reaches after [n] instructions. *)
Definition after (n : nat) (bs : list Z) : world :=
  run (repeat env0 n) (started bs).

(** The decimal sum ADC forms in decimal mode. *)
Definition decimal_sum (a b : Z) (w : world) : Z :=
  decimal a + decimal b + carry_in w.

(** The program [LDA #$99], [SED], [CLC], [ADC #$01], [BRK]. *)
Definition BCD_wrap_program : list Z :=
  [0xa9; 0x99; 0xf8; 0x18; 0x69; 0x01; 0x00].

(** [memory.read(addr)] at a computed address. *)
Definition operand_at (addr : M value) : M value :=
  let* a := addr in memory_read a.

(** The byte each read-modify-write instruction writes back, from the byte
    [b] it read and the carry [c] it found. *)
Definition INC_result (b : value) (c : bool) : value := (b +' 1) &' 255.
Definition DEC_result (b : value) (c : bool) : value := (b -' 1) &' 255.
Definition ASL_result (b : value) (c : bool) : value := (b <<' 1) &' 254.
Definition ROL_result (b : value) (c : bool) : value :=
  ((b <<' 1) &' 254) |' bit_of c.
Definition ROR_result (b : value) (c : bool) : value :=
  ((b >>>' 1) &' 127) |' (if c then Num 128 else Num 0).

(** The read-modify-write instructions INC, DEC, ASL, ROL and ROR on
    memory, by opcode: the computation of the address and the byte written
    back. *)
Definition memory_result (op : Z)
    : option (M value * (value -> bool -> value)) :=
  if op =? 0xe6 then Some (fetch_byte, INC_result)
  else if op =? 0xf6 then Some (addr_zpx, INC_result)
  else if op =? 0xee then Some (fetch_word, INC_result)
  else if op =? 0xfe then Some (addr_abx, INC_result)
  else if op =? 0xc6 then Some (fetch_byte, DEC_result)
  else if op =? 0xd6 then Some (addr_zpx, DEC_result)
  else if op =? 0xce then Some (fetch_word, DEC_result)
  else if op =? 0xde then Some (addr_abx, DEC_result)
  else if op =? 0x06 then Some (fetch_byte, ASL_result)
  else if op =? 0x16 then Some (addr_zpx, ASL_result)
  else if op =? 0x0e then Some (fetch_word, ASL_result)
  else if op =? 0x1e then Some (addr_abx, ASL_result)
  else if op =? 0x26 then Some (fetch_byte, ROL_result)
  else if op =? 0x36 then Some (addr_zpx, ROL_result)
  else if op =? 0x2e then Some (fetch_word, ROL_result)
  else if op =? 0x3e then Some (addr_abx, ROL_result)
  else if op =? 0x66 then Some (fetch_byte, ROR_result)
  else if op =? 0x76 then Some (addr_zpx, ROR_result)
  else if op =? 0x6e then Some (fetch_word, ROR_result)
  else if op =? 0x7e then Some (addr_abx, ROR_result)
  else None.

(** CMP, CPX and CPY, by opcode: the register compared and the computation
    of the operand. *)
Definition compare_result (op : Z) : option ((MPUObj -> value) * M value) :=
  if op =? 0xc9 then Some (A, fetch_byte)
  else if op =? 0xc5 then Some (A, operand_at fetch_byte)
  else if op =? 0xd5 then Some (A, operand_at addr_zpx)
  else if op =? 0xcd then Some (A, operand_at fetch_word)
  else if op =? 0xdd then Some (A, operand_at addr_abx)
  else if op =? 0xd9 then Some (A, operand_at addr_aby)
  else if op =? 0xc1 then Some (A, operand_inx)
  else if op =? 0xd1 then Some (A, operand_iny)
  else if op =? 0xe0 then Some (X, fetch_byte)
  else if op =? 0xe4 then Some (X, operand_at fetch_byte)
  else if op =? 0xec then Some (X, operand_at fetch_word)
  else if op =? 0xc0 then Some (Y, fetch_byte)
  else if op =? 0xc4 then Some (Y, operand_at fetch_byte)
  else if op =? 0xcc then Some (Y, operand_at fetch_word)
  else None.

(** BIT, by opcode: the computation of the operand. *)
Definition bit_test_operand (op : Z) : option (M value) :=
  if op =? 0x24 then Some (operand_at fetch_byte)
  else if op =? 0x2c then Some (operand_at fetch_word)
  else None.

(** [JSR $0805] at 0x0800, with [RTS] at 0x0805. *)
Definition call_program : list Z := [0x20; 0x05; 0x08; 0xea; 0xea; 0x60].

(** The byte the loop forms from a negative distance. *)
Definition distance_byte (d : Z) : value :=
  if Num d <' 0 then ((bnot (neg (Num d)) +' 1) &' 0xff) |' 128 else Num d.

(** The base of a literal, its digits, and the test by which [addValue]
    picks the 16-bit mask: the length of a hexadecimal or binary first
    operand, the value of a decimal one. *)
Definition literal_base (i : string) : Z :=
  match i with
  | String "$" _ => 16
  | String "%" _ => 2
  | _ => 10
  end.

Definition literal_digits (i : string) : string :=
  match i with
  | String "$" r => r
  | String "%" r => r
  | _ => i
  end.

Definition wide (i : string) : bool :=
  match i with
  | String "$" _ => 3 <? Z.of_nat (String.length i)
  | String "%" _ => 9 <? Z.of_nat (String.length i)
  | _ => parseInt i 10 >' 255
  end.

(** The factor a leading [-] gives the second operand. *)
Definition sign_of (c : ascii) : Z := if Ascii.eqb c "-" then -1 else 1.

(** The text whose value is added: the literal itself, or the text the
    constant stands for. *)
Definition operand_text (lit : string) (w : world) : option string :=
  if is_literal lit then Some lit
  else if one_or_more is_word_char lit then constants (asm w) !! lit
  else None.

(** The text of an entry of [branchTracker]: a label, or a label followed
    by a sign and a term. *)
Definition branch_entry_text (lab : string) (off : option (ascii * string))
    : string :=
  match off with
  | None => lab
  | Some (c, t) => (lab ++ String c t)%string
  end.

(** The world with the object [labels] replaced. *)
Definition world_with_labels (l : gmap string value) (w : world) : world :=
  with_asm
    {| constants := constants (asm w); labels := l;
       branchTracker := branchTracker (asm w) |}
    w.

(** The assembler's tables after pass 1 of a program whose one label
    [loop] stands at 0x0800. *)
Definition loop_world : world :=
  world_with_labels {[ "loop"%string := Num 0x0800 ]} initial_world.

(** Tables in which a second label is named [2048], the decimal text of
    the address of [loop]; and tables whose one label stands a few bytes
    in front of the screen register 0x6b0. *)
Definition shadowed_world : world :=
  world_with_labels
    (<[ "2048"%string := Num 0x0900 ]> {[ "loop"%string := Num 0x0800 ]})
    initial_world.

Definition near_world : world :=
  world_with_labels {[ "near"%string := Num 0x06a0 ]} initial_world.

(** Tables in which it is a constant that is named [2048]. *)
Definition defined_world : world :=
  with_asm
    {| constants := {[ "2048"%string := "$0900"%string ]};
       labels := {[ "loop"%string := Num 0x0800 ]};
       branchTracker := branchTracker (asm initial_world) |}
    initial_world.

(** * Theorems *)

(** ** Facts about the 32-bit conversions *)

Lemma wrap32_mod_spec (n : Z) : wrap32 n = (n + 2 ^ 31) mod 2 ^ 32 - 2 ^ 31.
Proof.
  unfold wrap32. change 0xFFFFFFFF with (Z.ones 32).
  rewrite Z.land_ones by lia.
  change (2 ^ 32) with 4294967296. change (2 ^ 31) with 2147483648.
  destruct (Z.ltb_spec (n mod 4294967296) 2147483648);
    Z.div_mod_to_equations; lia.
Qed.

Lemma wrap32_small (n : Z) : - 2 ^ 31 <= n < 2 ^ 31 -> wrap32 n = n.
Proof.
  intros H. rewrite wrap32_mod_spec.
  rewrite Z.mod_small; lia.
Qed.

Lemma wrap32_mod (n : Z) : wrap32 n mod 2 ^ 32 = n mod 2 ^ 32.
Proof.
  rewrite wrap32_mod_spec.
  rewrite Zminus_mod, Zmod_mod, <- Zminus_mod.
  f_equal. lia.
Qed.

Lemma testbit_wrap32 (n j : Z) :
  0 <= j < 32 -> Z.testbit (wrap32 n) j = Z.testbit n j.
Proof.
  intros Hj.
  rewrite <- (Z.mod_pow2_bits_low (wrap32 n) 32 j) by lia.
  rewrite <- (Z.mod_pow2_bits_low n 32 j) by lia.
  now rewrite wrap32_mod.
Qed.

Lemma wrap32_range (n : Z) : - 2 ^ 31 <= wrap32 n < 2 ^ 31.
Proof.
  rewrite wrap32_mod_spec.
  pose proof (Z.mod_pos_bound (n + 2 ^ 31) (2 ^ 32)). lia.
Qed.

Lemma land_pow2 (x k : Z) :
  0 <= k -> Z.land x (2 ^ k) = if Z.testbit x k then 2 ^ k else 0.
Proof.
  intros Hk. apply Z.bits_inj'. intros i Hi.
  rewrite Z.land_spec, Z.pow2_bits_eqb by lia.
  destruct (Z.eqb_spec k i) as [->|Hne].
  - destruct (Z.testbit x i) eqn:E; cbn.
    + now rewrite Z.pow2_bits_true by lia.
    + now rewrite Z.bits_0.
  - rewrite andb_false_r.
    destruct (Z.testbit x k).
    + now rewrite Z.pow2_bits_false by lia.
    + now rewrite Z.bits_0.
Qed.

Lemma getter_fbit (k : Z) (f : value) :
  0 <= k < 31 -> ((f &' Num (2 ^ k)) >' 0) = fbit k f.
Proof.
  intros Hk. unfold fbit, band, gt, lt. cbn [ToInt32].
  rewrite (wrap32_small (2 ^ k)).
  2:{ split.
      - pose proof (Z.pow_pos_nonneg 2 k). pose proof (Z.pow_pos_nonneg 2 31). lia.
      - apply Z.pow_lt_mono_r; lia. }
  rewrite land_pow2 by lia.
  destruct (Z.testbit (ToInt32 f) k).
  - apply Z.ltb_lt. apply Z.pow_pos_nonneg; lia.
  - reflexivity.
Qed.

Lemma fbit_bor (k : Z) (f : value) (m : Z) :
  0 <= k < 32 -> fbit k (f |' Num m) = fbit k f || Z.testbit m k.
Proof.
  intros Hk. unfold fbit, bor. cbn [ToInt32].
  now rewrite testbit_wrap32, Z.lor_spec, testbit_wrap32.
Qed.

Lemma fbit_band (k : Z) (f : value) (m : Z) :
  0 <= k < 32 -> fbit k (f &' Num m) = fbit k f && Z.testbit m k.
Proof.
  intros Hk. unfold fbit, band. cbn [ToInt32].
  now rewrite testbit_wrap32, Z.land_spec, testbit_wrap32.
Qed.

Lemma get_C_fbit f : get_C f = fbit 0 f.
Proof. exact (getter_fbit 0 f ltac:(lia)). Qed.
Lemma get_Z_fbit f : get_Z f = fbit 1 f.
Proof. exact (getter_fbit 1 f ltac:(lia)). Qed.
Lemma get_D_fbit f : get_D f = fbit 3 f.
Proof. exact (getter_fbit 3 f ltac:(lia)). Qed.

Lemma fbit_if (k : Z) (c : bool) (f g : value) :
  fbit k (if c then f else g) = if c then fbit k f else fbit k g.
Proof. now destruct c. Qed.

Lemma get_I_fbit f : get_I f = fbit 2 f.
Proof. exact (getter_fbit 2 f ltac:(lia)). Qed.
Lemma get_B_fbit f : get_B f = fbit 4 f.
Proof. exact (getter_fbit 4 f ltac:(lia)). Qed.
Lemma get_V_fbit f : get_V f = fbit 6 f.
Proof. exact (getter_fbit 6 f ltac:(lia)). Qed.
Lemma get_N_fbit f : get_N f = fbit 7 f.
Proof. exact (getter_fbit 7 f ltac:(lia)). Qed.

Lemma setBit_bor (k : Z) (f : value) :
  0 <= k <= 7 -> setBit k f = f |' Num (2 ^ k).
Proof.
  intros Hk. unfold setBit, gt, lt. cbn [pow2].
  destruct (Z.ltb_spec k 0); [lia|].
  destruct (Z.ltb_spec 7 k); [lia|]. reflexivity.
Qed.

Lemma clearBit_band (k : Z) (f : value) :
  0 <= k <= 7 -> clearBit k f = f &' Num (Z.lnot (2 ^ k)).
Proof.
  intros Hk. unfold clearBit, gt, lt, bnot. cbn [pow2 ToInt32].
  destruct (Z.ltb_spec k 0); [lia|].
  destruct (Z.ltb_spec 7 k); [lia|].
  rewrite (wrap32_small (2 ^ k)); [reflexivity|].
  assert (0 < 2 ^ k) by (apply Z.pow_pos_nonneg; lia).
  assert (2 ^ k < 2 ^ 31) by (apply Z.pow_lt_mono_r; lia). lia.
Qed.

Ltac eval_testbits :=
  repeat match goal with
    | |- context [Z.testbit ?c ?k] =>
        lazymatch c with Z0 => idtac | Zpos _ => idtac | Zneg _ => idtac end;
        lazymatch k with Z0 => idtac | Zpos _ => idtac end;
        let b := eval vm_compute in (Z.testbit c k) in
        change (Z.testbit c k) with b
    end.

Ltac flag_bits :=
  rewrite ?get_C_fbit, ?get_Z_fbit, ?get_I_fbit, ?get_D_fbit, ?get_B_fbit,
    ?get_V_fbit, ?get_N_fbit;
  unfold setZN, setFlagsTo, reset;
  repeat first
    [ rewrite fbit_if
    | rewrite setBit_bor by lia
    | rewrite clearBit_band by lia
    | rewrite fbit_bor by lia
    | rewrite fbit_band by lia ];
  repeat match goal with
    | |- context [Z.lnot (2 ^ ?k)] =>
        let c := eval vm_compute in (Z.lnot (2 ^ k)) in
        change (Z.lnot (2 ^ k)) with c
    end;
  eval_testbits;
  rewrite ?orb_false_r, ?orb_true_r, ?andb_false_r, ?andb_true_r.

Lemma get_C_setZN v f : get_C (setZN v f) = get_C f.
Proof. flag_bits. now destruct (v ==' 0), ((v &' 128) >' 0). Qed.

Lemma get_D_setZN v f : get_D (setZN v f) = get_D f.
Proof. flag_bits. now destruct (v ==' 0), ((v &' 128) >' 0). Qed.

Lemma get_Z_setZN v f : get_Z (setZN v f) = (v ==' 0).
Proof. flag_bits. now destruct (v ==' 0), ((v &' 128) >' 0). Qed.

Lemma get_N_setZN v f : get_N (setZN v f) = ((v &' 0x80) >' 0).
Proof. flag_bits. now destruct (v ==' 0), ((v &' 128) >' 0). Qed.

Lemma get_C_setBit_0 f : get_C (setBit 0 f) = true.
Proof. now flag_bits. Qed.

Lemma get_C_clearBit_0 f : get_C (clearBit 0 f) = false.
Proof. now flag_bits. Qed.

Lemma get_C_setBit k f : 1 <= k <= 7 -> get_C (setBit k f) = get_C f.
Proof.
  intros Hk. rewrite !get_C_fbit, setBit_bor, fbit_bor by lia.
  rewrite Z.pow2_bits_false by lia. apply orb_false_r.
Qed.

Lemma lnot_pow2_bits (k j : Z) :
  0 <= k -> 0 <= j -> Z.testbit (Z.lnot (2 ^ k)) j = negb (k =? j).
Proof.
  intros Hk Hj. rewrite Z.lnot_spec by lia. now rewrite Z.pow2_bits_eqb by lia.
Qed.

Lemma get_C_clearBit k f : 1 <= k <= 7 -> get_C (clearBit k f) = get_C f.
Proof.
  intros Hk. rewrite !get_C_fbit, clearBit_band, fbit_band by lia.
  rewrite lnot_pow2_bits by lia.
  destruct (Z.eqb_spec k 0); [lia|]. apply andb_true_r.
Qed.

Lemma get_Z_setBit k f : 0 <= k <= 7 -> k <> 1 -> get_Z (setBit k f) = get_Z f.
Proof.
  intros Hk Hne. rewrite !get_Z_fbit, setBit_bor, fbit_bor by lia.
  rewrite Z.pow2_bits_false by lia. apply orb_false_r.
Qed.

Lemma get_Z_clearBit k f : 0 <= k <= 7 -> k <> 1 -> get_Z (clearBit k f) = get_Z f.
Proof.
  intros Hk Hne. rewrite !get_Z_fbit, clearBit_band, fbit_band by lia.
  rewrite lnot_pow2_bits by lia.
  destruct (Z.eqb_spec k 1); [lia|]. apply andb_true_r.
Qed.

(** ** Packed BCD *)

Lemma in_bytes (n : Z) : 0 <= n <= 255 -> In n bytes.
Proof.
  intros H. unfold bytes. apply in_map_iff. exists (Z.to_nat n). split.
  - lia.
  - apply in_seq. lia.
Qed.

Lemma bytes_forall (p : Z -> bool) :
  forallb p bytes = true -> forall n, 0 <= n <= 255 -> p n = true.
Proof.
  intros H n Hn. rewrite forallb_forall in H. apply H, in_bytes, Hn.
Qed.

Lemma is_bcd_byte n : is_bcd n = true -> 0 <= n <= 255.
Proof. unfold is_bcd. intros H. repeat (apply andb_prop in H as [H ?]). lia. Qed.

Lemma bcd_decimal (n : Z) : 0 <= n <= 255 -> bcd (Num n) = Num (decimal n).
Proof.
  intros H.
  assert (T : forallb (fun n => match bcd (Num n) with
                                | Num d => d =? decimal n
                                | _ => false
                                end) bytes = true) by (vm_compute; reflexivity).
  pose proof (bytes_forall _ T n H) as E. cbv beta in E.
  destruct (bcd (Num n)); try discriminate.
  apply Z.eqb_eq in E. now subst.
Qed.

(** In decimal mode the accumulator and the carry that ADC leaves depend on
    the old flags through C alone. *)
Lemma ADC_body_decimal (b a f : value) :
  get_D f = true ->
  fst (ADC_body b a f) = fst (ADC_body b a (Num (if get_C f then 9 else 8)))
  /\ get_C (snd (ADC_body b a f))
     = get_C (snd (ADC_body b a (Num (if get_C f then 9 else 8)))).
Proof.
  intros HD. unfold ADC_body. cbv zeta.
  rewrite !get_D_setZN, !get_C_setZN, HD.
  assert (HD' : get_D (Num (if get_C f then 9 else 8)) = true)
    by (destruct (get_C f); reflexivity).
  assert (HC' : get_C (Num (if get_C f then 9 else 8)) = get_C f)
    by (destruct (get_C f); reflexivity).
  rewrite HD', HC'. cbn [fst snd]. split; [reflexivity|].
  match goal with
  | |- get_C (if ?c then _ else _) = _ =>
      destruct c; now rewrite ?get_C_setBit_0, ?get_C_clearBit_0
  end.
Qed.

Lemma adc_decimal_table (c : bool) :
  forallb (fun a => forallb (adc_decimal_ok c a) (List.filter is_bcd bytes))
    (List.filter is_bcd bytes) = true.
Proof. destruct c; vm_compute; reflexivity. Qed.

Lemma ADC_body_packed_BCD (a b : Z) (f : value) :
  is_bcd a = true -> is_bcd b = true -> get_D f = true ->
  let s := decimal a + decimal b + (if get_C f then 1 else 0) in
  exists n f',
    ADC_body (Num b) (Num a) f = (Num n, f')
    /\ is_bcd n = true /\ decimal n = s mod 100
    /\ get_C f' = (100 <=? s).
Proof.
  intros Ha Hb HD s.
  destruct (ADC_body_decimal (Num b) (Num a) f HD) as [HA HC].
  pose proof (adc_decimal_table (get_C f)) as T.
  rewrite forallb_forall in T.
  specialize (T a).
  rewrite filter_In in T. specialize (T (conj (in_bytes a (is_bcd_byte a Ha)) Ha)).
  rewrite forallb_forall in T.
  specialize (T b). rewrite filter_In in T.
  specialize (T (conj (in_bytes b (is_bcd_byte b Hb)) Hb)).
  unfold adc_decimal_ok in T. cbv zeta in T.
  apply andb_prop in T as [T1 T2].
  rewrite <- HA in T1. rewrite <- HC in T2.
  destruct (ADC_body (Num b) (Num a) f) as [a' f'] eqn:E. cbn [fst snd] in *.
  destruct a' as [n| |]; try discriminate.
  apply andb_prop in T1 as [T1a T1b].
  exists n, f'. repeat split; auto.
  - apply Z.eqb_eq in T1b. exact T1b.
  - apply Bool.eqb_prop in T2. exact T2.
Qed.

(** ** Running the interpreter on a symbolic world *)

Arguments bind {T U} c k w /.
Arguments ret {T} a w /.
Arguments when b c /.
Arguments array_get : simpl never.
Arguments array_set : simpl never.
Arguments ADC_body : simpl never.
Arguments SBC_body : simpl never.
Arguments setZN : simpl never.
Arguments setBit : simpl never.
Arguments clearBit : simpl never.
Arguments get_C : simpl never.
Arguments get_Z : simpl never.
Arguments get_I : simpl never.
Arguments get_D : simpl never.
Arguments get_B : simpl never.
Arguments get_V : simpl never.
Arguments get_N : simpl never.

(** Symbolic execution: simplify, and split on the conditions the control
    flow meets. *)
Ltac exec :=
  repeat (cbn;
          try match goal with
            | |- context [(if ?c then _ else _) _] => destruct c eqn:?
            | |- context [match ?c with nil => _ | cons _ _ => _ end _] =>
                destruct c eqn:?
            end).

Ltac destruct_world w :=
  let mb := fresh "mb" in
  let f := fresh "f" in
  let r := fresh "r" in
  let sp := fresh "sp" in
  let h := fresh "h" in
  let s := fresh "s" in
  let dbg := fresh "dbg" in
  destruct w as [mb [f] r [sp] h s];
  destruct h as [dbg ? ? ? ? ? ? ? ?].

Ltac healthy w Hm :=
  destruct_world w; cbn in Hm;
  match type of Hm with ?mb = _ => subst mb end.

(** When [memory] is an object and [memory.PC] lies inside the array,
    [executeInstruction] is its switch in the refreshed world. *)
Lemma executeInstruction_dispatch e w m p :
  memory w = MemoryObject m -> PC m = Num p -> p < mem_length m ->
  executeInstruction e w = dispatch (ret tt) e (fetched e w) (refreshed e w).
Proof.
  intros Hm Hpc Hp. unfold fetched, refreshed, before_switch.
  healthy w Hm.
  destruct m as [cells len pc]. cbn in Hpc, Hp. subst pc.
  unfold executeInstruction, executeInstruction_open, before_switch. cbn.
  destruct (Z.leb_spec len p); [lia|].
  destruct dbg; reflexivity.
Qed.

Lemma refreshed_memory e w m :
  memory w = MemoryObject m ->
  memory (refreshed e w)
  = MemoryObject (array_set 0xfe (random e &' 0xff) m).
Proof.
  intros Hm. unfold refreshed, before_switch. healthy w Hm.
  destruct dbg; reflexivity.
Qed.

Lemma refreshed_registers e w m :
  memory w = MemoryObject m ->
  P (refreshed e w) = P w /\ MPU (refreshed e w) = MPU w
  /\ stack (refreshed e w) = stack w.
Proof.
  intros Hm. unfold refreshed, before_switch. healthy w Hm.
  destruct dbg; repeat split; reflexivity.
Qed.

Lemma refreshed_debugOn e w m :
  memory w = MemoryObject m ->
  debugOn (host (refreshed e w)) = debugOn (host w)
  /\ timeouts (host (refreshed e w)) = timeouts (host w).
Proof.
  intros Hm. unfold refreshed, before_switch. healthy w Hm.
  destruct dbg; split; reflexivity.
Qed.

(** The refresh writes cell 0xfe and no other. *)
Lemma refreshed_cell e w m (a : value) :
  memory w = MemoryObject m -> a <> Num 0xfe ->
  cell (refreshed e w) a = array_get a m.
Proof.
  intros Hm Ha. unfold cell. rewrite (refreshed_memory e w m Hm).
  unfold array_get, array_set. cbn [mem].
  now rewrite lookup_insert_ne by congruence.
Qed.

(** The continuation [doInstruction(1)] of [brkInterrupt] plays no part in
    the switch: in case 0x00 the first [stack.push] throws. *)
Lemma dispatch_continuation (k1 k2 : M unit) e op w :
  dispatch k1 e op w = dispatch k2 e op w.
Proof.
  destruct op as [[|q|q]| |]; try reflexivity.
  destruct_world w. destruct mb as [m|v]; destruct dbg; reflexivity.
Qed.

Lemma executeInstruction_open_continuation (k : M unit) e w :
  executeInstruction_open k e w = executeInstruction e w.
Proof.
  unfold executeInstruction, executeInstruction_open, bind.
  destruct (memory_PC w) as [pc w1|]; [|reflexivity].
  destruct (memory_size w1) as [size w2|]; [|reflexivity].
  destruct (pc >=' size); [reflexivity|].
  destruct (before_switch e w2) as [[] w3|]; [|reflexivity].
  destruct (memory_PC w3) as [pc' w4|]; [|reflexivity].
  destruct (memory_read pc' w4) as [op w5|]; [|reflexivity].
  apply dispatch_continuation.
Qed.

(** ** C3: the program counter after SBC *)

(** Each of the eight SBC cases ends in [memory.PC+=2], the absolute ones
    included. *)
Lemma dispatch_SBC k e w m op :
  memory w = MemoryObject m ->
  In op [0xe9; 0xe5; 0xf5; 0xed; 0xfd; 0xf9; 0xe1; 0xf1] ->
  exists w', dispatch k e (Num op) w = Done true w'
             /\ pc_of w' = PC m +' 2.
Proof.
  intros Hm Hop. healthy w Hm. cbn in Hop.
  repeat (destruct Hop as [<-|Hop];
          [cbn; eexists; split; reflexivity|]).
  destruct Hop.
Qed.

Lemma SBC_advances_PC_by_2 e w m p op :
  memory w = MemoryObject m -> PC m = Num p -> p < mem_length m ->
  fetched e w = Num op ->
  In op [0xe9; 0xe5; 0xf5; 0xed; 0xfd; 0xf9; 0xe1; 0xf1] ->
  exists w', executeInstruction e w = Done true w'
             /\ pc_of w' = Num (p + 2).
Proof.
  intros Hm Hpc Hp Hf Hop.
  rewrite (executeInstruction_dispatch e w m p Hm Hpc Hp), Hf.
  destruct (dispatch_SBC (ret tt) e (refreshed e w) _ op
              (refreshed_memory e w m Hm) Hop) as (w' & Hd & Hpc').
  exists w'. split; [exact Hd|].
  rewrite Hpc'. unfold array_set. cbn [PC]. now rewrite Hpc.
Qed.

(** C3 (the code at the failing input): [SBC $1234], assembled as
    [ED 34 12], is three bytes long, and executing it moves [memory.PC] from
    0x0800 to 0x0802, not to 0x0803. *)
Theorem SBC_absolute_advances_PC_by_2_only :
  pc_of (started [0xed; 0x34; 0x12]) = Num 0x0800
  /\ fetched env0 (started [0xed; 0x34; 0x12]) = Num 0xed
  /\ exists w',
       executeInstruction env0 (started [0xed; 0x34; 0x12]) = Done true w'
       /\ pc_of w' = Num 0x0802.
Proof.
  split; [reflexivity|]. split; [reflexivity|].
  eexists. split; [vm_compute; reflexivity|reflexivity].
Qed.

(** ** C1: BRK *)

(** Case 0x00 binds [memory] to the number [memory.PC + 2].  When debugging,
    the first [stack.push] of [brkInterrupt] then throws a [TypeError];
    otherwise the pushes are deferred to a callback, which throws the same
    way when it runs.  Nothing is pushed, the stack pointer and the flags
    stay as they were, and [memory.PC] is not loaded from the vector. *)
Lemma BRK_rebinds_memory e w m p :
  memory w = MemoryObject m -> PC m = Num p -> p < mem_length m ->
  fetched e w = Num 0x00 ->
  exists w',
    memory w' = MemoryPrimitive (Num (p + 2))
    /\ stack w' = stack w /\ P w' = P w
    /\ (if debugOn (host w)
        then executeInstruction e w = Raise TypeError w'
        else executeInstruction e w = Done false w'
             /\ timeouts (host w') = timeouts (host w) ++ [brk_callback]
             /\ exists w'', run_callback brk_callback w' = Raise TypeError w''
                            /\ stack w'' = stack w /\ P w'' = P w).
Proof.
  intros Hm Hpc Hp Hf.
  rewrite (executeInstruction_dispatch e w m p Hm Hpc Hp), Hf.
  destruct (refreshed_registers e w m Hm) as (HP & _ & HS).
  destruct (refreshed_debugOn e w m Hm) as (HD & HT).
  pose proof (refreshed_memory e w m Hm) as HM.
  rewrite <- HP, <- HS, <- HD, <- HT.
  destruct (refreshed e w) as [mb [f] r [sp] h s].
  destruct h as [dbg ? ? ? ? ? ? ? ?].
  cbn in HM. subst mb.
  destruct m as [cells len pc]. cbn in Hpc. subst pc.
  destruct dbg; cbn.
  - eexists. repeat split; reflexivity.
  - eexists. repeat split; try reflexivity.
    eexists. repeat split; reflexivity.
Qed.

(** C1 (the code at the failing input): the one-byte program [00] started
    at 0x0800.  Executing it returns [false] with [memory] bound to the
    number 0x0802 and the callback queued; the callback throws a
    [TypeError].  The stack pointer is still 0xff, the I flag is as the
    reset left it and no cell of the memory object can be read any more. *)
Theorem BRK_binds_memory_to_a_number :
  exists w1 w2,
    executeInstruction env0 (started [0x00]) = Done false w1
    /\ memory w1 = MemoryPrimitive (Num 0x0802)
    /\ timeouts (host w1) = [brk_callback]
    /\ run_callback brk_callback w1 = Raise TypeError w2
    /\ memory w2 = MemoryPrimitive (Num 0x0802)
    /\ SP (stack w2) = Num 0xff
    /\ flags (P w2) = Num 36.
Proof.
  eexists. eexists.
  split; [vm_compute; reflexivity|].
  repeat split; reflexivity.
Qed.

(** ** C5: bit 5 of P *)

(** What the operations of [P] do to bit 5: [reset] sets it, [setBit],
    [clearBit] of another bit, [setZN] and the setters keep it when it is
    set, and [setFlagsTo] copies it from its argument. *)
Lemma bit_5_after_reset f : fbit 5 (reset f) = true.
Proof. reflexivity. Qed.

Lemma bit_5_after_setBit k f :
  0 <= k <= 7 -> fbit 5 f = true -> fbit 5 (setBit k f) = true.
Proof.
  intros Hk H. rewrite setBit_bor, fbit_bor by lia. now rewrite H.
Qed.

Lemma bit_5_after_clearBit k f :
  0 <= k <= 7 -> k <> 5 -> fbit 5 f = true -> fbit 5 (clearBit k f) = true.
Proof.
  intros Hk Hne H. rewrite clearBit_band, fbit_band by lia.
  rewrite H, lnot_pow2_bits by lia.
  now destruct (Z.eqb_spec k 5).
Qed.

Lemma bit_5_after_setZN v f : fbit 5 f = true -> fbit 5 (setZN v f) = true.
Proof.
  intros H. flag_bits. rewrite H.
  now destruct (v ==' 0), ((v &' 128) >' 0).
Qed.

Lemma bit_5_after_set_flag k v f :
  0 <= k <= 7 -> k <> 5 -> fbit 5 f = true ->
  fbit 5 (set_flag (2 ^ k) v f) = true.
Proof.
  intros Hk Hne H. unfold set_flag. destruct v.
  - rewrite fbit_bor by lia. now rewrite H.
  - rewrite fbit_bor by lia. apply orb_true_r.
Qed.

Lemma bit_5_after_setFlagsTo v f : fbit 5 (setFlagsTo v f) = fbit 5 v.
Proof. reflexivity. Qed.

(** C5 (the code at the failing input): [LDA #$00], [PHA], [PLP] started
    at 0x0800 with P = 0x24.  PLP calls [setFlagsTo(0)] and leaves P = 0,
    bit 5 clear; [clearBit(5)] clears it too. *)
Theorem PLP_leaves_bit_5_clear :
  flags (P (started [0xa9; 0x00; 0x48; 0x28])) = Num 0x24
  /\ flags (P (run [env0; env0; env0] (started [0xa9; 0x00; 0x48; 0x28])))
     = Num 0
  /\ fbit 5 (setFlagsTo 0 0x24) = false
  /\ clearBit 5 0x24 = Num 0x04.
Proof. repeat split; vm_compute; reflexivity. Qed.

(** ** C2: the Z flag *)

Lemma get_Z_ADC_body b a f :
  get_Z (snd (ADC_body b a f))
  = (((a +' b +' bit_of (get_C f)) &' 255) ==' 0).
Proof.
  unfold ADC_body. cbv zeta.
  destruct (get_D _); cbn [snd];
    repeat match goal with
      | |- context [if ?c then setBit _ _ else clearBit _ _] => destruct c
      end;
    repeat first [rewrite get_Z_setBit by lia | rewrite get_Z_clearBit by lia];
    apply get_Z_setZN.
Qed.

(** In binary mode the accumulator ADC leaves is the byte it handed to
    [setZN]. *)
Lemma ADC_body_binary b a f :
  get_D f = false ->
  fst (ADC_body b a f) = ((a +' b +' bit_of (get_C f)) &' 255).
Proof.
  intros HD. unfold ADC_body. cbv zeta.
  now rewrite get_D_setZN, HD.
Qed.

Lemma existsb_eqb_In (op : Z) (l : list Z) :
  existsb (Z.eqb op) l = true -> In op l.
Proof.
  intros H. apply existsb_exists in H as (x & Hx & E).
  apply Z.eqb_eq in E. now subst.
Qed.

Lemma get_Z_setBit_1 f : get_Z (setBit 1 f) = true.
Proof. now flag_bits. Qed.

Lemma get_Z_clearBit_1 f : get_Z (clearBit 1 f) = false.
Proof. now flag_bits. Qed.

Ltac exec_case :=
  exec;
  (eexists; split; [reflexivity|]);
  cbn;
  rewrite ?get_Z_setBit_1, ?get_Z_clearBit_1;
  repeat first [rewrite get_Z_setBit by lia | rewrite get_Z_clearBit by lia];
  rewrite ?get_Z_setZN;
  first [reflexivity | symmetry; assumption].

Lemma dispatch_register_result k e w m op reg :
  memory w = MemoryObject m ->
  result_register op = Some reg ->
  (In op ADC_opcodes -> get_D (flags (P w)) = false) ->
  exists w', dispatch k e (Num op) w = Done true w'
             /\ get_Z (flags (P w')) = (reg (MPU w') ==' 0).
Proof.
  intros Hm Hreg HD. unfold result_register in Hreg.
  healthy w Hm. cbn [flags P] in HD.
  destruct (existsb (Z.eqb op) A_result_opcodes) eqn:EA.
  { injection Hreg as <-. apply existsb_eqb_In in EA.
    unfold A_result_opcodes in EA. apply in_app_or in EA as [EA|EA].
    - cbn in EA.
      repeat (destruct EA as [<-|EA]; [solve [exec_case]|]).
      destruct EA.
    - specialize (HD EA). cbn in EA.
      repeat (destruct EA as [<-|EA];
              [cbn;
               match goal with
               | |- context [ADC_body ?b ?a ?f] =>
                   pose proof (get_Z_ADC_body b a f) as HZ;
                   pose proof (ADC_body_binary b a f HD) as HA;
                   destruct (ADC_body b a f) as [a' f'];
                   cbn [fst snd] in HZ, HA
               end;
               eexists; split; [reflexivity|]; cbn;
               rewrite HZ, HA; reflexivity|]).
      destruct EA. }
  destruct (existsb (Z.eqb op) X_result_opcodes) eqn:EX.
  { injection Hreg as <-. apply existsb_eqb_In in EX. cbn in EX.
    repeat (destruct EX as [<-|EX]; [solve [exec_case]|]). destruct EX. }
  destruct (existsb (Z.eqb op) Y_result_opcodes) eqn:EY; [|discriminate].
  injection Hreg as <-. apply existsb_eqb_In in EY. cbn in EY.
  repeat (destruct EY as [<-|EY]; [solve [exec_case]|]). destruct EY.
Qed.

(** ** The stack *)

Ltac bool_facts :=
  repeat match goal with
    | H : (_ && _) = true |- _ => apply andb_prop in H as [? ?]
    | H : (_ && _) = false |- _ => apply andb_false_iff in H as [?|?]
    | H : (_ || _) = false |- _ => apply orb_false_iff in H as [? ?]
    | H : (_ || _) = true |- _ => apply orb_true_iff in H as [?|?]
    | H : negb _ = true |- _ => apply negb_true_iff in H
    | H : negb _ = false |- _ => apply negb_false_iff in H
    | H : (_ <? _) = true |- _ => apply Z.ltb_lt in H
    | H : (_ <? _) = false |- _ => apply Z.ltb_ge in H
    | H : (_ <=? _) = true |- _ => apply Z.leb_le in H
    | H : (_ <=? _) = false |- _ => apply Z.leb_gt in H
    | H : (_ =? _) = true |- _ => apply Z.eqb_eq in H
    | H : (_ =? _) = false |- _ => apply Z.eqb_neq in H
    end.

(** A write to an address outside the screen and the two device registers
    stores the byte and does nothing else. *)
Lemma memory_writeByte_plain v a w m :
  memory w = MemoryObject m ->
  a <= 0x1ff \/ 0x6b2 <= a ->
  memory_writeByte v (Num a) w
  = Done tt (with_memory (MemoryObject (array_set (Num a) (stored v) m)) w).
Proof.
  intros Hm Ha. healthy w Hm. unfold memory_writeByte, writeByte_body, stored.
  destruct (isNaN v) eqn:Hv; exec; bool_facts; try lia; reflexivity.
Qed.

(** [stack.push(val)] with the stack pointer in range. *)
Lemma stack_push_run v w m s :
  memory w = MemoryObject m -> SP (stack w) = Num s -> 0 <= s <= 255 ->
  stack_push v w
  = Done tt
      (with_SP (Num ((s - 1) mod 256))
         (with_memory
            (MemoryObject (array_set (Num (0x100 + s)) (stored v) m)) w)).
Proof.
  intros Hm Hs Hr. unfold stack_push. cbn [bind get_SP]. rewrite Hs.
  cbn [add]. rewrite (memory_writeByte_plain v (256 + s) w m Hm) by lia.
  healthy w Hm. cbn in Hs. subst sp.
  cbn. destruct (Z.ltb_spec (s - 1) 0); cbn.
  - replace s with 0 by lia. reflexivity.
  - rewrite Z.mod_small by lia. reflexivity.
Qed.

(** [stack.pull()] with the stack pointer in range. *)
Lemma stack_pull_run w m s :
  memory w = MemoryObject m -> SP (stack w) = Num s -> 0 <= s <= 255 ->
  stack_pull w
  = Done (array_get (Num (0x100 + (s + 1) mod 256)) m)
      (with_SP (Num ((s + 1) mod 256)) w).
Proof.
  intros Hm Hs Hr. healthy w Hm. cbn in Hs. subst sp.
  unfold stack_pull. cbn.
  destruct (Z.ltb_spec 255 (s + 1)); cbn.
  - replace s with 255 by lia. reflexivity.
  - rewrite Z.mod_small by lia. reflexivity.
Qed.

(** The memory methods on a world where [memory] is the object [m]. *)
Lemma memory_PC_run w m :
  memory w = MemoryObject m -> memory_PC w = Done (PC m) w.
Proof. intros Hm. unfold memory_PC. now rewrite Hm. Qed.

Lemma memory_read_run a w m :
  memory w = MemoryObject m -> memory_read a w = Done (array_get a m) w.
Proof. intros Hm. unfold memory_read, memory_method. now rewrite Hm. Qed.

Lemma memory_readWord_run a w m :
  memory w = MemoryObject m ->
  memory_readWord a w
  = Done (array_get a m |' (array_get (a +' 1) m <<' 8)) w.
Proof. intros Hm. unfold memory_readWord, memory_method. now rewrite Hm. Qed.

Lemma set_memory_PC_run v w m :
  memory w = MemoryObject m ->
  set_memory_PC v w
  = Done tt
      (with_memory
         (MemoryObject {| mem := mem m; mem_length := mem_length m; PC := v |})
         w).
Proof. intros Hm. unfold set_memory_PC, modify. now rewrite Hm. Qed.

Lemma fetch_word_run w m :
  memory w = MemoryObject m ->
  fetch_word w
  = Done (array_get (PC m +' 1) m |' (array_get (PC m +' 1 +' 1) m <<' 8)) w.
Proof.
  intros Hm. unfold fetch_word. cbn [bind].
  rewrite (memory_PC_run w m Hm). apply memory_readWord_run, Hm.
Qed.

Lemma cell_object w m a :
  memory w = MemoryObject m -> cell w a = array_get a m.
Proof. intros Hm. unfold cell. now rewrite Hm. Qed.

(** Reading a cell of an array after a write. *)
Lemma array_get_set_eq a v m : array_get a (array_set a v m) = v.
Proof. unfold array_get, array_set. cbn [mem]. now rewrite lookup_insert_eq. Qed.

Lemma array_get_set_ne a b v m :
  a <> b -> array_get a (array_set b v m) = array_get a m.
Proof.
  intros H. unfold array_get, array_set. cbn [mem].
  now rewrite lookup_insert_ne by congruence.
Qed.

(** ** C7: JSR and RTS *)

Lemma in_words (n : Z) : 0 <= n <= 65535 -> In n words.
Proof.
  intros H. unfold words. apply in_flat_map. exists (n / 256). split.
  - apply in_bytes. Z.div_mod_to_equations. lia.
  - apply in_map_iff. exists (n mod 256). split.
    + Z.div_mod_to_equations. lia.
    + apply in_bytes. Z.div_mod_to_equations. lia.
Qed.

(** The two bytes JSR pushes for a 16-bit value, pulled and joined as RTS
    does, are that value. *)
Lemma pushed_word_joins (x : Z) :
  0 <= x <= 65535 ->
  (stored (Num x &' 0xff) |' (stored ((Num x >>' 8) &' 0xff) <<' 8)) = Num x.
Proof.
  intros H.
  assert (T : forallb
                (fun x =>
                   match stored (Num x &' 0xff)
                         |' (stored ((Num x >>' 8) &' 0xff) <<' 8) with
                   | Num y => y =? x
                   | _ => false
                   end) words = true) by (vm_compute; reflexivity).
  rewrite forallb_forall in T. specialize (T x (in_words x H)).
  cbv beta in T.
  destruct (stored (Num x &' 0xff) |' (stored ((Num x >>' 8) &' 0xff) <<' 8));
    try discriminate.
  apply Z.eqb_eq in T. now subst.
Qed.

Lemma dispatch_JSR k e w m p s :
  memory w = MemoryObject m -> PC m = Num p ->
  SP (stack w) = Num s -> 0 <= s <= 255 ->
  exists w', dispatch k e (Num 0x20) w = Done true w'
    /\ SP (stack w') = Num ((s - 2) mod 256)
    /\ cell w' (Num (0x100 + s)) = stored ((Num (p + 2) >>' 8) &' 0xff)
    /\ cell w' (Num (0x100 + (s - 1) mod 256)) = stored (Num (p + 2) &' 0xff).
Proof.
  intros Hm Hpc Hs Hr.
  cbn [dispatch]. unfold bind.
  rewrite (memory_PC_run w m Hm), Hpc. cbn [add].
  rewrite (stack_push_run _ w m s Hm Hs Hr).
  set (m1 := array_set (Num (256 + s)) _ m).
  set (w1 := with_SP _ _).
  assert (Hm1 : memory w1 = MemoryObject m1) by reflexivity.
  assert (Hr1 : 0 <= (s - 1) mod 256 <= 255)
    by (pose proof (Z.mod_pos_bound (s - 1) 256); lia).
  rewrite (memory_PC_run w1 m1 Hm1).
  replace (PC m1) with (Num p) by (symmetry; exact Hpc). cbn [add].
  rewrite (stack_push_run _ w1 m1 ((s - 1) mod 256) Hm1 eq_refl Hr1).
  set (m2 := array_set (Num (256 + (s - 1) mod 256)) _ m1).
  set (w2 := with_SP _ _).
  assert (Hm2 : memory w2 = MemoryObject m2) by reflexivity.
  rewrite (fetch_word_run w2 m2 Hm2).
  rewrite (set_memory_PC_run _ w2 m2 Hm2).
  eexists. split; [reflexivity|]. cbn [ret].
  split; [|split].
  - cbn. f_equal. rewrite Zminus_mod_idemp_l. f_equal. lia.
  - unfold cell. cbn. change (array_get (Num (256 + s)) m2
                              = stored ((Num (p + 2) >>' 8) &' 255)).
    unfold m2. rewrite array_get_set_ne.
    + unfold m1. apply array_get_set_eq.
    + intros E. injection E as E.
      assert (s = (s - 1) mod 256) as E' by lia.
      destruct (Z.eq_dec s 0) as [->|]; [discriminate|].
      rewrite Z.mod_small in E' by lia. lia.
  - unfold cell. cbn. change (array_get (Num (256 + (s - 1) mod 256)) m2
                              = stored (Num (p + 2) &' 255)).
    unfold m2. apply array_get_set_eq.
Qed.

Lemma dispatch_RTS k e w m t :
  memory w = MemoryObject m -> SP (stack w) = Num t -> 0 <= t <= 255 ->
  exists w', dispatch k e (Num 0x60) w = Done true w'
    /\ SP (stack w') = Num ((t + 2) mod 256)
    /\ pc_of w'
       = (array_get (Num (0x100 + (t + 1) mod 256)) m
          |' (array_get (Num (0x100 + (t + 2) mod 256)) m <<' 8)) +' 1.
Proof.
  intros Hm Hs Hr.
  cbn [dispatch]. unfold bind.
  rewrite (stack_pull_run w m t Hm Hs Hr).
  set (w1 := with_SP _ w).
  assert (Hm1 : memory w1 = MemoryObject m) by exact Hm.
  assert (Hr1 : 0 <= (t + 1) mod 256 <= 255)
    by (pose proof (Z.mod_pos_bound (t + 1) 256); lia).
  rewrite (stack_pull_run w1 m ((t + 1) mod 256) Hm1 eq_refl Hr1).
  set (w2 := with_SP _ w1).
  assert (Hm2 : memory w2 = MemoryObject m) by exact Hm.
  rewrite (set_memory_PC_run _ w2 m Hm2).
  subst w2 w1.
  replace (((t + 1) mod 256 + 1) mod 256) with ((t + 2) mod 256)
    by (rewrite Zplus_mod_idemp_l; f_equal; lia).
  eexists. split; [reflexivity|]. split; reflexivity.
Qed.

(** C7: JSR at [p], with its three bytes inside the 64 KiB address space
    and the stack pointer a byte, pushes the two bytes of [p + 2] and moves
    the stack pointer down by two; RTS, executed in any later world whose
    stack pointer and two stack cells are as JSR left them, sets
    [memory.PC] to [p + 3] and the stack pointer to its value before the
    JSR. *)
Theorem JSR_then_RTS_returns e1 e2 w m p s :
  memory w = MemoryObject m -> PC m = Num p ->
  0 <= p -> p + 2 <= 65535 -> p < mem_length m ->
  SP (stack w) = Num s -> 0 <= s <= 255 ->
  fetched e1 w = Num 0x20 ->
  exists w1,
    executeInstruction e1 w = Done true w1
    /\ SP (stack w1) = Num ((s - 2) mod 256)
    /\ forall w2 m2 q,
         memory w2 = MemoryObject m2 -> PC m2 = Num q -> q < mem_length m2 ->
         SP (stack w2) = SP (stack w1) ->
         cell w2 (Num (0x100 + s)) = cell w1 (Num (0x100 + s)) ->
         cell w2 (Num (0x100 + (s - 1) mod 256))
         = cell w1 (Num (0x100 + (s - 1) mod 256)) ->
         fetched e2 w2 = Num 0x60 ->
         exists w3,
           executeInstruction e2 w2 = Done true w3
           /\ pc_of w3 = Num (p + 3)
           /\ SP (stack w3) = Num s.
Proof.
  intros Hm Hpc Hp0 Hp2 Hp Hs Hr Hf.
  rewrite (executeInstruction_dispatch e1 w m p Hm Hpc Hp), Hf.
  destruct (refreshed_registers e1 w m Hm) as (_ & _ & HS).
  pose proof (refreshed_memory e1 w m Hm) as HM.
  assert (HS' : SP (stack (refreshed e1 w)) = Num s) by (now rewrite HS).
  destruct (dispatch_JSR (ret tt) e1 (refreshed e1 w) _ p s HM Hpc HS' Hr)
    as (w1 & Hd & Hsp1 & Hhi & Hlo).
  exists w1. split; [exact Hd|]. split; [exact Hsp1|].
  intros w2 m2 q Hm2 Hq Hql Hsp2 Hc_hi Hc_lo Hf2.
  rewrite (executeInstruction_dispatch e2 w2 m2 q Hm2 Hq Hql), Hf2.
  destruct (refreshed_registers e2 w2 m2 Hm2) as (_ & _ & HS2).
  pose proof (refreshed_memory e2 w2 m2 Hm2) as HM2.
  assert (Ht : 0 <= (s - 2) mod 256 <= 255)
    by (pose proof (Z.mod_pos_bound (s - 2) 256); lia).
  assert (HSr : SP (stack (refreshed e2 w2)) = Num ((s - 2) mod 256))
    by (now rewrite HS2, Hsp2).
  destruct (dispatch_RTS (ret tt) e2 (refreshed e2 w2) _ _ HM2 HSr Ht)
    as (w3 & Hd3 & Hsp3 & Hpc3).
  exists w3. split; [exact Hd3|].
  assert (E1 : ((s - 2) mod 256 + 1) mod 256 = (s - 1) mod 256)
    by (rewrite Zplus_mod_idemp_l; f_equal; lia).
  assert (E2 : ((s - 2) mod 256 + 2) mod 256 = s)
    by (rewrite Zplus_mod_idemp_l;
        replace (s - 2 + 2) with s by lia; apply Z.mod_small; lia).
  rewrite E1, E2 in Hpc3. rewrite E2 in Hsp3.
  split; [|exact Hsp3].
  rewrite Hpc3.
  assert (Hne : forall a : Z, 0x100 <= a -> Num a <> Num 0xfe)
    by (intros a Ha E; injection E as E; lia).
  assert (Hr1 : 0 <= (s - 1) mod 256)
    by (pose proof (Z.mod_pos_bound (s - 1) 256); lia).
  rewrite !array_get_set_ne by (apply Hne; lia).
  rewrite (cell_object w2 m2 _ Hm2) in Hc_hi.
  rewrite (cell_object w2 m2 _ Hm2) in Hc_lo.
  rewrite Hc_lo, Hc_hi, Hhi, Hlo.
  rewrite (pushed_word_joins (p + 2)) by lia.
  cbn [add]. f_equal. lia.
Qed.

(** ** C10: the reset vector *)

(** The reset block of [execute] up to the read of the vector: the nine
    device registers are cleared, the cells of the vector are untouched. *)
Lemma execute_reset_run w m :
  memory w = MemoryObject m ->
  exists w1 m1,
    memory w1 = MemoryObject m1
    /\ array_get 0xfffc m1 = array_get 0xfffc m
    /\ array_get 0xfffd m1 = array_get 0xfffd m
    /\ execute_reset w
       = (let* resetHandler := memory_readWord 0xfffc in
          (if resetHandler >' 0
           then set_memory_PC resetHandler
           else set_memory_PC 0x0800) ;;
          let* pc := memory_PC in
          emit (statusWindow_write (msg_starting pc))) w1.
Proof.
  intros Hm. healthy w Hm. unfold execute_reset.
  match goal with
  | |- context [bind (memory_readWord ?a) ?k] =>
      remember (bind (memory_readWord a) k) as rest eqn:Hrest
  end.
  cbn.
  match goal with
  | |- context [rest ?w1] => exists w1
  end.
  eexists. split; [reflexivity|].
  split; [rewrite !array_get_set_ne by discriminate; reflexivity|].
  split; [rewrite !array_get_set_ne by discriminate; reflexivity|].
  subst rest. reflexivity.
Qed.

Lemma readWord_of_no_vector w m :
  memory w = MemoryObject m ->
  (array_get 0xfffc m = Undefined /\ array_get 0xfffd m = Undefined)
  \/ (array_get 0xfffc m = Num 0 /\ array_get 0xfffd m = Num 0) ->
  memory_readWord 0xfffc w = Done (Num 0) w.
Proof.
  intros Hm Hv.
  rewrite (memory_readWord_run _ w m Hm). cbn [add].
  change (Num (65532 + 1)) with (Num 0xfffd).
  destruct Hv as [[-> ->]|[-> ->]]; reflexivity.
Qed.

(** C10: a word whose two cells are both [undefined] reads as 0, as does a
    word whose two cells hold 0; with either at 0xFFFC/0xFFFD the reset
    block of [execute] sets [memory.PC] to 0x0800. *)
Theorem reset_without_vector_starts_at_0x0800 w m :
  memory w = MemoryObject m ->
  (array_get 0xfffc m = Undefined /\ array_get 0xfffd m = Undefined)
  \/ (array_get 0xfffc m = Num 0 /\ array_get 0xfffd m = Num 0) ->
  memory_readWord 0xfffc w = Done (Num 0) w
  /\ exists w', execute_reset w = Done tt w' /\ pc_of w' = Num 0x0800.
Proof.
  intros Hm Hv.
  split; [exact (readWord_of_no_vector w m Hm Hv)|].
  destruct (execute_reset_run w m Hm) as (w1 & m1 & Hm1 & E1 & E2 & ->).
  rewrite <- E1, <- E2 in Hv.
  unfold bind. rewrite (readWord_of_no_vector w1 m1 Hm1 Hv).
  cbn [gt lt Z.ltb Z.compare].
  rewrite (set_memory_PC_run _ w1 m1 Hm1).
  eexists. split; reflexivity.
Qed.

(** The memory as the script creates it has no vector. *)
Lemma reset_without_vector_witness :
  memory_readWord 0xfffc initial_world = Done (Num 0) initial_world
  /\ exists w',
       execute_reset initial_world = Done tt w' /\ pc_of w' = Num 0x0800.
Proof.
  apply (reset_without_vector_starts_at_0x0800 initial_world _ eq_refl).
  left. split; reflexivity.
Defined.

(** ** C4: the B bit of the pushed status *)

Lemma get_B_stored f : get_B (stored f) = get_B f.
Proof.
  unfold stored. destruct f as [n| |]; cbn [isNaN]; try reflexivity.
  rewrite !get_B_fbit, fbit_band by lia. apply andb_true_r.
Qed.

Lemma get_B_stored_or_16 f : get_B (stored (f |' 16)) = true.
Proof.
  rewrite get_B_stored, get_B_fbit, fbit_bor by lia. apply orb_true_r.
Qed.

(** PHP pushes [P.getFlags()] as it is. *)
Lemma dispatch_PHP k e w m s :
  memory w = MemoryObject m -> SP (stack w) = Num s -> 0 <= s <= 255 ->
  exists w', dispatch k e (Num 0x08) w = Done true w'
    /\ cell w' (Num (0x100 + s)) = stored (flags (P w))
    /\ SP (stack w') = Num ((s - 1) mod 256).
Proof.
  intros Hm Hs Hr. cbn [dispatch]. unfold bind.
  unfold P_getFlags, get_flags.
  rewrite (stack_push_run _ w m s Hm Hs Hr).
  set (w1 := with_SP _ _).
  unfold advance, bind.
  rewrite (memory_PC_run w1 _ eq_refl).
  rewrite (set_memory_PC_run _ w1 _ eq_refl).
  eexists. split; [reflexivity|]. split; [|reflexivity].
  unfold cell. cbn. apply array_get_set_eq.
Qed.

(** The interrupt sequence pushes the two bytes of [memory.PC], then
    [P.getFlags() | 16], and leaves the flags as they were. *)
Lemma interrupt_sequence_run w m s :
  memory w = MemoryObject m -> SP (stack w) = Num s -> 0 <= s <= 255 ->
  exists w', interrupt_sequence w = Done tt w'
    /\ cell w' (Num (0x100 + (s - 2) mod 256)) = stored (flags (P w) |' 16)
    /\ SP (stack w') = Num ((s - 3) mod 256)
    /\ flags (P w') = flags (P w).
Proof.
  intros Hm Hs Hr. unfold interrupt_sequence, bind.
  rewrite (memory_PC_run w m Hm).
  rewrite (stack_push_run _ w m s Hm Hs Hr).
  set (m1 := array_set _ _ m). set (w1 := with_SP _ _).
  assert (Hr1 : 0 <= (s - 1) mod 256 <= 255)
    by (pose proof (Z.mod_pos_bound (s - 1) 256); lia).
  rewrite (memory_PC_run w1 m1 eq_refl).
  rewrite (stack_push_run _ w1 m1 _ eq_refl eq_refl Hr1).
  set (m2 := array_set _ _ m1). set (w2 := with_SP _ _).
  assert (E2 : ((s - 1) mod 256 - 1) mod 256 = (s - 2) mod 256)
    by (rewrite Zminus_mod_idemp_l; f_equal; lia).
  assert (Hr2 : 0 <= (s - 2) mod 256 <= 255)
    by (pose proof (Z.mod_pos_bound (s - 2) 256); lia).
  assert (Hs2 : SP (stack w2) = Num ((s - 2) mod 256))
    by (unfold w2; cbn; now rewrite E2).
  unfold P_getFlags, get_flags.
  rewrite (stack_push_run _ w2 m2 _ eq_refl Hs2 Hr2).
  set (m3 := array_set _ _ m2). set (w3 := with_SP _ _).
  rewrite !(memory_read_run _ w3 m3 eq_refl).
  rewrite (set_memory_PC_run _ w3 m3 eq_refl).
  eexists. split; [reflexivity|]. split; [|split].
  - unfold cell. cbn. unfold m3. apply array_get_set_eq.
  - cbn. f_equal. rewrite Zminus_mod_idemp_l. f_equal. lia.
  - reflexivity.
Qed.

Lemma executeInstruction_PHP e w m p s :
  memory w = MemoryObject m -> PC m = Num p -> p < mem_length m ->
  SP (stack w) = Num s -> 0 <= s <= 255 ->
  fetched e w = Num 0x08 ->
  exists w', executeInstruction e w = Done true w'
    /\ cell w' (Num (0x100 + s)) = stored (flags (P w))
    /\ SP (stack w') = Num ((s - 1) mod 256).
Proof.
  intros Hm Hpc Hp Hs Hr Hf.
  rewrite (executeInstruction_dispatch e w m p Hm Hpc Hp), Hf.
  destruct (refreshed_registers e w m Hm) as (HP & _ & HS).
  pose proof (refreshed_memory e w m Hm) as HM.
  assert (HS' : SP (stack (refreshed e w)) = Num s) by (now rewrite HS).
  destruct (dispatch_PHP (ret tt) e (refreshed e w) _ s HM HS' Hr)
    as (w' & Hd & Hc & Hsp).
  exists w'. rewrite <- HP. auto.
Qed.

(** The callback that [brkInterrupt] queues outside debugging. *)
Lemma run_callback_brk w m s :
  memory w = MemoryObject m -> SP (stack w) = Num s -> 0 <= s <= 255 ->
  exists w', run_callback brk_callback w = Done tt w'
    /\ cell w' (Num (0x100 + (s - 2) mod 256)) = stored (flags (P w) |' 16)
    /\ SP (stack w') = Num ((s - 3) mod 256)
    /\ flags (P w') = flags (P w).
Proof.
  intros Hm Hs Hr.
  destruct (interrupt_sequence_run w m s Hm Hs Hr) as (w1 & E & Hc & Hsp & Hf).
  cbn [run_callback]. unfold bind. rewrite E.
  eexists. split; [reflexivity|]. auto.
Qed.

(** A key other than Escape, with the keyboard box ticked and I clear,
    stores the key code and queues the interrupt. *)
Lemma onkeydown_interrupt e keyCode shiftKey w m :
  memory w = MemoryObject m ->
  programExecuting (host w) = true -> debugOn (host w) = false ->
  keymaskableinterrupt (host w) = true ->
  get_I (flags (P w)) = false -> (keyCode ==' 27) = false ->
  exists w1, onkeydown e keyCode shiftKey w = Done tt w1
    /\ timeouts (host w1) = timeouts (host w) ++ [brk_callback]
    /\ memory w1 = MemoryObject (array_set 0x6e0 (stored keyCode) m)
    /\ P w1 = P w /\ stack w1 = stack w.
Proof.
  intros Hm Hx Hd Hk Hi He.
  unfold onkeydown. cbn [bind get]. rewrite He, Hx, Hk. cbn [negb].
  unfold P_I. cbn [bind]. rewrite Hi. cbn [negb bind emit modify].
  set (w0 := with_host _ w).
  rewrite (memory_writeByte_plain keyCode 0x6e0 w0 m Hm) by lia.
  healthy w Hm. cbn in Hd. subst. eexists. cbn. repeat split.
Qed.

Lemma onmousedown_interrupt e buttons w m :
  memory w = MemoryObject m ->
  programExecuting (host w) = true -> debugOn (host w) = false ->
  mousemaskableinterrupt (host w) = true ->
  get_I (flags (P w)) = false ->
  exists w1, onmousedown e buttons w = Done tt w1
    /\ timeouts (host w1) = timeouts (host w) ++ [brk_callback]
    /\ memory w1 = MemoryObject (array_set 0x6f0 (stored buttons) m)
    /\ P w1 = P w /\ stack w1 = stack w.
Proof.
  intros Hm Hx Hd Hk Hi.
  unfold onmousedown. cbn [bind get]. rewrite Hx, Hk. cbn [negb].
  unfold P_I. cbn [bind]. rewrite Hi. cbn [negb bind emit modify].
  set (w0 := with_host _ w).
  rewrite (memory_writeByte_plain buttons 0x6f0 w0 m Hm) by lia.
  healthy w Hm. cbn in Hd. subst. eexists. cbn. repeat split.
Qed.

(** The same key press while debugging: the handler runs the interrupt
    sequence at once, then one instruction. *)
Lemma onkeydown_interrupt_debugging e keyCode shiftKey w m :
  memory w = MemoryObject m ->
  programExecuting (host w) = true -> debugOn (host w) = true ->
  keymaskableinterrupt (host w) = true ->
  get_I (flags (P w)) = false -> (keyCode ==' 27) = false ->
  exists w1,
    onkeydown e keyCode shiftKey w
    = (interrupt_sequence ;; doInstruction [e]) w1
    /\ memory w1 = MemoryObject (array_set 0x6e0 (stored keyCode) m)
    /\ P w1 = P w /\ stack w1 = stack w.
Proof.
  intros Hm Hx Hd Hk Hi He.
  unfold onkeydown, brkInterrupt, brkInterrupt_open.
  remember (interrupt_sequence ;; doInstruction [e]) as k eqn:Ek.
  cbn [bind get]. rewrite He, Hx, Hk. cbn [negb].
  unfold P_I. cbn [bind]. rewrite Hi. cbn [negb bind emit modify].
  set (w0 := with_host _ w).
  rewrite (memory_writeByte_plain keyCode 0x6e0 w0 m Hm) by lia.
  healthy w Hm. cbn in Hd. subst dbg. eexists. cbn. repeat split.
Qed.

Lemma onmousedown_interrupt_debugging e buttons w m :
  memory w = MemoryObject m ->
  programExecuting (host w) = true -> debugOn (host w) = true ->
  mousemaskableinterrupt (host w) = true ->
  get_I (flags (P w)) = false ->
  exists w1,
    onmousedown e buttons w = (interrupt_sequence ;; doInstruction [e]) w1
    /\ memory w1 = MemoryObject (array_set 0x6f0 (stored buttons) m)
    /\ P w1 = P w /\ stack w1 = stack w.
Proof.
  intros Hm Hx Hd Hk Hi.
  unfold onmousedown, brkInterrupt, brkInterrupt_open.
  remember (interrupt_sequence ;; doInstruction [e]) as k eqn:Ek.
  cbn [bind get]. rewrite Hx, Hk. cbn [negb].
  unfold P_I. cbn [bind]. rewrite Hi. cbn [negb bind emit modify].
  set (w0 := with_host _ w).
  rewrite (memory_writeByte_plain buttons 0x6f0 w0 m Hm) by lia.
  healthy w Hm. cbn in Hd. subst dbg. eexists. cbn. repeat split.
Qed.

(** C4, as the code has it: a key press or a mouse click taken as a
    maskable interrupt, while debugging or not, pushes [P | 16], so bit 4
    of the pushed status byte is 1. *)
Theorem interrupt_pushes_B_set e w m s :
  memory w = MemoryObject m -> SP (stack w) = Num s -> 0 <= s <= 255 ->
  programExecuting (host w) = true -> get_I (flags (P w)) = false ->
  (forall keyCode shiftKey,
      keymaskableinterrupt (host w) = true -> (keyCode ==' 27) = false ->
      interrupt_taken (onkeydown e keyCode shiftKey) e w s)
  /\ (forall buttons,
        mousemaskableinterrupt (host w) = true ->
        interrupt_taken (onmousedown e buttons) e w s).
Proof.
  intros Hm Hs Hr Hx Hi. unfold interrupt_taken.
  split; [intros keyCode shiftKey Hk He|intros buttons Hk];
    destruct (debugOn (host w)) eqn:Hd.
  - destruct (onkeydown_interrupt_debugging e keyCode shiftKey w m
                Hm Hx Hd Hk Hi He) as (w1 & E1 & Hm1 & HP & HS).
    assert (Hs1 : SP (stack w1) = Num s) by (now rewrite HS).
    destruct (interrupt_sequence_run w1 _ s Hm1 Hs1 Hr)
      as (w2 & E2 & Hc & _).
    exists w1, w2. repeat (split; [assumption|]).
    rewrite HP in Hc.
    split; [|split; [exact Hc|rewrite Hc; apply get_B_stored_or_16]].
    rewrite E1. unfold bind. now rewrite E2.
  - destruct (onkeydown_interrupt e keyCode shiftKey w m Hm Hx Hd Hk Hi He)
      as (w1 & E1 & Ht & Hm1 & HP & HS).
    assert (Hs1 : SP (stack w1) = Num s) by (now rewrite HS).
    destruct (run_callback_brk w1 _ s Hm1 Hs1 Hr) as (w2 & E2 & Hc & _).
    exists w1, w2. repeat (split; [assumption|]).
    rewrite HP in Hc.
    split; [exact Hc|rewrite Hc; apply get_B_stored_or_16].
  - destruct (onmousedown_interrupt_debugging e buttons w m Hm Hx Hd Hk Hi)
      as (w1 & E1 & Hm1 & HP & HS).
    assert (Hs1 : SP (stack w1) = Num s) by (now rewrite HS).
    destruct (interrupt_sequence_run w1 _ s Hm1 Hs1 Hr)
      as (w2 & E2 & Hc & _).
    exists w1, w2. repeat (split; [assumption|]).
    rewrite HP in Hc.
    split; [|split; [exact Hc|rewrite Hc; apply get_B_stored_or_16]].
    rewrite E1. unfold bind. now rewrite E2.
  - destruct (onmousedown_interrupt e buttons w m Hm Hx Hd Hk Hi)
      as (w1 & E1 & Ht & Hm1 & HP & HS).
    assert (Hs1 : SP (stack w1) = Num s) by (now rewrite HS).
    destruct (run_callback_brk w1 _ s Hm1 Hs1 Hr) as (w2 & E2 & Hc & _).
    exists w1, w2. repeat (split; [assumption|]).
    rewrite HP in Hc.
    split; [exact Hc|rewrite Hc; apply get_B_stored_or_16].
Qed.

(** The A key and the left mouse button after CLI, both boxes ticked:
    without the debugger, and with it. *)
Lemma interrupt_pushes_B_set_witness :
  (interrupt_taken (onkeydown env0 65 false) env0 before_PHP 255
   /\ interrupt_taken (onmousedown env0 1) env0 before_PHP 255)
  /\ (interrupt_taken (onkeydown env0 65 false) env0 (debugging before_PHP)
        255
      /\ interrupt_taken (onmousedown env0 1) env0 (debugging before_PHP)
           255).
Proof.
  split.
  - destruct (interrupt_pushes_B_set env0 before_PHP _ 255 eq_refl eq_refl
                ltac:(lia) eq_refl eq_refl) as [Hk Hb].
    split; [apply Hk; reflexivity|apply Hb; reflexivity].
  - destruct (interrupt_pushes_B_set env0 (debugging before_PHP) _ 255
                eq_refl eq_refl ltac:(lia) eq_refl eq_refl) as [Hk Hb].
    split; [apply Hk; reflexivity|apply Hb; reflexivity].
Defined.

(** Against C4 as stated: from the flags 0x20 that CLI leaves, the
    interrupt taken for a key press pushes 0x30, whose bit 4 is 1, without
    the debugger (from the queued callback) and with it (at once). *)
Lemma key_interrupt_pushes_0x30 :
  flags (P before_PHP) = Num 0x20
  /\ (exists w1 w2,
        onkeydown env0 65 false before_PHP = Done tt w1
        /\ timeouts (host w1) = [brk_callback]
        /\ run_callback brk_callback w1 = Done tt w2
        /\ cell w2 (Num 0x1fd) = Num 0x30
        /\ get_B (cell w2 (Num 0x1fd)) = true)
  /\ (exists w1 w2,
        P w1 = P before_PHP /\ stack w1 = stack before_PHP
        /\ interrupt_sequence w1 = Done tt w2
        /\ onkeydown env0 65 false (debugging before_PHP)
           = doInstruction [env0] w2
        /\ cell w2 (Num 0x1fd) = Num 0x30
        /\ get_B (cell w2 (Num 0x1fd)) = true).
Proof.
  split; [reflexivity|]. split.
  - eexists. eexists. split; [vm_compute; reflexivity|].
    split; [reflexivity|]. split; [vm_compute; reflexivity|].
    split; reflexivity.
  - destruct (onkeydown_interrupt_debugging env0 65 false
                (debugging before_PHP) _ eq_refl eq_refl eq_refl eq_refl
                eq_refl eq_refl) as (w1 & E1 & Hm1 & HP & HS).
    destruct (interrupt_sequence_run w1 _ 255 Hm1
                ltac:(rewrite HS; reflexivity) ltac:(lia))
      as (w2 & E2 & Hc & _).
    exists w1, w2. split; [exact HP|]. split; [exact HS|].
    split; [exact E2|].
    split; [rewrite E1; unfold bind; now rewrite E2|].
    change (Num (0x100 + (255 - 2) mod 256)) with (Num 0x1fd) in Hc.
    rewrite Hc, HP. split; reflexivity.
Qed.

(** PHP, for its part, pushes the flags without bit 4: from the flags 0x20
    it pushes 0x20. *)
Lemma PHP_pushes_P_unchanged :
  flags (P before_PHP) = Num 0x20
  /\ exists w',
       executeInstruction env0 before_PHP = Done true w'
       /\ cell w' (Num 0x1ff) = Num 0x20
       /\ get_B (cell w' (Num 0x1ff)) = false.
Proof.
  split; [reflexivity|].
  eexists. split; [vm_compute; reflexivity|]. split; reflexivity.
Qed.

(** ** C6: ADC in decimal mode *)

Lemma PC_array_set a v m : PC (array_set a v m) = PC m.
Proof. reflexivity. Qed.

(** The shared body of the eight ADC cases, on the global objects. *)
Lemma ADC_packed_BCD_run a b w :
  A (MPU w) = Num a -> is_bcd a = true -> is_bcd b = true ->
  get_D (flags (P w)) = true ->
  exists w' n,
    ADC (Num b) w = Done tt w'
    /\ memory w' = memory w
    /\ A (MPU w') = Num n
    /\ is_bcd n = true
    /\ decimal n = (decimal a + decimal b + carry_in w) mod 100
    /\ get_C (flags (P w')) = (100 <=? decimal a + decimal b + carry_in w).
Proof.
  intros HA Ha Hb HD.
  destruct (ADC_body_packed_BCD a b (flags (P w)) Ha Hb HD)
    as (n & f' & E & Hn & Hdec & HC).
  unfold ADC, on_A_flags, modify. rewrite HA, E.
  eexists. exists n. split; [reflexivity|]. cbn. auto.
Qed.

(** C6: with the D flag set and packed-BCD bytes [a] in the accumulator and
    [b] as operand, the body the eight ADC cases share leaves in the
    accumulator the packed-BCD byte of the decimal sum modulo 100 and sets
    C iff that sum is at least 100; so does the instruction ADC immediate
    (opcode 0x69) with [b] as its operand byte. *)
Theorem ADC_decimal_is_packed_BCD_sum a b w :
  A (MPU w) = Num a -> is_bcd a = true -> is_bcd b = true ->
  get_D (flags (P w)) = true ->
  (exists w' n,
      ADC (Num b) w = Done tt w'
      /\ A (MPU w') = Num n /\ is_bcd n = true
      /\ decimal n = decimal_sum a b w mod 100
      /\ get_C (flags (P w')) = (100 <=? decimal_sum a b w))
  /\ (forall e m p,
        memory w = MemoryObject m -> PC m = Num p -> p < mem_length m ->
        fetched e w = Num 0x69 ->
        cell (refreshed e w) (Num (p + 1)) = Num b ->
        exists w' n,
          executeInstruction e w = Done true w'
          /\ A (MPU w') = Num n /\ is_bcd n = true
          /\ decimal n = decimal_sum a b w mod 100
          /\ get_C (flags (P w')) = (100 <=? decimal_sum a b w)).
Proof.
  intros HA Ha Hb HD. unfold decimal_sum. split.
  - destruct (ADC_packed_BCD_run a b w HA Ha Hb HD)
      as (w' & n & E & _ & H). exists w', n. auto.
  - intros e m p Hm Hpc Hp Hf Hb'.
    rewrite (executeInstruction_dispatch e w m p Hm Hpc Hp), Hf.
    destruct (refreshed_registers e w m Hm) as (HP & HR & _).
    pose proof (refreshed_memory e w m Hm) as HM.
    set (w0 := refreshed e w) in *.
    cbn [dispatch]. unfold fetch_byte. cbn [bind].
    rewrite (memory_PC_run w0 _ HM), PC_array_set, Hpc.
    cbn [add]. rewrite (memory_read_run _ w0 _ HM).
    rewrite (cell_object w0 _ _ HM) in Hb'. rewrite Hb'.
    assert (HA0 : A (MPU w0) = Num a) by (now rewrite HR).
    assert (HD0 : get_D (flags (P w0)) = true) by (now rewrite HP).
    destruct (ADC_packed_BCD_run a b w0 HA0 Ha Hb HD0)
      as (w1 & n & E & Hm1 & HA1 & Hn & Hdec & HC).
    rewrite E. rewrite HM in Hm1.
    unfold advance. cbn [bind].
    rewrite (memory_PC_run w1 _ Hm1).
    rewrite (set_memory_PC_run _ w1 _ Hm1). cbn [ret].
    eexists. exists n. split; [reflexivity|].
    unfold carry_in in *. rewrite HP in Hdec, HC. cbn. auto.
Qed.

(** 99 + 01 with the carry clear, after [LDA #$99], [SED], [CLC]. *)
Lemma ADC_decimal_is_packed_BCD_sum_witness :
  (exists w' n,
      ADC (Num 0x01) (after 3 BCD_wrap_program) = Done tt w'
      /\ A (MPU w') = Num n /\ is_bcd n = true
      /\ decimal n = decimal_sum 0x99 0x01 (after 3 BCD_wrap_program) mod 100
      /\ get_C (flags (P w'))
         = (100 <=? decimal_sum 0x99 0x01 (after 3 BCD_wrap_program)))
  /\ (exists w' n,
        executeInstruction env0 (after 3 BCD_wrap_program) = Done true w'
        /\ A (MPU w') = Num n /\ is_bcd n = true
        /\ decimal n
           = decimal_sum 0x99 0x01 (after 3 BCD_wrap_program) mod 100
        /\ get_C (flags (P w'))
           = (100 <=? decimal_sum 0x99 0x01 (after 3 BCD_wrap_program))).
Proof.
  destruct (ADC_decimal_is_packed_BCD_sum 0x99 0x01
              (after 3 BCD_wrap_program)
              eq_refl eq_refl eq_refl eq_refl) as [H1 H2].
  split; [exact H1|].
  eapply (H2 env0 _ 0x0804); reflexivity.
Defined.

(** ** C2: the Z flag and the result *)

Lemma array_get_with_PC_set a x n q :
  array_get a {| mem := mem x; mem_length := n; PC := q |} = array_get a x.
Proof. reflexivity. Qed.

Lemma land_wrap32_ones (n k : Z) :
  0 <= k <= 32 -> Z.land (wrap32 n) (Z.ones k) = n mod 2 ^ k.
Proof.
  intros Hk. rewrite Z.land_ones by lia.
  apply Z.bits_inj'. intros j Hj.
  destruct (Z.ltb_spec j k).
  - rewrite !Z.mod_pow2_bits_low by lia. apply testbit_wrap32. lia.
  - rewrite !Z.mod_pow2_bits_high by lia. reflexivity.
Qed.

(** The byte stored for a number is the number modulo 256. *)
Lemma stored_byte (n : Z) : stored (Num n) = Num (n mod 256).
Proof.
  unfold stored. cbn [isNaN]. unfold band, ToInt32.
  change (wrap32 255) with (Z.ones 8). now rewrite land_wrap32_ones by lia.
Qed.

(** The device registers 0x6b0 (screen) and 0x6b1 (beeper): a positive
    number written there triggers the device once and the cell is set back
    to 0; a number that is not positive triggers nothing and is stored like
    any byte. *)
Lemma memory_writeByte_device n a w m :
  memory w = MemoryObject m ->
  a = 0x6b0 \/ a = 0x6b1 ->
  exists w',
    memory_writeByte (Num n) (Num a) w = Done tt w'
    /\ cell w' (Num a) = (if 0 <? n then Num 0 else Num (n mod 256))
    /\ events (host w')
       = (if 0 <? n
          then (if a =? 0x6b0 then screen_clear else beep) :: events (host w)
          else events (host w)).
Proof.
  intros Hm Ha. rewrite <- stored_byte. healthy w Hm.
  unfold memory_writeByte, writeByte_body, stored. cbn [isNaN].
  destruct Ha as [-> | ->]; destruct (Z.ltb_spec 0 n) as [Hn|Hn];
    exec; bool_facts; try lia;
    (eexists; split; [reflexivity|]); unfold cell; cbn;
    rewrite ?array_get_set_eq; split; reflexivity.
Qed.

(** What a write leaves behind, whatever the address: the other objects
    are untouched, a cell other than the two device registers holds the
    byte stored, and a device register holds 0. *)
Lemma memory_writeByte_effect v addr w m :
  memory w = MemoryObject m ->
  exists w' m',
    memory_writeByte v addr w = Done tt w'
    /\ memory w' = MemoryObject m'
    /\ flags (P w') = flags (P w) /\ MPU w' = MPU w
    /\ SP (stack w') = SP (stack w)
    /\ (forall a, addr = Num a -> a <> 0x6b0 -> a <> 0x6b1 ->
                  array_get (Num a) m' = stored v)
    /\ (forall a n, addr = Num a -> v = Num n -> 0 <= n <= 255 ->
                    a = 0x6b0 \/ a = 0x6b1 ->
                    array_get (Num a) m' = Num 0).
Proof.
  intros Hm.
  assert (Hdev : forall w' m' a n,
             memory_writeByte v addr w = Done tt w' ->
             memory w' = MemoryObject m' ->
             addr = Num a -> v = Num n -> 0 <= n <= 255 ->
             a = 0x6b0 \/ a = 0x6b1 -> array_get (Num a) m' = Num 0).
  { intros w' m' a n E Hm' -> -> Hn Ha.
    destruct (memory_writeByte_device n a w m Hm Ha) as (w2 & E2 & Hc & _).
    rewrite E in E2. injection E2 as <-.
    unfold cell in Hc. rewrite Hm' in Hc. rewrite Hc.
    destruct (Z.ltb_spec 0 n); [reflexivity|].
    now replace n with 0 by lia. }
  revert Hdev. healthy w Hm.
  unfold memory_writeByte, writeByte_body, stored.
  destruct (isNaN v) eqn:Hv; destruct addr as [a| |]; exec; intros Hdev;
    (eexists; eexists; split; [reflexivity|]);
    (split; [reflexivity|]);
    repeat (split; [reflexivity|]);
    (split; [|intros a' n' Ea Ev Hn Ha;
              exact (Hdev _ _ a' n' eq_refl eq_refl Ea Ev Hn Ha)]);
    intros a' Ea H0 H1; try discriminate Ea;
    injection Ea as <-; bool_facts; try lia;
    cbn; now rewrite ?array_get_with_PC_set, array_get_set_eq.
Qed.

(** A masked value is a byte, and stored as it is. *)
Lemma band_is_byte (x : value) (m : Z) :
  m = 255 \/ m = 254 \/ m = 127 ->
  exists k, x &' Num m = Num k /\ 0 <= k <= 255.
Proof.
  intros Hm. unfold band. eexists. split; [reflexivity|].
  cbn [ToInt32]. rewrite (wrap32_small m) by lia.
  assert (T : forallb (fun k => (Z.land k 255 <=? 255)
                                && (Z.land k 254 <=? 255)
                                && (Z.land k 127 <=? 255)) bytes = true)
    by (vm_compute; reflexivity).
  pose proof (Z.mod_pos_bound (ToInt32 x) 256 ltac:(lia)) as B.
  pose proof (bytes_forall _ T (ToInt32 x mod 256) ltac:(lia)) as E.
  cbv beta in E.
  apply andb_prop in E as [E E3]. apply andb_prop in E as [E1 E2].
  apply Z.leb_le in E1, E2, E3.
  assert (L : Z.land (ToInt32 x) m = Z.land (ToInt32 x mod 256) m).
  { change 256 with (2 ^ 8). rewrite <- Z.land_ones by lia.
    rewrite <- Z.land_assoc. f_equal.
    destruct Hm as [-> |[-> | ->]]; reflexivity. }
  rewrite L. split.
  - apply Z.land_nonneg. right. lia.
  - destruct Hm as [-> |[-> | ->]]; assumption.
Qed.

Lemma bor_bit_is_byte (k j : Z) :
  0 <= k <= 255 -> j = 0 \/ j = 1 \/ j = 128 ->
  exists n, Num k |' Num j = Num n /\ 0 <= n <= 255.
Proof.
  intros Hk Hj. unfold bor. eexists. split; [reflexivity|].
  cbn [ToInt32]. rewrite (wrap32_small k) by lia.
  assert (T : forallb (fun k => (Z.lor k 0 <=? 255) && (Z.lor k 1 <=? 255)
                                && (Z.lor k 128 <=? 255)) bytes = true)
    by (vm_compute; reflexivity).
  pose proof (bytes_forall _ T k Hk) as E. cbv beta in E.
  apply andb_prop in E as [E E3]. apply andb_prop in E as [E1 E2].
  apply Z.leb_le in E1, E2, E3.
  assert (0 <= Z.lor k j) by (apply Z.lor_nonneg; lia).
  destruct Hj as [-> |[-> | ->]]; rewrite wrap32_small by lia; lia.
Qed.

(** The byte written back by a read-modify-write instruction is a byte,
    and stored as it is. *)
Lemma result_is_byte (f : value -> bool -> value) (b : value) (c : bool) :
  f = INC_result \/ f = DEC_result \/ f = ASL_result \/ f = ROL_result
  \/ f = ROR_result ->
  exists k, f b c = Num k /\ 0 <= k <= 255.
Proof.
  intros [-> |[-> |[-> |[-> | ->]]]].
  - apply band_is_byte. auto.
  - apply band_is_byte. auto.
  - apply band_is_byte. auto.
  - unfold ROL_result.
    destruct (band_is_byte (b <<' 1) 254 ltac:(auto)) as (k & -> & Hk).
    replace (bit_of c) with (Num (if c then 1 else 0)) by (now destruct c).
    apply bor_bit_is_byte; [exact Hk|destruct c; auto].
  - unfold ROR_result.
    destruct (band_is_byte (b >>>' 1) 127 ltac:(auto)) as (k & -> & Hk).
    replace (if c then Num 128 else Num 0)
      with (Num (if c then 128 else 0)) by (now destruct c).
    apply bor_bit_is_byte; [exact Hk|destruct c; auto].
Qed.

(** Running a case of the switch up to and through its write. *)
Ltac run_to_write R :=
  repeat (cbn -[memory_writeByte] in R;
          try match type of R with
            | context [(if ?c then _ else _) _] => destruct c eqn:?
            end).

Ltac run_through_write R Hcell Hdev :=
  run_to_write R;
  match type of R with
  | context [memory_writeByte ?v ?a ?w0] =>
      let w1 := fresh "w1" in
      let m1 := fresh "m1" in
      let E := fresh "E" in
      let Hm1 := fresh "Hm1" in
      let HP1 := fresh "HP1" in
      let HR1 := fresh "HR1" in
      let HS1 := fresh "HS1" in
      destruct (memory_writeByte_effect v a w0 _ eq_refl)
        as (w1 & m1 & E & Hm1 & HP1 & HR1 & HS1 & Hcell & Hdev);
      destruct_world w1; cbn in Hm1, HP1, HR1, HS1;
      rewrite Hm1, HP1, HR1, HS1 in E; rewrite E in R; clear E;
      repeat (cbn in R;
              try match type of R with
                | context [(if ?c then _ else _) _] => destruct c eqn:?
                end)
  end.

(** INC, DEC, ASL, ROL and ROR on memory: Z is set iff the byte written
    back is 0, and that byte is what the cell then holds, unless the cell
    is a device register, which holds 0. *)
Lemma dispatch_memory_result k e w m op addr_c f :
  memory w = MemoryObject m ->
  memory_result op = Some (addr_c, f) ->
  exists w' addr,
    addr_c w = Done addr w
    /\ dispatch k e (Num op) w = Done true w'
    /\ get_Z (flags (P w'))
       = (f (cell w addr) (get_C (flags (P w))) ==' 0)
    /\ (forall a, addr = Num a -> a <> 0x6b0 -> a <> 0x6b1 ->
                  cell w' (Num a) = f (cell w addr) (get_C (flags (P w))))
    /\ (forall a, addr = Num a -> a = 0x6b0 \/ a = 0x6b1 ->
                  cell w' (Num a) = Num 0).
Proof.
  intros Hm Hop. healthy w Hm. unfold memory_result in Hop.
  repeat match type of Hop with
         | (if ?o =? ?c then _ else _) = _ =>
             destruct (Z.eqb_spec o c) as [-> |_];
             [ injection Hop as <- <-;
               remember (dispatch k e (Num c) _) as res eqn:R;
               run_through_write R Hcell Hdev;
               (eexists; eexists; split; [reflexivity|]);
               (split; [exact R|]);
               (split;
                [ cbn;
                  repeat first [rewrite get_Z_setBit by lia
                               | rewrite get_Z_clearBit by lia];
                  rewrite get_Z_setZN; reflexivity
                | ]);
               match goal with
               | |- (forall a, _ -> _ -> _ -> _ = ?g ?b ?c) /\ _ =>
                   destruct (result_is_byte g b c ltac:(auto 6))
                     as (n & En & Hn)
               end;
               (split;
                [ intros a Ea H0 H1; unfold cell; cbn;
                  rewrite array_get_with_PC_set, (Hcell a Ea H0 H1);
                  transitivity (stored (Num n));
                  [ f_equal; exact En
                  | rewrite stored_byte, Z.mod_small by lia;
                    symmetry; exact En ]
                | intros a Ea Ha; unfold cell; cbn;
                  rewrite array_get_with_PC_set;
                  exact (Hdev a n Ea En Hn Ha) ])
             | ]
         end.
  discriminate.
Qed.

Ltac compare_case :=
  exec;
  (eexists; eexists; split; [reflexivity|]);
  (split; [reflexivity|]);
  cbn;
  repeat first [rewrite get_Z_setBit by lia | rewrite get_Z_clearBit by lia];
  rewrite ?get_Z_setZN;
  repeat first [rewrite get_Z_setBit by lia | rewrite get_Z_clearBit by lia];
  rewrite ?get_Z_setZN;
  reflexivity.

(** CMP, CPX and CPY: Z is set iff the register minus the operand is 0. *)
Lemma dispatch_compare_result k e w m op reg operand_c :
  memory w = MemoryObject m ->
  compare_result op = Some (reg, operand_c) ->
  exists w' b,
    operand_c w = Done b w
    /\ dispatch k e (Num op) w = Done true w'
    /\ get_Z (flags (P w')) = ((reg (MPU w) -' b) ==' 0).
Proof.
  intros Hm Hop. healthy w Hm. unfold compare_result in Hop.
  repeat match type of Hop with
         | (if ?o =? ?c then _ else _) = _ =>
             destruct (Z.eqb_spec o c) as [-> |_];
             [ injection Hop as <- <-; solve [compare_case] | ]
         end.
  discriminate.
Qed.

(** BIT: Z is set iff the accumulator and the operand have no bit in
    common. *)
Lemma dispatch_bit_test k e w m op operand_c :
  memory w = MemoryObject m ->
  bit_test_operand op = Some operand_c ->
  exists w' b,
    operand_c w = Done b w
    /\ dispatch k e (Num op) w = Done true w'
    /\ get_Z (flags (P w')) = ((A (MPU w) &' b) ==' 0).
Proof.
  intros Hm Hop. healthy w Hm. unfold bit_test_operand in Hop.
  repeat match type of Hop with
         | (if ?o =? ?c then _ else _) = _ =>
             destruct (Z.eqb_spec o c) as [-> |_];
             [ injection Hop as <-; solve [compare_case] | ]
         end.
  discriminate.
Qed.

(** On bytes the difference is 0 iff the two are equal. *)
Lemma compare_bytes_equal (x y : Z) :
  0 <= x <= 255 -> 0 <= y <= 255 -> ((Num x -' Num y) ==' 0) = (x =? y).
Proof.
  intros Hx Hy. cbn.
  destruct (Z.eqb_spec x y), (Z.eqb_spec (x - y) 0); lia || reflexivity.
Qed.

(** The register half, for any instruction of [result_register]. *)
Lemma register_result_run e w m p op reg :
  memory w = MemoryObject m -> PC m = Num p -> p < mem_length m ->
  fetched e w = Num op ->
  result_register op = Some reg ->
  (In op ADC_opcodes -> get_D (flags (P w)) = false) ->
  exists w',
    executeInstruction e w = Done true w'
    /\ get_Z (flags (P w')) = (reg (MPU w') ==' 0).
Proof.
  intros Hm Hpc Hp Hf Hreg HD.
  rewrite (executeInstruction_dispatch e w m p Hm Hpc Hp), Hf.
  destruct (refreshed_registers e w m Hm) as (HP & _ & _).
  apply (dispatch_register_result _ e _ _ op reg (refreshed_memory e w m Hm)
           Hreg).
  intros Hin. rewrite HP. now apply HD.
Qed.

(** ADC takes Z from the low byte of the binary sum, in either mode. *)
Lemma ADC_Z_of_binary_sum b w :
  exists w',
    ADC b w = Done tt w'
    /\ get_Z (flags (P w'))
       = (((A (MPU w) +' b +' bit_of (get_C (flags (P w)))) &' 255) ==' 0).
Proof.
  unfold ADC, on_A_flags, modify.
  pose proof (get_Z_ADC_body b (A (MPU w)) (flags (P w))) as HZ.
  destruct (ADC_body b (A (MPU w)) (flags (P w))) as [a' f'].
  eexists. split; [reflexivity|]. exact HZ.
Qed.

(** C2, as the code has it.  An instruction that leaves its result in a
    register -- a load, a transfer into A, X or Y, PLA, the input
    instruction, AND, ORA, EOR, INX, INY, DEX, DEY, a shift or rotate of
    the accumulator, and ADC with the D flag clear -- sets Z iff that
    register then holds 0.  INC, DEC, ASL, ROL and ROR on memory set Z iff
    the byte they write back is 0; the cell written holds that byte
    afterwards, unless it is one of the device registers 0x6b0 and 0x6b1,
    which hold 0.  CMP, CPX and CPY set Z iff the register minus the
    operand is 0, that is, on bytes, iff the two are equal.  BIT sets Z iff
    the accumulator and the operand have no bit in common.  ADC in either
    mode takes Z from the low byte of the binary sum A + b + C. *)
Theorem Z_flag_follows_result e w m p op :
  memory w = MemoryObject m -> PC m = Num p -> p < mem_length m ->
  fetched e w = Num op ->
  (forall reg,
      result_register op = Some reg ->
      (In op ADC_opcodes -> get_D (flags (P w)) = false) ->
      exists w',
        executeInstruction e w = Done true w'
        /\ get_Z (flags (P w')) = (reg (MPU w') ==' 0))
  /\ (forall addr_c f,
        memory_result op = Some (addr_c, f) ->
        exists w' addr,
          addr_c (refreshed e w) = Done addr (refreshed e w)
          /\ executeInstruction e w = Done true w'
          /\ get_Z (flags (P w'))
             = (f (cell (refreshed e w) addr) (get_C (flags (P w))) ==' 0)
          /\ (forall a, addr = Num a -> a <> 0x6b0 -> a <> 0x6b1 ->
                cell w' (Num a)
                = f (cell (refreshed e w) addr) (get_C (flags (P w))))
          /\ (forall a, addr = Num a -> a = 0x6b0 \/ a = 0x6b1 ->
                cell w' (Num a) = Num 0))
  /\ (forall reg operand_c,
        compare_result op = Some (reg, operand_c) ->
        exists w' b,
          operand_c (refreshed e w) = Done b (refreshed e w)
          /\ executeInstruction e w = Done true w'
          /\ get_Z (flags (P w')) = ((reg (MPU w) -' b) ==' 0)
          /\ (forall x y, reg (MPU w) = Num x -> b = Num y ->
                0 <= x <= 255 -> 0 <= y <= 255 ->
                get_Z (flags (P w')) = (x =? y)))
  /\ (forall operand_c,
        bit_test_operand op = Some operand_c ->
        exists w' b,
          operand_c (refreshed e w) = Done b (refreshed e w)
          /\ executeInstruction e w = Done true w'
          /\ get_Z (flags (P w')) = ((A (MPU w) &' b) ==' 0))
  /\ (forall b, exists w',
        ADC b w = Done tt w'
        /\ get_Z (flags (P w'))
           = (((A (MPU w) +' b +' bit_of (get_C (flags (P w)))) &' 255)
              ==' 0)).
Proof.
  intros Hm Hpc Hp Hf.
  pose proof (executeInstruction_dispatch e w m p Hm Hpc Hp) as Hx.
  rewrite Hf in Hx.
  destruct (refreshed_registers e w m Hm) as (HP & HR & _).
  pose proof (refreshed_memory e w m Hm) as HM.
  split; [|split; [|split; [|split]]].
  - intros reg. exact (register_result_run e w m p op reg Hm Hpc Hp Hf).
  - intros addr_c f Hop. rewrite Hx, <- HP.
    exact (dispatch_memory_result _ e _ _ op addr_c f HM Hop).
  - intros reg operand_c Hop. rewrite Hx, <- HR.
    destruct (dispatch_compare_result (ret tt) e _ _ op reg operand_c HM Hop)
      as (w' & b & Hb & Hd & HZ).
    exists w', b. repeat (split; [assumption|]).
    intros x y Ex Ey Hbx Hby. rewrite HZ, Ex, Ey.
    now apply compare_bytes_equal.
  - intros operand_c Hop. rewrite Hx, <- HR.
    exact (dispatch_bit_test _ e _ _ op operand_c HM Hop).
  - exact (fun b => ADC_Z_of_binary_sum b w).
Qed.

(** [LDA #$00], [INC $10], [CMP #$00] and [BIT $10], each at the start of
    a program. *)
Lemma Z_flag_follows_result_witness :
  (exists w',
      executeInstruction env0 (started [0xa9; 0x00]) = Done true w'
      /\ get_Z (flags (P w')) = (A (MPU w') ==' 0))
  /\ (exists w' addr,
         fetch_byte (refreshed env0 (started [0xe6; 0x10]))
         = Done addr (refreshed env0 (started [0xe6; 0x10]))
         /\ executeInstruction env0 (started [0xe6; 0x10]) = Done true w'
         /\ get_Z (flags (P w'))
            = (INC_result
                 (cell (refreshed env0 (started [0xe6; 0x10])) addr)
                 (get_C (flags (P (started [0xe6; 0x10])))) ==' 0)
         /\ (forall a, addr = Num a -> a <> 0x6b0 -> a <> 0x6b1 ->
               cell w' (Num a)
               = INC_result
                   (cell (refreshed env0 (started [0xe6; 0x10])) addr)
                   (get_C (flags (P (started [0xe6; 0x10])))))
         /\ (forall a, addr = Num a -> a = 0x6b0 \/ a = 0x6b1 ->
               cell w' (Num a) = Num 0))
  /\ (exists w' b,
         fetch_byte (refreshed env0 (started [0xc9; 0x00]))
         = Done b (refreshed env0 (started [0xc9; 0x00]))
         /\ executeInstruction env0 (started [0xc9; 0x00]) = Done true w'
         /\ get_Z (flags (P w'))
            = ((A (MPU (started [0xc9; 0x00])) -' b) ==' 0)
         /\ (forall x y, A (MPU (started [0xc9; 0x00])) = Num x ->
               b = Num y -> 0 <= x <= 255 -> 0 <= y <= 255 ->
               get_Z (flags (P w')) = (x =? y)))
  /\ (exists w' b,
         operand_at fetch_byte (refreshed env0 (started [0x24; 0x10]))
         = Done b (refreshed env0 (started [0x24; 0x10]))
         /\ executeInstruction env0 (started [0x24; 0x10]) = Done true w'
         /\ get_Z (flags (P w'))
            = ((A (MPU (started [0x24; 0x10])) &' b) ==' 0)).
Proof.
  split; [|split; [|split]].
  - eapply (proj1 (Z_flag_follows_result env0 (started [0xa9; 0x00]) _
                     0x0800 0xa9 eq_refl eq_refl eq_refl eq_refl) A);
      reflexivity.
  - exact (proj1 (proj2 (Z_flag_follows_result env0 (started [0xe6; 0x10]) _
                           0x0800 0xe6 eq_refl eq_refl eq_refl eq_refl))
             fetch_byte INC_result eq_refl).
  - exact (proj1 (proj2 (proj2
                    (Z_flag_follows_result env0 (started [0xc9; 0x00]) _
                       0x0800 0xc9 eq_refl eq_refl eq_refl eq_refl)))
             A fetch_byte eq_refl).
  - exact (proj1 (proj2 (proj2 (proj2
                    (Z_flag_follows_result env0 (started [0x24; 0x10]) _
                       0x0800 0x24 eq_refl eq_refl eq_refl eq_refl))))
             (operand_at fetch_byte) eq_refl).
Defined.

(** Against C2 as stated: [LDA #$99], [SED], [CLC], [ADC #$01] leaves 0 in
    the accumulator and sets C, with the Z flag clear. *)
Lemma decimal_ADC_result_zero_Z_clear :
  A (MPU (after 4 BCD_wrap_program)) = Num 0
  /\ get_C (flags (P (after 4 BCD_wrap_program))) = true
  /\ get_Z (flags (P (after 4 BCD_wrap_program))) = false.
Proof. vm_compute. repeat split; reflexivity. Qed.

(** LSR on memory takes Z from the operand it read, not from the byte it
    wrote: [LDA #$01], [STA $10], [LSR $10] stores 0 in cell 0x10 and
    leaves Z clear. *)
Lemma LSR_memory_Z_of_operand :
  cell (after 3 [0xa9; 0x01; 0x85; 0x10; 0x46; 0x10]) 0x10 = Num 0
  /\ get_Z (flags (P (after 3 [0xa9; 0x01; 0x85; 0x10; 0x46; 0x10])))
     = false.
Proof. vm_compute. split; reflexivity. Qed.

(** [JSR $0805] at 0x0800 followed at once by the [RTS] at 0x0805. *)
Lemma JSR_then_RTS_returns_witness :
  exists w1,
    executeInstruction env0 (started call_program) = Done true w1
    /\ SP (stack w1) = Num ((255 - 2) mod 256)
    /\ exists w3,
         executeInstruction env0 w1 = Done true w3
         /\ pc_of w3 = Num (0x0800 + 3)
         /\ SP (stack w3) = Num 255.
Proof.
  destruct (JSR_then_RTS_returns env0 env0 (started call_program) _
              0x0800 255 eq_refl eq_refl) as (w1 & E & Hsp & H);
    [lia | lia | reflexivity | reflexivity | lia | reflexivity |].
  exists w1. split; [exact E|]. split; [exact Hsp|].
  assert (E1 : w1 = world_of (executeInstruction env0 (started call_program)))
    by (rewrite E; reflexivity).
  eapply (H w1 _ 0x0805); try reflexivity; subst w1; reflexivity.
Defined.

(** ** C8: the branch fixup of pass 2 *)

(** A write to a cell other than the two device registers 0x6b0 and 0x6b1
    returns and leaves in the cell the byte stored. *)
Lemma memory_writeByte_cell v a w m :
  memory w = MemoryObject m -> a <> 0x6b0 -> a <> 0x6b1 ->
  exists w', memory_writeByte v (Num a) w = Done tt w'
             /\ cell w' (Num a) = stored v.
Proof.
  intros Hm H0 H1. healthy w Hm.
  unfold memory_writeByte, writeByte_body, stored.
  destruct (isNaN v) eqn:Hv; exec; bool_facts; try lia;
    (eexists; split; [reflexivity|]); unfold cell; cbn;
    apply array_get_set_eq.
Qed.

(** A write through the object [memory] does not throw. *)
Lemma memory_writeByte_returns v a w m :
  memory w = MemoryObject m ->
  exists w', memory_writeByte v (Num a) w = Done tt w'.
Proof.
  intros Hm. healthy w Hm.
  unfold memory_writeByte, writeByte_body.
  destruct (isNaN v) eqn:Hv; exec; eexists; reflexivity.
Qed.

Lemma distance_byte_mod d :
  -128 <= d <= 127 -> distance_byte d = Num (d mod 256).
Proof.
  intros H.
  assert (T : forallb (fun n => match distance_byte (n - 128) with
                                | Num b => b =? (n - 128) mod 256
                                | _ => false
                                end) bytes = true)
    by (vm_compute; reflexivity).
  pose proof (bytes_forall _ T (d + 128) ltac:(lia)) as E. cbv beta in E.
  replace (d + 128 - 128) with d in E by lia.
  destruct (distance_byte d); try discriminate.
  apply Z.eqb_eq in E. now subst.
Qed.

(** [getTwosComplement] reads the byte back as the distance. *)
Lemma getTwosComplement_distance d :
  -128 <= d <= 127 -> getTwosComplement (Num (d mod 256)) = Num d.
Proof.
  intros H.
  assert (T : forallb (fun n =>
                         match getTwosComplement (Num ((n - 128) mod 256)) with
                         | Num b => b =? n - 128
                         | _ => false
                         end) bytes = true)
    by (vm_compute; reflexivity).
  pose proof (bytes_forall _ T (d + 128) ltac:(lia)) as E. cbv beta in E.
  replace (d + 128 - 128) with d in E by lia.
  destruct (getTwosComplement _); try discriminate.
  apply Z.eqb_eq in E. now subst.
Qed.

(** One iteration of the loop, once the target is known. *)
Lemma resolve_branch_run addr text lab plus a v w :
  split_offset text = (lab, plus) ->
  labels (asm w) !! lab = Some a ->
  branch_target a plus w = Done (Num v) w ->
  resolve_branch (Num addr, text) w
  = if (127 <? v - addr - 1) || (v - addr - 1 <? -128)
    then Raise (branchOutOfRange text (Num (v - addr - 1))) w
    else memory_writeByte (distance_byte (v - addr - 1)) (Num addr) w.
Proof.
  intros Hs Hl Ht. unfold resolve_branch. rewrite Hs.
  unfold lookup_label. cbn [bind]. rewrite Hl. cbn [bind]. rewrite Ht.
  cbn [sub gt lt]. unfold distance_byte.
  destruct ((127 <? v - addr - 1) || (v - addr - 1 <? -128)); reflexivity.
Qed.

(** ** Decimal texts *)

Lemma span_all (p : ascii -> bool) (s : string) :
  all_chars p s = true -> span p s = (s, EmptyString).
Proof.
  induction s as [|c r IH]; [reflexivity|].
  cbn. intros H. apply andb_prop in H as [Hc Hr].
  now rewrite Hc, (IH Hr).
Qed.

(** Case analysis on a character that is a decimal digit. *)
Ltac digit_cases c H :=
  destruct c as [[] [] [] [] [] [] [] []];
  try (exfalso; vm_compute in H; discriminate H).

Lemma is_literal_decimal (s : string) :
  one_or_more is_digit s = true -> is_literal s = true.
Proof.
  destruct s as [|c r]; [discriminate|]. intros H.
  assert (Hc : is_digit c = true)
    by (cbn in H; now apply andb_prop in H as [? _]).
  digit_cases c Hc; exact H.
Qed.

(** [convertValue] on a decimal text that names neither a label nor a
    constant. *)
Lemma convertValue_decimal (s : string) (w : world) :
  labels (asm w) !! s = None -> constants (asm w) !! s = None ->
  one_or_more is_digit s = true ->
  convertValue s w = Done (parseInt s 10) w.
Proof.
  intros Hl Hk H. unfold convertValue, lookup_label. cbn [bind]. rewrite Hl.
  destruct s as [|c r]; [discriminate|].
  assert (Hc : is_digit c = true)
    by (cbn in H; now apply andb_prop in H as [? _]).
  cbn [one_or_more] in H. pose proof (span_all _ _ H) as Hspan.
  digit_cases c Hc;
    cbn [first_char String.eqb Ascii.eqb Bool.eqb orb andb];
    unfold lookup_constant; cbn [bind]; rewrite Hk;
    cbn [default getHighLowByte ret option_rect from_option];
    unfold convertValue_match; rewrite Hspan; reflexivity.
Qed.

Lemma append_cons (c : ascii) (s t : string) :
  (String c s ++ t)%string = String c (s ++ t).
Proof. reflexivity. Qed.

Lemma append_empty (s : string) : (s ++ EmptyString)%string = s.
Proof.
  induction s as [|a s IH]; [reflexivity|]. now rewrite append_cons, IH.
Qed.

Lemma parse_digits_app (r : Z) (s t : string) (k : Z) :
  parse_digits r (s ++ t) k = parse_digits r t (parse_digits r s k).
Proof.
  revert k. induction s as [|c s IH]; intros k; [reflexivity|].
  rewrite append_cons. cbn [parse_digits]. apply IH.
Qed.

Lemma all_chars_app (p : ascii -> bool) (s t : string) :
  all_chars p (s ++ t) = all_chars p s && all_chars p t.
Proof.
  induction s as [|c s IH]; [reflexivity|].
  rewrite append_cons. cbn [all_chars]. rewrite IH. apply andb_assoc.
Qed.

(** The character of a decimal digit. *)
Lemma digit_char_decimal (d : Z) :
  0 <= d <= 9 ->
  is_digit (digit_char d) = true
  /\ is_radix_digit 10 (digit_char d) = true
  /\ digit_value (digit_char d) = Some d
  /\ is_white_space (digit_char d) = false
  /\ Ascii.eqb (digit_char d) "-" = false
  /\ Ascii.eqb (digit_char d) "+" = false.
Proof.
  intros H.
  assert (C : d = 0 \/ d = 1 \/ d = 2 \/ d = 3 \/ d = 4 \/ d = 5 \/ d = 6
              \/ d = 7 \/ d = 8 \/ d = 9) by lia.
  repeat (destruct C as [-> |C]; [repeat split; reflexivity|]).
  subst. repeat split; reflexivity.
Qed.

Lemma append_snoc (s : string) (d : ascii) (acc : string) :
  (s ++ String d acc)%string = ((s ++ String d EmptyString) ++ acc)%string.
Proof.
  induction s as [|c s IH]; [reflexivity|]. rewrite !append_cons. now rewrite IH.
Qed.

Lemma length_snoc (s : string) (d : ascii) :
  String.length (s ++ String d EmptyString) = S (String.length s).
Proof.
  induction s as [|c s IH]; [reflexivity|].
  rewrite append_cons. cbn [String.length]. now rewrite IH.
Qed.

(** The digits [to_digits] puts in front of [acc], given fuel for them:
    a non-empty run of decimal digits that reads back as [n]. *)
Lemma to_digits_decimal (fuel : nat) :
  forall (n : Z) (acc : string),
    0 <= n < 2 ^ (Z.of_nat fuel + 1) ->
    exists ds c,
      to_digits (S fuel) 10 n acc = (String c ds ++ acc)%string
      /\ is_digit c = true /\ is_white_space c = false
      /\ Ascii.eqb c "-" = false /\ Ascii.eqb c "+" = false
      /\ all_chars is_digit (String c ds) = true
      /\ all_chars (is_radix_digit 10) (String c ds) = true
      /\ forall k, parse_digits 10 (String c ds) k
                   = k * 10 ^ Z.of_nat (String.length (String c ds)) + n.
Proof.
  assert (One : forall n acc,
             0 <= n -> n / 10 = 0 ->
             exists ds c,
               String (digit_char (n mod 10)) acc
               = (String c ds ++ acc)%string
               /\ is_digit c = true /\ is_white_space c = false
               /\ Ascii.eqb c "-" = false /\ Ascii.eqb c "+" = false
               /\ all_chars is_digit (String c ds) = true
               /\ all_chars (is_radix_digit 10) (String c ds) = true
               /\ forall k, parse_digits 10 (String c ds) k
                            = k * 10 ^ Z.of_nat (String.length (String c ds))
                              + n).
  { intros n acc Hn Hq.
    assert (Hd : 0 <= n mod 10 <= 9)
      by (pose proof (Z.mod_pos_bound n 10); lia).
    destruct (digit_char_decimal _ Hd) as (D1 & D2 & D3 & D4 & D5 & D6).
    exists EmptyString, (digit_char (n mod 10)).
    split; [reflexivity|]. repeat (split; [assumption|]).
    cbn [all_chars]. rewrite D1, D2.
    split; [reflexivity|]. split; [reflexivity|].
    intros k. cbn [parse_digits String.length]. rewrite D3. cbn [default].
    change (10 ^ Z.of_nat 1) with 10.
    pose proof (Z.div_mod n 10 ltac:(lia)).
    unfold id. lia. }
  induction fuel as [|fuel IH]; intros n acc Hn.
  - change (2 ^ (Z.of_nat 0 + 1)) with 2 in Hn.
    cbn [to_digits].
    assert (Hq : n / 10 = 0) by (apply Z.div_small; lia).
    rewrite Hq. cbn [Z.eqb]. apply One; lia.
  - assert (Step : to_digits (S (S fuel)) 10 n acc
                   = if n / 10 =? 0
                     then String (digit_char (n mod 10)) acc
                     else to_digits (S fuel) 10 (n / 10)
                            (String (digit_char (n mod 10)) acc))
      by reflexivity.
    rewrite Step.
    destruct (Z.eqb_spec (n / 10) 0) as [Hq|Hq].
    + apply One; [lia | exact Hq].
    + assert (Hn' : 0 <= n / 10 < 2 ^ (Z.of_nat fuel + 1)).
      { split; [apply Z.div_pos; lia|].
        apply Z.div_lt_upper_bound; [lia|].
        replace (Z.of_nat (S fuel) + 1) with (Z.of_nat fuel + 1 + 1) in Hn
          by lia.
        rewrite Z.pow_add_r in Hn by lia. change (2 ^ 1) with 2 in Hn.
        pose proof (Z.pow_pos_nonneg 2 (Z.of_nat fuel + 1)). lia. }
      destruct (IH (n / 10) (String (digit_char (n mod 10)) acc) Hn')
        as (ds & c & E & C1 & C2 & C3 & C4 & A1 & A2 & HP).
      assert (Hd : 0 <= n mod 10 <= 9)
        by (pose proof (Z.mod_pos_bound n 10); lia).
      destruct (digit_char_decimal _ Hd) as (D1 & D2 & D3 & _).
      exists (ds ++ String (digit_char (n mod 10)) EmptyString)%string, c.
      split.
      { rewrite E, !append_cons. f_equal. apply append_snoc. }
      repeat (split; [assumption|]).
      change (String c (ds ++ String (digit_char (n mod 10)) EmptyString))
        with (String c ds ++ String (digit_char (n mod 10)) EmptyString)%string.
      rewrite !all_chars_app, A1, A2. cbn [all_chars]. rewrite D1, D2.
      split; [reflexivity|]. split; [reflexivity|].
      intros k. rewrite parse_digits_app, HP.
      cbn [parse_digits]. rewrite D3. cbn [default from_option]. unfold id.
      rewrite length_snoc, Nat2Z.inj_succ, Z.pow_succ_r by lia.
      pose proof (Z.div_mod n 10 ltac:(lia)). lia.
Qed.

(** The fuel [Z_toString] gives is enough. *)
Lemma log2_fuel (n : Z) :
  0 <= n -> 0 <= n < 2 ^ (Z.of_nat (Z.to_nat (Z.log2 n)) + 1).
Proof.
  intros H. rewrite Z2Nat.id by apply Z.log2_nonneg.
  destruct (Z.eq_dec n 0) as [-> |Hn]; [cbn; lia|].
  pose proof (Z.log2_spec n ltac:(lia)) as S.
  replace (Z.log2 n + 1) with (Z.succ (Z.log2 n)) by lia. lia.
Qed.

(** [parseInt] reads the decimal text of an integer back as the integer,
    and the text of a natural number is a run of decimal digits. *)
Lemma parseInt_Z_toString_any (n : Z) :
  parseInt (Z_toString n 10) 10 = Num n.
Proof.
  unfold Z_toString.
  destruct (to_digits_decimal _ (Z.abs n) EmptyString
              (log2_fuel (Z.abs n) (Z.abs_nonneg n)))
    as (ds & c & E & C1 & C2 & C3 & C4 & A1 & A2 & HP).
  rewrite E.
  rewrite append_empty.
  assert (Digits : forall sign : Z,
             match fst (span (is_radix_digit 10) (String c ds)) with
             | EmptyString => NaN
             | String a s0 => Num (sign * parse_digits 10 (String a s0) 0)
             end = Num (sign * Z.abs n)).
  { intros sign. rewrite (span_all _ _ A2). cbn [fst].
    rewrite HP. now rewrite Z.mul_0_l. }
  destruct (Z.ltb_spec n 0) as [Hneg|Hpos].
  - unfold parseInt. cbn [span is_white_space]. 
    change (is_white_space "-") with false. cbn [snd].
    cbn [Z.eqb]. rewrite Digits. f_equal. lia.
  - unfold parseInt. cbn [span]. rewrite C2. cbn [snd].
    assert (Sign : (match String c ds with
                    | String "-" r => (-1, r)
                    | String "+" r => (1, r)
                    | _ => (1, String c ds)
                    end) = (1, String c ds)).
    { clear -C3 C4.
      destruct c as [[] [] [] [] [] [] [] []]; try reflexivity;
        discriminate. }
    rewrite Sign. cbn [Z.eqb]. rewrite Digits. f_equal. lia.
Qed.

Lemma Z_toString_digits (n : Z) :
  0 <= n -> one_or_more is_digit (Z_toString n 10) = true.
Proof.
  intros H. unfold Z_toString.
  destruct (to_digits_decimal _ (Z.abs n) EmptyString
              (log2_fuel (Z.abs n) (Z.abs_nonneg n)))
    as (ds & c & E & C1 & C2 & C3 & C4 & A1 & A2 & HP).
  rewrite E.
  rewrite append_empty.
  destruct (Z.ltb_spec n 0); [lia|]. exact A1.
Qed.

(** ** C9: [addValue] *)

Lemma is_literal_cases (i : string) :
  is_literal i = true ->
  (exists r, i = String "$" r) \/ (exists r, i = String "%" r)
  \/ one_or_more is_digit i = true.
Proof.
  destruct i as [|c r]; [discriminate|].
  destruct c as [[] [] [] [] [] [] [] []]; intros H;
    first [ left; eexists; reflexivity
          | right; left; eexists; reflexivity
          | right; right; exact H ].
Qed.

Lemma masked_sum (x z : Z) (b : bool) :
  (Num x +' Num z) &' Num (if b then 65535 else 255)
  = Num ((x + z) mod (if b then 65536 else 256)).
Proof.
  unfold band, add, ToInt32. f_equal.
  assert (H : forall k, 0 <= k <= 32 ->
                Z.land (wrap32 (x + z)) (Z.ones k) = (x + z) mod 2 ^ k).
  { intros k Hk. rewrite Z.land_ones by lia.
    apply Z.bits_inj'. intros j Hj.
    destruct (Z.ltb_spec j k).
    - rewrite !Z.mod_pow2_bits_low by lia. apply testbit_wrap32. lia.
    - rewrite !Z.mod_pow2_bits_high by lia. reflexivity. }
  destruct b.
  - change (wrap32 65535) with (Z.ones 16). apply (H 16). lia.
  - change (wrap32 255) with (Z.ones 8). apply (H 8). lia.
Qed.

(** [parseInt(v)] of the signed second operand: the number goes through
    its decimal text and back. *)
Lemma parseInt_of_signed (y : Z) (c : ascii) :
  parseInt_of_number
    (mul (Num y)
       (if String.eqb (String c EmptyString) "-" then Num (-1) else Num 1))
  = Num (sign_of c * y).
Proof.
  unfold sign_of. cbn [String.eqb].
  destruct (Ascii.eqb c "-"); cbn [mul parseInt_of_number];
    rewrite parseInt_Z_toString_any; f_equal; lia.
Qed.

(** The tail of [addValue], from [convertValue(s)] on. *)
Lemma addValue_sum (i : string) (c : ascii) (x y : Z) :
  is_literal i = true ->
  parseInt (literal_digits i) (literal_base i) = Num x ->
  forall w : world,
    (match i with
     | String "$" r =>
         let m := if 3 <? Z.of_nat (String.length i) then 65535 else 255 in
         let* digits :=
           value_toString
             ((parseInt r 16
               +' parseInt_of_number
                    (mul (Num y)
                       (if String.eqb (String c EmptyString) "-"
                        then Num (-1) else Num 1))) &' m) 16 in
         ret ("$" ++ digits)%string
     | String "%" r =>
         let m := if 9 <? Z.of_nat (String.length i) then 65535 else 255 in
         let* digits :=
           value_toString
             ((parseInt r 2
               +' parseInt_of_number
                    (mul (Num y)
                       (if String.eqb (String c EmptyString) "-"
                        then Num (-1) else Num 1))) &' m) 2 in
         ret ("%" ++ digits)%string
     | _ =>
         let m := if parseInt i 10 >' 255 then 65535 else 255 in
         value_toString
           ((parseInt i 10
             +' parseInt_of_number
                  (mul (Num y)
                     (if String.eqb (String c EmptyString) "-"
                      then Num (-1) else Num 1))) &' m) 10
     end) w
    = Done (base_prefix (literal_base i)
            ++ Z_toString ((x + sign_of c * y)
                           mod (if wide i then 65536 else 256))
                 (literal_base i))%string w.
Proof.
  intros Hi Hx w. rewrite (parseInt_of_signed y c).
  destruct (is_literal_cases i Hi) as [[r ->]|[[r ->]|Hd]].
  - cbn [literal_digits literal_base] in Hx.
    cbv zeta. rewrite Hx, masked_sum. reflexivity.
  - cbn [literal_digits literal_base] in Hx.
    cbv zeta. rewrite Hx, masked_sum. reflexivity.
  - destruct i as [|d r]; [discriminate|].
    assert (Hc : is_digit d = true)
      by (cbn in Hd; now apply andb_prop in Hd as [? _]).
    digit_cases d Hc;
      cbn [literal_digits literal_base] in Hx;
      cbn [wide]; cbv zeta; rewrite Hx, masked_sum; reflexivity.
Qed.

(** [addValue] on a literal first operand and a signed second operand. *)
Lemma addValue_run i i' c t s x y w :
  default i (constants (asm w) !! i) = i' ->
  is_literal i' = true ->
  c = "+"%char \/ c = "-"%char ->
  operand_text t w = Some s ->
  convertValue s w = Done (Num y) w ->
  parseInt (literal_digits i') (literal_base i') = Num x ->
  addValue i (Some (String c t)) w
  = Done (base_prefix (literal_base i')
          ++ Z_toString ((x + sign_of c * y)
                         mod (if wide i' then 65536 else 256))
               (literal_base i'))%string w.
Proof.
  intros Hi Hlit Hc Ht Hs Hx.
  unfold addValue, lookup_constant. cbn [bind].
  change (from_option id i (constants (asm w) !! i))
    with (default i (constants (asm w) !! i)).
  rewrite Hi, Hlit. cbn [negb].
  assert (Hsign : Ascii.eqb c "+" || Ascii.eqb c "-" = true)
    by (destruct Hc as [-> | ->]; reflexivity).
  unfold addValue_match. rewrite Hsign.
  unfold operand_text in Ht.
  destruct (is_literal t) eqn:Et.
  - injection Ht as <-. cbn [ret bind]. rewrite Hs.
    cbn [first_char].
    apply (addValue_sum i' c x y Hlit Hx).
  - destruct (one_or_more is_word_char t) eqn:Ew; [|discriminate].
    cbn [bind]. rewrite Ht. cbn [ret bind]. rewrite Hs.
    cbn [first_char].
    apply (addValue_sum i' c x y Hlit Hx).
Qed.




(** ** C8: the branch fixup of pass 2, from the label to the byte *)

Lemma indexOf_all_chars (p : ascii -> bool) (c : ascii) (s : string) :
  all_chars p s = true -> p c = false -> indexOf c s = None.
Proof.
  intros H Hc. induction s as [|d r IH]; [reflexivity|].
  cbn [all_chars] in H. apply andb_prop in H as [Hd Hr].
  cbn [indexOf]. destruct (Ascii.eqb_spec c d) as [-> |_].
  - congruence.
  - now rewrite (IH Hr).
Qed.

Lemma indexOf_app_found (c : ascii) (s t : string) :
  indexOf c s = None ->
  indexOf c (s ++ String c t) = Some (String.length s).
Proof.
  induction s as [|d r IH]; intros H.
  - cbn [indexOf]. change (EmptyString ++ String c t)%string
      with (String c t). cbn [indexOf]. now rewrite Ascii.eqb_refl.
  - rewrite append_cons. cbn [indexOf] in *.
    destruct (Ascii.eqb c d); [discriminate|].
    destruct (indexOf c r); [discriminate|].
    now rewrite (IH eq_refl).
Qed.

Lemma indexOf_app_none (c : ascii) (s t : string) :
  indexOf c s = None -> indexOf c t = None -> indexOf c (s ++ t) = None.
Proof.
  induction s as [|d r IH]; intros H Ht; [exact Ht|].
  rewrite append_cons. cbn [indexOf] in *.
  destruct (Ascii.eqb c d); [discriminate|].
  destruct (indexOf c r); [discriminate|].
  now rewrite (IH eq_refl Ht).
Qed.

Lemma take_drop_app (s t : string) :
  take_chars (String.length s) (s ++ t) = s
  /\ drop_chars (String.length s) (s ++ t) = t.
Proof.
  induction s as [|d r [IH1 IH2]].
  - split; [reflexivity|].
    change (EmptyString ++ t)%string with t. reflexivity.
  - rewrite append_cons. cbn [String.length take_chars drop_chars].
    now rewrite IH1, IH2.
Qed.

Lemma one_or_more_all (p : ascii -> bool) (s : string) :
  one_or_more p s = true -> all_chars p s = true.
Proof. destruct s; [discriminate | trivial]. Qed.

(** A literal and a name hold no sign. *)
Lemma term_without_sign (t : string) (c : ascii) :
  c = "+"%char \/ c = "-"%char ->
  is_literal t = true \/ one_or_more is_word_char t = true ->
  indexOf c t = None.
Proof.
  intros Hc [Hl|Hw].
  - destruct (is_literal_cases t Hl) as [[r ->]|[[r ->]|Hd]].
    + cbn [is_literal] in Hl. apply one_or_more_all in Hl.
      cbn [indexOf].
      rewrite (indexOf_all_chars _ c r Hl)
        by (destruct Hc as [-> | ->]; reflexivity).
      destruct Hc as [-> | ->]; reflexivity.
    + cbn [is_literal] in Hl. apply one_or_more_all in Hl.
      cbn [indexOf].
      rewrite (indexOf_all_chars _ c r Hl)
        by (destruct Hc as [-> | ->]; reflexivity).
      destruct Hc as [-> | ->]; reflexivity.
    + apply (indexOf_all_chars is_digit);
        [now apply one_or_more_all | destruct Hc as [-> | ->]; reflexivity].
  - apply (indexOf_all_chars is_word_char);
      [now apply one_or_more_all | destruct Hc as [-> | ->]; reflexivity].
Qed.

(** The split of an entry at its sign. *)
Lemma split_offset_entry (lab : string) (off : option (ascii * string)) :
  one_or_more is_word_char lab = true ->
  match off with
  | None => True
  | Some (c, t) =>
      (c = "+"%char \/ c = "-"%char)
      /\ (is_literal t = true \/ one_or_more is_word_char t = true)
  end ->
  split_offset (branch_entry_text lab off)
  = (lab, match off with
          | None => None
          | Some (c, t) => Some (String c t)
          end).
Proof.
  intros Hlab Hoff.
  assert (Hplus : indexOf "+" lab = None)
    by (apply (term_without_sign lab "+"); auto).
  assert (Hminus : indexOf "-" lab = None)
    by (apply (term_without_sign lab "-"); auto).
  unfold split_offset, branch_entry_text.
  destruct off as [[c t]|].
  - destruct Hoff as ([-> | ->] & Ht).
    + rewrite (indexOf_app_found "+" lab t Hplus).
      now destruct (take_drop_app lab (String "+" t)) as [-> ->].
    + rewrite (indexOf_app_none "+" lab (String "-" t) Hplus).
      2:{ cbn [indexOf]. change (Ascii.eqb "+" "-") with false.
          now rewrite (term_without_sign t "+" (or_introl eq_refl) Ht). }
      rewrite (indexOf_app_found "-" lab t Hminus).
      now destruct (take_drop_app lab (String "-" t)) as [-> ->].
  - now rewrite Hplus, Hminus.
Qed.

(** A decimal first operand of [addValue]. *)
Lemma decimal_literal (i : string) :
  one_or_more is_digit i = true ->
  literal_base i = 10 /\ literal_digits i = i
  /\ wide i = (parseInt i 10 >' 255).
Proof.
  destruct i as [|d r]; [discriminate|]. intros H.
  assert (Hc : is_digit d = true)
    by (cbn in H; now apply andb_prop in H as [? _]).
  digit_cases d Hc; repeat split; reflexivity.
Qed.

(** The target of a branch to a label at [a], without offset and with
    one: the entry's label address goes through its decimal text, so the
    text must name no constant and no label. *)
Lemma branch_target_label (a : Z) (w : world) :
  0 <= a ->
  constants (asm w) !! Z_toString a 10 = None ->
  labels (asm w) !! Z_toString a 10 = None ->
  branch_target (Num a) None w = Done (Num a) w.
Proof.
  intros Ha Hk Hl. unfold branch_target. cbn [value_toString bind ret].
  pose proof (Z_toString_digits a Ha) as Hd.
  unfold addValue, lookup_constant. cbn [bind]. rewrite Hk.
  cbn [default from_option]. rewrite (is_literal_decimal _ Hd).
  cbn [negb ret].
  rewrite (convertValue_decimal _ w Hl Hk Hd).
  now rewrite parseInt_Z_toString_any.
Qed.

Lemma branch_target_offset (a y v : Z) (c : ascii) (t s : string)
    (w : world) :
  0 <= a ->
  constants (asm w) !! Z_toString a 10 = None ->
  c = "+"%char \/ c = "-"%char ->
  operand_text t w = Some s ->
  convertValue s w = Done (Num y) w ->
  v = (a + sign_of c * y) mod (if 255 <? a then 65536 else 256) ->
  labels (asm w) !! Z_toString v 10 = None ->
  constants (asm w) !! Z_toString v 10 = None ->
  branch_target (Num a) (Some (String c t)) w = Done (Num v) w.
Proof.
  intros Ha Hk Hc Ht Hs Hv Hlv Hkv.
  unfold branch_target. cbn [value_toString bind ret].
  pose proof (Z_toString_digits a Ha) as Hd.
  destruct (decimal_literal _ Hd) as (Eb & Ed & Ew).
  assert (Hi : default (Z_toString a 10)
                 (constants (asm w) !! Z_toString a 10) = Z_toString a 10)
    by (now rewrite Hk).
  assert (Hx : parseInt (literal_digits (Z_toString a 10))
                 (literal_base (Z_toString a 10)) = Num a)
    by (rewrite Eb, Ed; apply parseInt_Z_toString_any).
  rewrite (addValue_run _ _ c t s a y w Hi (is_literal_decimal _ Hd) Hc Ht Hs
             Hx).
  rewrite Eb, Ew, parseInt_Z_toString_any. cbn [gt lt].
  rewrite <- Hv.
  change (base_prefix 10 ++ Z_toString v 10)%string with (Z_toString v 10).
  assert (Hv0 : 0 <= v)
    by (subst v; destruct (255 <? a); apply Z.mod_pos_bound; lia).
  rewrite (convertValue_decimal _ w Hlv Hkv (Z_toString_digits v Hv0)).
  now rewrite parseInt_Z_toString_any.
Qed.



